(** * The sensor ingestion pipeline of [ingestion.py]: bronze, silver, gold

    A shallow embedding of the message handler of [src/ingestion.py] and of
    the functions it drives: [connect_database], [store_raw_data],
    [store_to_silver], [refresh_gold_layer], [flush_batch], [on_message] and
    [main].

    The module-level globals of the script ([db_conn], [db_cursor],
    [last_gold_refresh], [batch_buffer], [last_commit_time]) are the fields of
    one state record, together with the two things the script acts on: the
    directory of raw files and the row store behind the connection.  Python
    exceptions are explicit: a computation yields a value or raises, and keeps
    the state it reached either way.  What the outside world answers (whether a
    write or a statement succeeds, what the clocks read) is an input of each
    call, so every statement below holds for every behaviour of the
    environment. *)

From Stdlib Require Import ZArith Lia Ascii String List.
From stdpp Require Import gmap strings list fin_maps.

Local Open Scope string_scope.
Local Open Scope list_scope.
Local Open Scope Z_scope.

(** ** Python strings *)

Module PyStr.

Definition newline : ascii := "010"%char.

(** [c.lower()] on the ASCII range. *)
Definition lower_char (c : ascii) : ascii :=
  let n := nat_of_ascii c in
  if (65 <=? n)%nat && (n <=? 90)%nat then ascii_of_nat (n + 32) else c.

(** [s.lower()]. *)
Fixpoint lower (s : string) : string :=
  match s with
  | EmptyString => EmptyString
  | String c t => String (lower_char c) (lower t)
  end.

(** [needle in hay]. *)
Fixpoint contains (needle hay : string) : bool :=
  String.prefix needle hay ||
  match hay with
  | EmptyString => false
  | String _ t => contains needle t
  end.

(** [s.replace(' ', '_')]. *)
Fixpoint replace_space (s : string) : string :=
  match s with
  | EmptyString => EmptyString
  | String c t =>
      String (if Ascii.eqb c " "%char then "_"%char else c) (replace_space t)
  end.

(** [c not in s]. *)
Fixpoint free_of (c : ascii) (s : string) : bool :=
  match s with
  | EmptyString => true
  | String d t => negb (Ascii.eqb d c) && free_of c t
  end.

(** A text file holds whole lines when it is empty or ends in a newline. *)
Fixpoint terminated (s : string) : bool :=
  match s with
  | EmptyString => true
  | String c EmptyString => Ascii.eqb c newline
  | String _ t => terminated t
  end.

(** The lines of a text, without their terminators, as iterating over the
    file yields them; [cur] is the line being read. *)
Fixpoint lines_from (cur : string) (s : string) : list string :=
  match s with
  | EmptyString => match cur with EmptyString => [] | _ => [cur] end
  | String c t =>
      if Ascii.eqb c newline then cur :: lines_from EmptyString t
      else lines_from (cur +:+ String c EmptyString) t
  end.

Definition splitlines (s : string) : list string := lines_from EmptyString s.

Definition last_line (s : string) : option string := last (splitlines s).

End PyStr.

(** ** Exceptions *)

(** The classes met in the script; all of them derive from [Exception]. *)
Inductive ExnClass :=
| OperationalError | InterfaceError | DataError
| KeyError | TypeError | ValueError | AttributeError
| OSError | JSONDecodeError.

(** An exception object: its class and [str(e)]. *)
Record Exn := mkExn { exn_class : ExnClass; exn_text : string }.

Definition is_operational (e : Exn) : bool :=
  match exn_class e with OperationalError => true | _ => false end.

(** The classes of [psycopg2.Error]: what the driver raises for an error the
    server reports or for a connection that is gone.  The other classes are
    raised on the client before anything is sent. *)
Definition is_database_error (e : Exn) : bool :=
  match exn_class e with
  | OperationalError | InterfaceError | DataError => true
  | _ => false
  end.

(** The result of evaluating an expression or running a statement. *)
Inductive Result (A : Type) :=
| Ret (a : A)
| Raise (e : Exn).
Arguments Ret {A} a.
Arguments Raise {A} e.

Definition returns {A} (r : Result A) : bool :=
  match r with Ret _ => true | Raise _ => false end.

(** What an external call does: it completes, or raises. *)
Inductive Outcome := Done | Fails (e : Exn).

(** ** Decoded payloads *)

(** The values [json.loads] builds.  A dict keeps its items in order.  A float
    is kept by its [repr]: the handler does no arithmetic on a reading. *)
#[local] Unset Elimination Schemes.
Inductive json :=
| JNull
| JBool (b : bool)
| JInt (n : Z)
| JFloat (repr : string)
| JStr (s : string)
| JArr (items : list json)
| JObj (items : list (string * json)).
#[local] Set Elimination Schemes.

Fixpoint assoc (k : string) (items : list (string * json)) : option json :=
  match items with
  | [] => None
  | (k', v) :: rest => if String.eqb k k' then Some v else assoc k rest
  end.

(** [repr(k)] of a key without quotes or escapes in it. *)
Definition repr_key (k : string) : string := "'" +:+ k +:+ "'".

(** [data[k]] for a string key [k]. *)
Definition getitem (data : json) (k : string) : Result json :=
  match data with
  | JObj items =>
      match assoc k items with
      | Some v => Ret v
      | None => Raise (mkExn KeyError (repr_key k))
      end
  | JStr _ => Raise (mkExn TypeError "string indices must be integers, not 'str'")
  | JArr _ => Raise (mkExn TypeError "list indices must be integers or slices, not str")
  | JNull => Raise (mkExn TypeError "'NoneType' object is not subscriptable")
  | JBool _ => Raise (mkExn TypeError "'bool' object is not subscriptable")
  | JInt _ => Raise (mkExn TypeError "'int' object is not subscriptable")
  | JFloat _ => Raise (mkExn TypeError "'float' object is not subscriptable")
  end.

(** ** The row store *)

(** Instants are counted in microseconds, the resolution of [datetime] and of
    the store's [timestamp]; [time.time()] is read on the same scale. *)
Definition ticks_per_second : Z := 1000000.

(** A row of [silver.sensor_reading (time, sensor_id, value)]. *)
Record Row := mkRow { row_time : Z; row_sensor : string; row_value : Z }.

Inductive Quality := Poor | Fair | Good.

(** A row of [gold.reading_1min_mean] without its key [(bucket, sensor_id)];
    [val_mean] is in hundredths, as [ROUND(_, 2)] leaves it. *)
Record GoldRow := mkGoldRow {
  val_mean : Z;
  val_min : Z;
  val_max : Z;
  sample_count : Z;
  data_quality : Quality;
  last_updated : Z
}.

(** [time_bucket('1 minute', time)]. *)
Definition bucket_width : Z := 60 * ticks_per_second.
Definition time_bucket (t : Z) : Z := bucket_width * (t / bucket_width).

(** [INTERVAL '5 minutes'] and the [WHERE] clause of the refresh. *)
Definition lookback : Z := 5 * 60 * ticks_per_second.
Definition in_window (now : Z) (r : Row) : bool := now - lookback <=? row_time r.

(** The [CASE] of the refresh query. *)
Definition quality_of (count : Z) : Quality :=
  if 58 <=? count then Good
  else if 50 <=? count then Fair
  else Poor.

(** [ROUND(AVG(value), 2)] of a group with the given sum and count, in
    hundredths: the quotient rounded to the nearest, ties away from zero. *)
Definition round_avg (sum count : Z) : Z :=
  if 0 <=? sum then (200 * sum + count) / (2 * count)
  else - ((200 * (- sum) + count) / (2 * count)).

(** The running aggregate of one group. *)
Record Agg := mkAgg { agg_sum : Z; agg_min : Z; agg_max : Z; agg_count : Z }.

Definition agg_add (v : Z) (o : option Agg) : option Agg :=
  Some match o with
       | None => mkAgg v v v 1
       | Some a => mkAgg (agg_sum a + v) (Z.min (agg_min a) v)
                         (Z.max (agg_max a) v) (agg_count a + 1)
       end.

Definition group_key (r : Row) : Z * string := (time_bucket (row_time r), row_sensor r).

(** [GROUP BY bucket, sensor_id]. *)
Definition group_rows (rows : list Row) : gmap (Z * string) Agg :=
  foldr (λ r m, partial_alter (agg_add (row_value r)) (group_key r) m) ∅ rows.

Definition gold_of (now : Z) (a : Agg) : GoldRow :=
  mkGoldRow (round_avg (agg_sum a) (agg_count a)) (agg_min a) (agg_max a)
            (agg_count a) (quality_of (agg_count a)) now.

(** The [SELECT] of the refresh query over the visible rows. *)
Definition select_gold (now : Z) (rows : list Row) : gmap (Z * string) GoldRow :=
  gold_of now <$> group_rows (filter (λ r, in_window now r = true) rows).

(** [INSERT ... ON CONFLICT (bucket, sensor_id) DO UPDATE SET] every column. *)
Definition upsert (new old : gmap (Z * string) GoldRow) : gmap (Z * string) GoldRow :=
  new ∪ old.

(** The store as one session sees it: the committed tables, and the work of
    the open transaction, which only [commit] makes part of them.  A commit
    that raises leaves both as they were; so does the refresh statement, whose
    handler rolls back at once.  An [INSERT] that fails is another matter, see
    [store_abort]. *)
Record Store := mkStore {
  silver : list Row;
  gold : gmap (Z * string) GoldRow;
  tx_rows : list Row;
  tx_gold : option (gmap (Z * string) GoldRow);
  sessions : nat
}.

Definition visible_rows (s : Store) : list Row := silver s ++ tx_rows s.
Definition visible_gold (s : Store) : gmap (Z * string) GoldRow :=
  default (gold s) (tx_gold s).

Definition store_insert (r : Row) (s : Store) : Store :=
  mkStore (silver s) (gold s) (tx_rows s ++ [r]) (tx_gold s) (sessions s).

Definition store_refresh (now : Z) (s : Store) : Store :=
  mkStore (silver s) (gold s) (tx_rows s)
          (Some (upsert (select_gold now (visible_rows s)) (visible_gold s)))
          (sessions s).

Definition store_commit (s : Store) : Store :=
  mkStore (visible_rows s) (visible_gold s) [] None (sessions s).

Definition store_rollback (s : Store) : Store :=
  mkStore (silver s) (gold s) [] None (sessions s).

(** The server rejects a statement, or the connection is gone: PostgreSQL
    aborts the open transaction, and the [commit] that ends it returns
    normally and makes nothing of it part of the tables.  What the transaction
    held is lost from here on. *)
Definition store_abort (s : Store) : Store :=
  mkStore (silver s) (gold s) [] None (sessions s).

(** A new session: the transaction of the session it replaces is lost. *)
Definition store_connect (s : Store) : Store :=
  mkStore (silver s) (gold s) [] None (S (sessions s)).

(** [cursor.rowcount] after the refresh statement. *)
Definition refresh_rowcount (now : Z) (s : Store) : nat :=
  size (select_gold now (visible_rows s)).

(** ** What the script does not contain *)

(** The library and store functions the script calls: [json.loads] of the
    decoded payload ([None] when it raises), [json.dumps],
    [str(datetime.fromisoformat(t).date())] ([None] when it raises), and the
    row the store makes of the parameters [(time, sensor_id, value)] of the
    insert ([None] when it rejects them). *)
Class Platform := {
  loads : string → option json;
  dumps : json → string;
  fromisoformat_date : string → option string;
  pg_row : json → json → json → option Row
}.

(** One try of [connect_database]: [psycopg2.connect], then the cursor, the two
    [CREATE SCHEMA IF NOT EXISTS] and their commit. *)
Record Attempt := mkAttempt { at_connect : Outcome; at_setup : Outcome }.

(** What the environment answers while one message is handled, by call site. *)
Record Env := mkEnv {
  fs_append : Outcome;          (* open(filename, 'a') and the write *)
  db_insert : Outcome;          (* the INSERT of store_to_silver *)
  db_reconnect : nat → Attempt; (* the tries of a reconnect *)
  t_check : Z;                  (* time.time() in the commit condition *)
  flush_commit : Outcome;       (* db_conn.commit() of flush_batch *)
  t_flush : Z;                  (* time.time() of flush_batch *)
  flush_rollback : Outcome;     (* db_conn.rollback() of flush_batch *)
  now : Z;                      (* datetime.now() *)
  gold_execute : Outcome;       (* the upsert statement *)
  db_now : Z;                   (* NOW() as the statement reads it *)
  gold_commit : Outcome;        (* db_conn.commit() of the refresh *)
  gold_rollback : Outcome       (* db_conn.rollback() of the refresh *)
}.

(** What the environment answers at startup. *)
Record BootEnv := mkBootEnv {
  mkdir_raw : Outcome;
  boot_attempts : nat → Attempt;
  mqtt_connect : Outcome
}.

(** ** Program state and observable events *)

(** The functions whose calls are recorded. *)
Inductive Func := F_connect_database | F_refresh_gold_layer | F_flush_batch.

(** The lines the script prints, by the statement that prints them. *)
Inductive LogLine :=
| Banner
| StorageInitialized
| Connecting
| DatabaseConnected
| AttemptFailed (attempt : nat) (out_of : nat)
| CouldNotConnect
| BronzeError (e : Exn)
| SilverError (e : Exn)
| GoldUpserted (rows_affected : nat)
| GoldFailed (e : Exn)
| SilverCommitted (count : nat)
| CommitFailed (e : Exn)
| Status (raw_ok silver_ok : bool) (sensor : string) (clock : json) (value : Z)
| ProcessingFailed (e : Exn)
| PipelineInfo
| ShuttingDown
| GoldSkipped
| GoldStarting
| GoldTriggering (seconds_ago : Z)
| Traceback.

(** What a run leaves to be seen, in order: a line printed, a
    [time.sleep], and the entry into one of the recorded functions. *)
Inductive Event :=
| Print (l : LogLine)
| Sleep (seconds : Z)
| Call (f : Func).

(** The globals of the module, then the raw directory (path to text), the
    store and the events so far.  A connection is known by the number of its
    session. *)
Record State := mkState {
  db_conn : option nat;
  db_cursor : option nat;
  last_gold_refresh : Z;
  batch_buffer : list json;
  last_commit_time : Z;
  files : gmap string string;
  store : Store;
  trace : list Event
}.

Definition set_session (c : option nat) (st : State) : State :=
  mkState c c (last_gold_refresh st) (batch_buffer st) (last_commit_time st)
          (files st) (store st) (trace st).

Definition set_last_gold_refresh (t : Z) (st : State) : State :=
  mkState (db_conn st) (db_cursor st) t (batch_buffer st) (last_commit_time st)
          (files st) (store st) (trace st).

Definition set_batch_buffer (b : list json) (st : State) : State :=
  mkState (db_conn st) (db_cursor st) (last_gold_refresh st) b (last_commit_time st)
          (files st) (store st) (trace st).

Definition set_last_commit_time (t : Z) (st : State) : State :=
  mkState (db_conn st) (db_cursor st) (last_gold_refresh st) (batch_buffer st) t
          (files st) (store st) (trace st).

Definition set_files (f : gmap string string) (st : State) : State :=
  mkState (db_conn st) (db_cursor st) (last_gold_refresh st) (batch_buffer st)
          (last_commit_time st) f (store st) (trace st).

Definition set_store (s : Store) (st : State) : State :=
  mkState (db_conn st) (db_cursor st) (last_gold_refresh st) (batch_buffer st)
          (last_commit_time st) (files st) s (trace st).

Definition set_trace (t : list Event) (st : State) : State :=
  mkState (db_conn st) (db_cursor st) (last_gold_refresh st) (batch_buffer st)
          (last_commit_time st) (files st) (store st) t.

(** The globals as the module body leaves them: no connection, an empty
    batch, both clocks at the time of import. *)
Definition initial_state (import_now import_time : Z)
  (fs : gmap string string) (db : Store) : State :=
  mkState None None import_now [] import_time fs db [].

(** ** Statements *)

(** A statement runs from a state to a result and a state; what it did before
    raising stays done. *)
Definition Py (A : Type) : Type := State → Result A * State.

#[global] Instance Py_ret : MRet Py := λ A a st, (Ret a, st).
#[global] Instance Py_bind : MBind Py := λ A B f m st,
  match m st with
  | (Ret a, st') => f a st'
  | (Raise e, st') => (Raise e, st')
  end.

Definition get : Py State := λ st, (Ret st, st).
Definition modify (f : State → State) : Py unit := λ st, (Ret tt, f st).
Definition raise {A} (e : Exn) : Py A := λ st, (Raise e, st).
Definition lift {A} (r : Result A) : Py A := λ st, (r, st).
Definition emit (ev : Event) : Py unit :=
  modify (λ st, set_trace (trace st ++ [ev]) st).
Definition external (o : Outcome) : Py unit :=
  match o with Done => mret tt | Fails e => raise e end.

(** [try: body except C as e: handler(e)] for the classes [caught] accepts. *)
Definition try_except {A} (caught : Exn → bool) (body : Py A)
  (handler : Exn → Py A) : Py A := λ st,
  match body st with
  | (Ret a, st') => (Ret a, st')
  | (Raise e, st') => if caught e then handler e st' else (Raise e, st')
  end.

(** [except Exception]: every class of the model. *)
Definition any_exception (e : Exn) : bool := true.

(** ** The script *)

Definition RAW_DATA_PATH : string := "/data/raw".
Definition max_retries : nat := 5.
Definition retry_delay : Z := 5.
Definition batch_size : nat := 10.
Definition commit_interval : Z := 5.
Definition refresh_seconds : Z := 60.

(** [(later - earlier).seconds]: the seconds field of the normalised
    [timedelta], between 0 and 86399, days and microseconds set apart. *)
Definition timedelta_seconds (later earlier : Z) : Z :=
  ((later - earlier) / ticks_per_second) mod 86400.

(** [f"{RAW_DATA_PATH}/{date}_{sensor_id}.jsonl"]. *)
Definition partition_file (date sensor_id : string) : string :=
  RAW_DATA_PATH +:+ "/" +:+ date +:+ "_" +:+ sensor_id +:+ ".jsonl".

(** [v.replace(' ', '_')]. *)
Definition py_replace (v : json) : Result string :=
  match v with
  | JStr s => Ret (PyStr.replace_space s)
  | _ => Raise (mkExn AttributeError "object has no attribute 'replace'")
  end.

(** [format(v, '10s')]. *)
Definition format_10s (v : json) : Result string :=
  match v with
  | JStr s => Ret s
  | JInt _ | JBool _ | JFloat _ =>
      Raise (mkExn ValueError "Unknown format code 's'")
  | _ => Raise (mkExn TypeError "unsupported format string passed to __format__")
  end.

(** [v[11:19]]. *)
Definition slice_11_19 (v : json) : Result json :=
  match v with
  | JStr s => Ret (JStr (String.substring 11 8 s))
  | JArr l => Ret (JArr (take 8 (drop 11 l)))
  | JObj _ => Raise (mkExn TypeError "unhashable type: 'slice'")
  | _ => Raise (mkExn TypeError "object is not subscriptable")
  end.

(** [format(v, '3d')]. *)
Definition format_3d (v : json) : Result Z :=
  match v with
  | JInt n => Ret n
  | JBool b => Ret (if b then 1 else 0)
  | JFloat _ | JStr _ => Raise (mkExn ValueError "Unknown format code 'd'")
  | _ => Raise (mkExn TypeError "unsupported format string passed to __format__")
  end.

Definition and_then {A B} (r : Result A) (k : A → Result B) : Result B :=
  match r with Ret a => k a | Raise e => Raise e end.

(** The status line of [on_message], its fields formatted left to right. *)
Definition status_line (raw_ok silver_ok : bool) (data : json) : Result LogLine :=
  and_then (and_then (getitem data "id") format_10s) (λ sensor,
  and_then (and_then (getitem data "dt") slice_11_19) (λ clock,
  and_then (and_then (getitem data "value") format_3d) (λ value,
  Ret (Status raw_ok silver_ok sensor clock value)))).

Section Script.
Context {P : Platform}.

(** [datetime.fromisoformat(v).date()], as [str] prints it. *)
Definition py_date (v : json) : Result string :=
  match v with
  | JStr t =>
      match fromisoformat_date t with
      | Some d => Ret d
      | None => Raise (mkExn ValueError "Invalid isoformat string")
      end
  | _ => Raise (mkExn TypeError "fromisoformat: argument must be str")
  end.

Definition open_session (a : Attempt) : Py unit :=
  external (at_connect a);;
  modify (λ st, set_session (Some (sessions (store st)))
                  (set_store (store_connect (store st)) st));;
  external (at_setup a).

(** The [for attempt in range(max_retries)] of [connect_database], from try
    number [attempt] with [remaining] tries left.  Running off the end of the
    loop returns [None], which is false. *)
Fixpoint connect_loop (tries : nat → Attempt) (attempt remaining : nat) : Py bool :=
  match remaining with
  | O => mret false
  | S rest =>
      try_except is_operational
        (emit (Print Connecting);;
         open_session (tries attempt);;
         emit (Print DatabaseConnected);;
         mret true)
        (λ e,
         emit (Print (AttemptFailed (S attempt) max_retries));;
         if (attempt <? max_retries - 1)%nat
         then emit (Sleep retry_delay);; connect_loop tries (S attempt) rest
         else emit (Print CouldNotConnect);; mret false)
  end.

Definition connect_database (tries : nat → Attempt) : Py bool :=
  emit (Call F_connect_database);;
  connect_loop tries 0 max_retries.

Definition append_file (path text : string) : Py unit :=
  modify (λ st, set_files (<[path := default "" (files st !! path) +:+ text]> (files st)) st).

Definition store_raw_data (env : Env) (data : json) : Py bool :=
  try_except any_exception
    (id ← lift (getitem data "id");
     sensor_id ← lift (py_replace id);
     timestamp ← lift (getitem data "dt");
     date ← lift (py_date timestamp);
     external (fs_append env);;
     append_file (partition_file date sensor_id)
                 (dumps data +:+ String PyStr.newline EmptyString);;
     mret true)
    (λ e, emit (Print (BronzeError e));; mret false).

(** [db_cursor.execute] raises [e]: an error of the driver leaves the open
    transaction aborted, any other error leaves it as it was. *)
Definition rejected {A} (e : Exn) : Py A :=
  (if is_database_error e
   then modify (λ st, set_store (store_abort (store st)) st)
   else mret tt);;
  raise e.

(** [db_cursor.execute(query, (data['dt'], data['id'], data['value']))]: the
    parameters first, then the statement. *)
Definition execute_insert (env : Env) (data : json) : Py unit :=
  time ← lift (getitem data "dt");
  sensor ← lift (getitem data "id");
  value ← lift (getitem data "value");
  match db_insert env with
  | Done =>
      match pg_row time sensor value with
      | Some r => modify (λ st, set_store (store_insert r (store st)) st)
      | None => rejected (mkExn DataError "invalid input syntax")
      end
  | Fails e => rejected e
  end.

Definition store_to_silver (env : Env) (data : json) : Py bool :=
  try_except any_exception
    (st ← get;
     if bool_decide (db_conn st = None) || bool_decide (db_cursor st = None)
     then mret false
     else execute_insert env data;; mret true)
    (λ e,
     emit (Print (SilverError e));;
     (if PyStr.contains "connection" (PyStr.lower (exn_text e))
      then connect_database (db_reconnect env);; mret tt
      else mret tt);;
     mret false).

Definition refresh_gold_layer (env : Env) : Py bool :=
  emit (Call F_refresh_gold_layer);;
  try_except any_exception
    (st ← get;
     if bool_decide (db_conn st = None) || bool_decide (db_cursor st = None)
     then mret false
     else
       external (gold_execute env);;
       modify (λ st, set_store (store_refresh (db_now env) (store st)) st);;
       external (gold_commit env);;
       st ← get;
       let rows_affected := refresh_rowcount (db_now env) (store st) in
       modify (λ st, set_store (store_commit (store st)) st);;
       emit (Print (GoldUpserted rows_affected));;
       mret true)
    (λ e,
     emit (Print (GoldFailed e));;
     external (gold_rollback env);;
     modify (λ st, set_store (store_rollback (store st)) st);;
     mret false).

Definition flush_batch (env : Env) : Py unit :=
  emit (Call F_flush_batch);;
  st ← get;
  if bool_decide (db_conn st ≠ None) && bool_decide (batch_buffer st ≠ [])
  then
    try_except any_exception
      (external (flush_commit env);;
       modify (λ st, set_store (store_commit (store st)) st);;
       st ← get;
       let count := length (batch_buffer st) in
       modify (set_batch_buffer []);;
       modify (set_last_commit_time (t_flush env));;
       emit (Print (SilverCommitted count)))
      (λ e,
       emit (Print (CommitFailed e));;
       external (flush_rollback env);;
       modify (λ st, set_store (store_rollback (store st)) st))
  else mret tt.

(** [len(batch_buffer) >= batch_size or
     (time.time() - last_commit_time) > commit_interval]. *)
Definition commit_due (env : Env) (st : State) : bool :=
  (batch_size <=? length (batch_buffer st))%nat
  || (commit_interval * ticks_per_second <? t_check env - last_commit_time st).

(** [(now - last_gold_refresh).seconds >= 60]. *)
Definition refresh_due (env : Env) (st : State) : bool :=
  refresh_seconds <=? timedelta_seconds (now env) (last_gold_refresh st).

(** The body of the [try] of [on_message] up to the status line. *)
Definition ingest (env : Env) (payload : string) : Py unit :=
  data ← lift (match loads payload with
               | Some d => Ret d
               | None => Raise (mkExn JSONDecodeError "Expecting value")
               end);
  raw_ok ← store_raw_data env data;
  silver_ok ← store_to_silver env data;
  (if silver_ok
   then modify (λ st, set_batch_buffer (batch_buffer st ++ [data]) st)
   else mret tt);;
  line ← lift (status_line raw_ok silver_ok data);
  emit (Print line).

(** [# Commit batch]: the first [if] after the status line. *)
Definition commit_check (env : Env) : Py unit :=
  st ← get;
  if commit_due env st then flush_batch env else mret tt.

(** [# Refresh gold every 60 seconds]: the second. *)
Definition refresh_check (env : Env) : Py unit :=
  st ← get;
  if refresh_due env st
  then refresh_gold_layer env;; modify (set_last_gold_refresh (now env))
  else mret tt.

Definition on_message (env : Env) (payload : string) : Py unit :=
  try_except any_exception
    (ingest env payload;; commit_check env;; refresh_check env)
    (λ e, emit (Print (ProcessingFailed e))).

Definition setup_storage (boot : BootEnv) : Py unit :=
  external (mkdir_raw boot);;
  emit (Print StorageInitialized).

(** [main] up to [client.loop_forever()]: a result means the loop is entered,
    an exception that the process ends with it. *)
Definition startup (boot : BootEnv) : Py unit :=
  emit (Print Banner);;
  setup_storage boot;;
  connect_database (boot_attempts boot);;
  emit (Print PipelineInfo);;
  external (mqtt_connect boot).

(** The loop delivers the messages one at a time to the handler. *)
Fixpoint loop_forever (inbox : list (Env * string)) : Py unit :=
  match inbox with
  | [] => mret tt
  | (env, payload) :: rest => on_message env payload;; loop_forever rest
  end.

(** The [except KeyboardInterrupt] of [main]; closing the connection drops
    what its transaction holds. *)
Definition shutdown (env : Env) : Py unit :=
  emit (Print ShuttingDown);;
  flush_batch env;;
  st ← get;
  if bool_decide (db_conn st ≠ None)
  then modify (λ st, set_store (store_rollback (store st)) st)
  else mret tt.

Definition main (boot : BootEnv) (inbox : list (Env * string)) (last : Env) : Py unit :=
  startup boot;;
  loop_forever inbox;;
  shutdown last.

End Script.

(** ** The variant under [data_ingestion/]

    [src/data_ingestion/ingestion.py] is the same script but for the refresh:
    the refresh clock is [time.time()], the query writes [val_mean] alone, and
    more is printed.  What the other columns of a new aggregate row hold is
    left to the table, whose definition is not part of the script: [blank] is
    the row of its defaults. *)

Module DataIngestion.
Section Variant.
Context {P : Platform}.
Variable blank : GoldRow.

Definition with_mean (m : Z) (g : GoldRow) : GoldRow :=
  mkGoldRow m (val_min g) (val_max g) (sample_count g) (data_quality g)
            (last_updated g).

(** The [SELECT] of the variant: bucket, sensor and rounded mean. *)
Definition select_mean (now : Z) (rows : list Row) : gmap (Z * string) Z :=
  (λ a, round_avg (agg_sum a) (agg_count a))
    <$> group_rows (filter (λ r, in_window now r = true) rows).

(** [ON CONFLICT (bucket, sensor_id) DO UPDATE SET val_mean = EXCLUDED.val_mean]. *)
Definition upsert_mean (new : gmap (Z * string) Z)
  (old : gmap (Z * string) GoldRow) : gmap (Z * string) GoldRow :=
  merge (λ m g, match m, g with
                | Some m, Some g => Some (with_mean m g)
                | Some m, None => Some (with_mean m blank)
                | None, g => g
                end) new old.

Definition store_refresh_mean (now : Z) (s : Store) : Store :=
  mkStore (silver s) (gold s) (tx_rows s)
          (Some (upsert_mean (select_mean now (visible_rows s)) (visible_gold s)))
          (sessions s).

Definition refresh_gold_layer (env : Env) : Py bool :=
  emit (Call F_refresh_gold_layer);;
  try_except any_exception
    (st ← get;
     if bool_decide (db_conn st = None) || bool_decide (db_cursor st = None)
     then emit (Print GoldSkipped);; mret false
     else
       emit (Print GoldStarting);;
       external (gold_execute env);;
       st ← get;
       let rows_affected := size (select_mean (db_now env) (visible_rows (store st))) in
       modify (λ st, set_store (store_refresh_mean (db_now env) (store st)) st);;
       external (gold_commit env);;
       modify (λ st, set_store (store_commit (store st)) st);;
       emit (Print (GoldUpserted rows_affected));;
       mret true)
    (λ e,
     emit (Print (GoldFailed e));;
     emit (Print Traceback);;
     external (gold_rollback env);;
     modify (λ st, set_store (store_rollback (store st)) st);;
     mret false).

(** [(current_time - last_gold_refresh) >= 60], with [now env] standing for
    the [time.time()] of this check. *)
Definition refresh_due (env : Env) (st : State) : bool :=
  refresh_seconds * ticks_per_second <=? now env - last_gold_refresh st.

Definition refresh_check (env : Env) : Py unit :=
  st ← get;
  if refresh_due env st
  then
    emit (Print (GoldTriggering
                   (Z.quot (now env - last_gold_refresh st) ticks_per_second)));;
    refresh_gold_layer env;;
    modify (set_last_gold_refresh (now env))
  else mret tt.

Definition on_message (env : Env) (payload : string) : Py unit :=
  try_except any_exception
    (ingest env payload;; commit_check env;; refresh_check env)
    (λ e, emit (Print (ProcessingFailed e))).

End Variant.
End DataIngestion.

(** ** A concrete platform

    The functions of [Platform] on the readings the sensors send: flat objects
    of strings and integers, with timestamps written
    [YYYY-MM-DD] or [YYYY-MM-DDTHH:MM:SS].  Statements about the script are
    proved for every platform; this one runs them on examples. *)

Module Sensors.

Definition quote : ascii := "034"%char.
Definition backslash : ascii := "092"%char.

Definition digit_of (c : ascii) : option Z :=
  let n := Z.of_nat (nat_of_ascii c) in
  if (48 <=? n) && (n <=? 57) then Some (n - 48) else None.

Definition hex_of (c : ascii) : option Z :=
  let n := Z.of_nat (nat_of_ascii c) in
  if (48 <=? n) && (n <=? 57) then Some (n - 48)
  else if (97 <=? n) && (n <=? 102) then Some (n - 87)
  else if (65 <=? n) && (n <=? 70) then Some (n - 55)
  else None.

Definition char_of (n : Z) : ascii := ascii_of_nat (Z.to_nat n).

Definition hex_digit (n : Z) : ascii :=
  if n <? 10 then char_of (48 + n) else char_of (87 + n).

Fixpoint digits_of (fuel : nat) (n : Z) (acc : string) : string :=
  match fuel with
  | O => acc
  | S fuel' =>
      let acc' := String (char_of (48 + n mod 10)) acc in
      if n <? 10 then acc' else digits_of fuel' (n / 10) acc'
  end.

(** [str(n)] of an integer. *)
Definition str_int (n : Z) : string :=
  if n <? 0 then String "-"%char (digits_of (S (Z.to_nat (Z.log2 (- n)))) (- n) "")
  else digits_of (S (Z.to_nat (Z.log2 n))) n "".

(** One character of a string as [json.dumps] writes it. *)
Definition encode_char (c : ascii) : string :=
  let n := Z.of_nat (nat_of_ascii c) in
  if Ascii.eqb c quote then String backslash (String quote "")
  else if Ascii.eqb c backslash then String backslash (String backslash "")
  else if n =? 10 then String backslash "n"
  else if n =? 13 then String backslash "r"
  else if n =? 9 then String backslash "t"
  else if n =? 8 then String backslash "b"
  else if n =? 12 then String backslash "f"
  else if (n <? 32) || (126 <? n)
       then String backslash
              (String "u"%char (String "0"%char (String "0"%char
                (String (hex_digit (n / 16)) (String (hex_digit (n mod 16)) "")))))
  else String c "".

Fixpoint encode_chars (s : string) : string :=
  match s with
  | EmptyString => EmptyString
  | String c t => encode_char c +:+ encode_chars t
  end.

Definition encode_string (s : string) : string :=
  String quote (encode_chars s +:+ String quote "").

(** [json.dumps] with its default separators. *)
Fixpoint json_dumps (j : json) : string :=
  match j with
  | JNull => "null"
  | JBool b => if b then "true" else "false"
  | JInt n => str_int n
  | JFloat r => r
  | JStr s => encode_string s
  | JArr l =>
      "[" +:+ (fix go (l : list json) : string :=
                 match l with
                 | [] => ""
                 | x :: r =>
                     match r with
                     | [] => json_dumps x
                     | _ => json_dumps x +:+ ", " +:+ go r
                     end
                 end) l +:+ "]"
  | JObj l =>
      "{" +:+ (fix go (l : list (string * json)) : string :=
                 match l with
                 | [] => ""
                 | (k, v) :: r =>
                     match r with
                     | [] => encode_string k +:+ ": " +:+ json_dumps v
                     | _ => encode_string k +:+ ": " +:+ json_dumps v +:+ ", " +:+ go r
                     end
                 end) l +:+ "}"
  end.

Definition is_space (c : ascii) : bool :=
  let n := nat_of_ascii c in
  (n =? 32)%nat || (n =? 9)%nat || (n =? 10)%nat || (n =? 13)%nat.

Fixpoint skip_ws (s : string) : string :=
  match s with
  | EmptyString => EmptyString
  | String c t => if is_space c then skip_ws t else s
  end.

Definition unescape (c : ascii) : option ascii :=
  let n := nat_of_ascii c in
  if Ascii.eqb c quote then Some quote
  else if Ascii.eqb c backslash then Some backslash
  else if Ascii.eqb c "/"%char then Some "/"%char
  else if Ascii.eqb c "n"%char then Some (char_of 10)
  else if Ascii.eqb c "r"%char then Some (char_of 13)
  else if Ascii.eqb c "t"%char then Some (char_of 9)
  else if Ascii.eqb c "b"%char then Some (char_of 8)
  else if Ascii.eqb c "f"%char then Some (char_of 12)
  else None.

Definition cons_char (c : ascii) (r : option (string * string)) : option (string * string) :=
  match r with
  | Some (s, rest) => Some (String c s, rest)
  | None => None
  end.

(** A string literal after its opening quote: its value and what follows the
    closing quote.  Escapes above U+00FF are outside this platform. *)
Fixpoint parse_string_body (s : string) : option (string * string) :=
  match s with
  | EmptyString => None
  | String c t =>
      if Ascii.eqb c quote then Some (EmptyString, t)
      else if Ascii.eqb c backslash then
        match t with
        | String e t' =>
            match unescape e with
            | Some x => cons_char x (parse_string_body t')
            | None =>
                if Ascii.eqb e "u"%char then
                  match t' with
                  | String h1 (String h2 (String h3 (String h4 t''))) =>
                      match hex_of h1, hex_of h2, hex_of h3, hex_of h4 with
                      | Some 0, Some 0, Some a, Some b =>
                          cons_char (char_of (16 * a + b)) (parse_string_body t'')
                      | _, _, _, _ => None
                      end
                  | _ => None
                  end
                else None
            end
        | EmptyString => None
        end
      else if (nat_of_ascii c <? 32)%nat then None
      else cons_char c (parse_string_body t)
  end.

Fixpoint parse_digits (s : string) (acc : Z) : Z * string :=
  match s with
  | EmptyString => (acc, EmptyString)
  | String c t =>
      match digit_of c with
      | Some d => parse_digits t (10 * acc + d)
      | None => (acc, s)
      end
  end.

Definition starts_number_tail (s : string) : bool :=
  match s with
  | String c _ =>
      Ascii.eqb c "."%char || Ascii.eqb c "e"%char || Ascii.eqb c "E"%char
  | EmptyString => false
  end.

(** An integer literal: no leading zero, no fraction, no exponent. *)
Definition parse_nat_literal (s : string) : option (Z * string) :=
  match s with
  | String c t =>
      match digit_of c with
      | Some 0 => if starts_number_tail t then None
                  else match t with
                       | String d _ => match digit_of d with
                                       | Some _ => None
                                       | None => Some (0, t)
                                       end
                       | EmptyString => Some (0, t)
                       end
      | Some _ => let '(n, rest) := parse_digits s 0 in
                  if starts_number_tail rest then None else Some (n, rest)
      | None => None
      end
  | EmptyString => None
  end.

Definition strip_prefix (p s : string) : option string :=
  if String.prefix p s
  then Some (String.substring (String.length p) (String.length s - String.length p) s)
  else None.

(** A value that is not a container. *)
Definition parse_scalar (s : string) : option (json * string) :=
  match s with
  | String c t =>
      if Ascii.eqb c quote then
        match parse_string_body t with
        | Some (v, rest) => Some (JStr v, rest)
        | None => None
        end
      else if Ascii.eqb c "-"%char then
        match parse_nat_literal t with
        | Some (n, rest) => Some (JInt (- n), rest)
        | None => None
        end
      else if Ascii.eqb c "t"%char then
        match strip_prefix "true" s with Some r => Some (JBool true, r) | None => None end
      else if Ascii.eqb c "f"%char then
        match strip_prefix "false" s with Some r => Some (JBool false, r) | None => None end
      else if Ascii.eqb c "n"%char then
        match strip_prefix "null" s with Some r => Some (JNull, r) | None => None end
      else
        match parse_nat_literal s with
        | Some (n, rest) => Some (JInt n, rest)
        | None => None
        end
  | EmptyString => None
  end.

(** [d[k] = v] on a dict: a key met again keeps its place. *)
Fixpoint dict_set (k : string) (v : json) (items : list (string * json)) :
  list (string * json) :=
  match items with
  | [] => [(k, v)]
  | (k', v') :: rest =>
      if String.eqb k k' then (k, v) :: rest else (k', v') :: dict_set k v rest
  end.

(** The members of an object after its brace, added to [acc]. *)
Fixpoint parse_members (fuel : nat) (acc : list (string * json)) (s : string) :
  option (list (string * json) * string) :=
  match fuel with
  | O => None
  | S fuel' =>
      match skip_ws s with
      | String q t =>
          if Ascii.eqb q quote then
            match parse_string_body t with
            | Some (k, r1) =>
                match skip_ws r1 with
                | String colon r2 =>
                    if Ascii.eqb colon ":"%char then
                      match parse_scalar (skip_ws r2) with
                      | Some (v, r3) =>
                          match skip_ws r3 with
                          | String d r4 =>
                              if Ascii.eqb d ","%char
                              then parse_members fuel' (dict_set k v acc) r4
                              else if Ascii.eqb d "}"%char
                              then Some (dict_set k v acc, r4)
                              else None
                          | EmptyString => None
                          end
                      | None => None
                      end
                    else None
                | EmptyString => None
                end
            | None => None
            end
          else None
      | EmptyString => None
      end
  end.

Definition parse_document (s : string) : option (json * string) :=
  match skip_ws s with
  | String c t =>
      if Ascii.eqb c "{"%char then
        match skip_ws t with
        | String d t' =>
            if Ascii.eqb d "}"%char then Some (JObj [], t')
            else match parse_members (String.length t) [] t with
                 | Some (items, rest) => Some (JObj items, rest)
                 | None => None
                 end
        | EmptyString => None
        end
      else parse_scalar (String c t)
  | EmptyString => None
  end.

(** [json.loads] on documents of this platform. *)
Definition json_loads (s : string) : option json :=
  match parse_document s with
  | Some (j, rest) =>
      match skip_ws rest with
      | EmptyString => Some j
      | _ => None
      end
  | None => None
  end.

(** Two decimal digits, and four. *)
Definition two_digits (a b : ascii) : option Z :=
  match digit_of a, digit_of b with
  | Some x, Some y => Some (10 * x + y)
  | _, _ => None
  end.

Definition is_leap (y : Z) : bool :=
  ((y mod 4 =? 0) && negb (y mod 100 =? 0)) || (y mod 400 =? 0).

Definition days_in_month (y m : Z) : Z :=
  if m =? 2 then (if is_leap y then 29 else 28)
  else if (m =? 4) || (m =? 6) || (m =? 9) || (m =? 11) then 30
  else 31.

(** Days from 1970-01-01 to the given civil date. *)
Definition days_from_civil (y m d : Z) : Z :=
  let y' := if m <=? 2 then y - 1 else y in
  let era := y' / 400 in
  let yoe := y' - era * 400 in
  let doy := (153 * (if 2 <? m then m - 3 else m + 9) + 2) / 5 + d - 1 in
  let doe := yoe * 365 + yoe / 4 - yoe / 100 + doy in
  era * 146097 + doe - 719468.

(** The date at the head of a timestamp and what follows it. *)
Definition parse_date (s : string) : option (Z * Z * Z * string) :=
  match s with
  | String y1 (String y2 (String y3 (String y4 (String d1
      (String m1 (String m2 (String d2 (String e1 (String e2 rest))))))))) =>
      if Ascii.eqb d1 "-"%char && Ascii.eqb d2 "-"%char then
        match two_digits y1 y2, two_digits y3 y4, two_digits m1 m2, two_digits e1 e2 with
        | Some yh, Some yl, Some m, Some d =>
            let y := 100 * yh + yl in
            if (1 <=? y) && (1 <=? m) && (m <=? 12) && (1 <=? d)
               && (d <=? days_in_month y m)
            then Some (y, m, d, rest) else None
        | _, _, _, _ => None
        end
      else None
  | _ => None
  end.

(** The time of day after the separator, in seconds. *)
Definition parse_clock (s : string) : option Z :=
  match s with
  | String h1 (String h2 (String c1 (String m1 (String m2
      (String c2 (String s1 (String s2 EmptyString))))))) =>
      if Ascii.eqb c1 ":"%char && Ascii.eqb c2 ":"%char then
        match two_digits h1 h2, two_digits m1 m2, two_digits s1 s2 with
        | Some h, Some m, Some sec =>
            if (h <? 24) && (m <? 60) && (sec <? 60)
            then Some (3600 * h + 60 * m + sec) else None
        | _, _, _ => None
        end
      else None
  | _ => None
  end.

(** The instant a timestamp denotes, in ticks since 1970-01-01. *)
Definition instant (s : string) : option Z :=
  match parse_date s with
  | Some (y, m, d, rest) =>
      match rest with
      | EmptyString => Some (days_from_civil y m d * 86400 * ticks_per_second)
      | String _ clock =>
          match parse_clock clock with
          | Some secs =>
              Some ((days_from_civil y m d * 86400 + secs) * ticks_per_second)
          | None => None
          end
      end
  | None => None
  end.

(** [str(datetime.fromisoformat(s).date())]. *)
Definition iso_date (s : string) : option string :=
  match instant s with
  | Some _ => Some (String.substring 0 10 s)
  | None => None
  end.

(** The row of an insert with a timestamp, a text and an integer. *)
Definition row_of (time sensor value : json) : option Row :=
  match time, sensor, value with
  | JStr t, JStr i, JInt v =>
      match instant t with
      | Some ticks => Some (mkRow ticks i v)
      | None => None
      end
  | _, _, _ => None
  end.

#[export] Instance platform : Platform := {|
  loads := json_loads;
  dumps := json_dumps;
  fromisoformat_date := iso_date;
  pg_row := row_of
|}.

(** An environment in which every call succeeds, with the three clocks at
    the given readings. *)
Definition calm (t_clock t_now t_db : Z) : Env :=
  mkEnv Done Done (λ _, mkAttempt Done Done) t_clock Done t_clock Done
        t_now Done t_db Done Done.

Definition empty_store : Store := mkStore [] ∅ [] None 0.

End Sensors.

(** ** Observations on a run *)

(** How good a label is. *)
Definition quality_rank (q : Quality) : Z :=
  match q with Poor => 0 | Fair => 1 | Good => 2 end.

Definition is_call (f : Func) (ev : Event) : bool :=
  match ev, f with
  | Call F_connect_database, F_connect_database
  | Call F_refresh_gold_layer, F_refresh_gold_layer
  | Call F_flush_batch, F_flush_batch => true
  | _, _ => false
  end.

(** How many times [f] was entered along a trace. *)
Fixpoint calls (f : Func) (tr : list Event) : nat :=
  match tr with
  | [] => 0
  | ev :: rest => ((if is_call f ev then 1 else 0) + calls f rest)%nat
  end.

(** The seconds slept along a trace. *)
Definition slept (tr : list Event) : list Z :=
  omap (λ ev, match ev with Sleep s => Some s | _ => None end) tr.

(** [True == n] and [False == n] in Python: a [bool] is the integer 1 or 0. *)
Definition py_int (b : bool) : Z := if b then 1 else 0.

(** The globals and the store, apart from the raw files and what was printed. *)
Definition core (st : State) :=
  (db_conn st, db_cursor st, last_gold_refresh st, batch_buffer st,
   last_commit_time st, store st).

(** The reading a decoded record carries. *)
Definition reading_of (data : json) : option (string * string * json) :=
  match getitem data "id", getitem data "dt", getitem data "value" with
  | Ret (JStr i), Ret (JStr t), Ret v => Some (i, t, v)
  | _, _, _ => None
  end.

(** ** Example runs *)

Module Examples.
Import Sensors.

(** 2024-01-01T00:00:00 and the instant [s] seconds after it. *)
Definition midnight : Z := 1704067200 * ticks_per_second.
Definition after (s : Z) : Z := midnight + s * ticks_per_second.

(** A process with an open session on the given store. *)
Definition online (db : Store) : State :=
  set_session (Some 0%nat) (initial_state midnight midnight ∅ db).

(** Two committed rows of sensor [s1] in the minute that starts at midnight,
    at 00:00:10 and 00:00:50. *)
Definition two_rows : Store :=
  mkStore [mkRow (after 10) "s1" 5; mkRow (after 50) "s1" 8] ∅ [] None 1.

(** The key of their bucket. *)
Definition first_minute : Z * string := (midnight, "s1").

(** Rows of two sensors in that minute. *)
Definition two_sensors : Store :=
  mkStore [mkRow (after 10) "s1" 5; mkRow (after 20) "s2" 7; mkRow (after 50) "s1" 8]
          ∅ [] None 1.

(** Fifty-eight committed rows of sensor [s1], one a second from 00:00:01 to
    00:00:58, with the values 5 to 62, and a row of sensor [s2]. *)
Definition full_minute : list Row :=
  mkRow (after 30) "s2" 7
  :: map (λ i, mkRow (after i) "s1" (4 + i)) (seqZ 1 58).

(** A session with two inserts not yet committed and both counted in the
    batch. *)
Definition reading (sensor clock : string) (value : Z) : json :=
  JObj [("id", JStr sensor); ("dt", JStr clock); ("value", JInt value)].

Definition pending_two : State :=
  set_batch_buffer
    [reading "s1" "2024-01-01T00:00:10" 5; reading "s1" "2024-01-01T00:00:50" 8]
    (online (mkStore [mkRow (after 5) "s2" 7] ∅
                     [mkRow (after 10) "s1" 5; mkRow (after 50) "s1" 8] None 1)).

(** The payload of a reading, as a sensor sends it. *)
Definition payload_of (data : json) : string := json_dumps data.

(** A session with nine inserts pending, all counted in the batch. *)
Definition pending_nine : State :=
  set_batch_buffer
    (map (λ i, reading "s1" "2024-01-01T00:00:10" i) (seqZ 1 9))
    (online (mkStore [] ∅ (map (λ i, mkRow (after 10) "s1" i) (seqZ 1 9)) None 1)).

(** An error of the store that is not about the connection. *)
Definition deadlock : Exn := mkExn OperationalError "deadlock detected".

(** An environment whose commits and statements fail and whose rollbacks
    succeed. *)
Definition failing (t_clock t_now t_db : Z) : Env :=
  mkEnv Done Done (λ _, mkAttempt Done Done) t_clock (Fails deadlock) t_clock Done
        t_now (Fails deadlock) t_db (Fails deadlock) Done.

(** A reading whose [value] was lost on the way. *)
Definition no_value : json :=
  JObj [("id", JStr "s1"); ("dt", JStr "2024-01-01T00:00:10")].

(** A process that has just started, without a connection, on an empty raw
    directory and an empty store. *)
Definition fresh : State := initial_state midnight midnight ∅ empty_store.

(** The store refuses every connection. *)
Definition refused : Exn := mkExn OperationalError "could not connect to server".
Definition unreachable : BootEnv :=
  mkBootEnv Done (λ _, mkAttempt (Fails refused) Done) Done.

(** The store answers at the second try, but the connection is closed under
    the cursor. *)
Definition closed_early : Exn := mkExn InterfaceError "connection already closed".
Definition dropped : BootEnv :=
  mkBootEnv Done
    (λ j, if (j <? 1)%nat then mkAttempt (Fails refused) Done
          else mkAttempt Done (Fails closed_early))
    Done.

(** An environment in which only the refresh statement fails. *)
Definition gold_down (t_clock t_now t_db : Z) : Env :=
  mkEnv Done Done (λ _, mkAttempt Done Done) t_clock Done t_clock Done
        t_now (Fails deadlock) t_db Done Done.

End Examples.

(** ** Frames *)

(** A statement keeps an observation of the state when no run of it changes
    what is observed, however it ends. *)
Definition keeps {X A : Type} (obs : State → X) (m : Py A) : Prop :=
  ∀ st, obs (m st).2 = obs st.

(** What the scheduling of [on_message] goes by. *)
Definition schedule_view (st : State) : nat * nat * Z :=
  (calls F_flush_batch (trace st), calls F_refresh_gold_layer (trace st),
   last_gold_refresh st).

(** What the commit scheduler goes by. *)
Definition commit_view (st : State) : list json * Z :=
  (batch_buffer st, last_commit_time st).

(** Every raw file holds whole lines. *)
Definition whole_files (st : State) : Prop :=
  ∀ path text, files st !! path = Some text → PyStr.terminated text = true.

(** The required fields of a reading are all there. *)
Definition has_fields (data : json) : bool :=
  returns (getitem data "id") && returns (getitem data "dt")
  && returns (getitem data "value").

(** A payload that does not decode, or decodes to something that lacks one
    of the required fields. *)
Definition malformed `{Platform} (payload : string) : Prop :=
  match loads payload with
  | None => True
  | Some data => has_fields data = false
  end.

(** Among those, the ones that do not decode or lack the sensor or the
    timestamp. *)
Definition unaddressed `{Platform} (payload : string) : Prop :=
  match loads payload with
  | None => True
  | Some data => returns (getitem data "id") && returns (getitem data "dt") = false
  end.

(** What the process holds apart from the connection, and the row store. *)
Definition offline_view (st : State) :=
  (db_conn st, db_cursor st, batch_buffer st, store st).

(** A statement preserves a property of the state when every run of it from
    a state that has the property ends, however it ends, in one that has it. *)
Definition preserves {A : Type} (inv : State → Prop) (m : Py A) : Prop :=
  ∀ st, inv st → inv (m st).2.

(** Readings are counted in the batch only while there is a connection. *)
Definition batch_has_conn (st : State) : Prop :=
  batch_buffer st ≠ [] → db_conn st ≠ None.

(** What the batch invariant goes by. *)
Definition batch_view (st : State) : option nat * list json :=
  (db_conn st, batch_buffer st).

(** A step of an attempt that completes or fails the way [connect_database]
    expects, with an [OperationalError]. *)
Definition expected (o : Outcome) : bool :=
  match o with Done => true | Fails e => is_operational e end.

Definition tame (a : Attempt) : bool := expected (at_connect a) && expected (at_setup a).

(** ** What a bucket is computed from *)

(** The rows behind the aggregate row of key [k] in a pass that reads [now]:
    those of the look-back window that fall under the key. *)
Definition counted (now : Z) (rows : list Row) (k : Z * string) : list Row :=
  filter (λ r, group_key r = k) (filter (λ r, in_window now r = true) rows).

Definition sum_values (rows : list Row) : Z :=
  foldr (λ r acc, row_value r + acc) 0 rows.

(** ** Tries of the connection routine *)

(** How many times [psycopg2.connect] was tried along a trace. *)
Fixpoint tries_made (tr : list Event) : nat :=
  match tr with
  | [] => 0
  | Print Connecting :: rest => S (tries_made rest)
  | _ :: rest => tries_made rest
  end.

(** The tries and the sleeps along a trace, in the order they happened:
    [None] for a try of [psycopg2.connect], [Some s] for a sleep of [s]
    seconds. *)
Definition rhythm (tr : list Event) : list (option Z) :=
  omap (λ ev, match ev with
              | Print Connecting => Some None
              | Sleep s => Some (Some s)
              | _ => None
              end) tr.

(** [k] further tries, each after one sleep of [retry_delay] seconds. *)
Fixpoint retries (k : nat) : list (option Z) :=
  match k with
  | O => []
  | S k' => Some retry_delay :: None :: retries k'
  end.

(** A try that goes through. *)
Definition succeeds (a : Attempt) : bool :=
  match at_connect a, at_setup a with
  | Done, Done => true
  | _, _ => false
  end.

(** A try that fails with an [OperationalError]: the loop goes on. *)
Definition retried (a : Attempt) : bool :=
  match at_connect a with
  | Fails e => is_operational e
  | Done =>
      match at_setup a with
      | Fails e => is_operational e
      | Done => false
      end
  end.

(** The exception of a try that fails with anything else. *)
Definition crash (a : Attempt) : option Exn :=
  match at_connect a with
  | Fails e => if is_operational e then None else Some e
  | Done =>
      match at_setup a with
      | Fails e => if is_operational e then None else Some e
      | Done => None
      end
  end.

(** ** Relations between the state before and after *)

(** A statement moves the state along a relation when every run of it ends,
    however it ends, in a state related to the one it started from. *)
Definition moves {A : Type} (R : State → State → Prop) (m : Py A) : Prop :=
  ∀ st, R st (m st).2.

(** Every raw file is still there and has at most grown at its end. *)
Definition grown (st st' : State) : Prop :=
  ∀ path old, files st !! path = Some old →
              ∃ more, files st' !! path = Some (old +:+ more).

(** The open transaction has lost rows at most, and the batch is the same. *)
Definition drops_only (st st' : State) : Prop :=
  (length (tx_rows (store st')) ≤ length (tx_rows (store st)))%nat
  ∧ batch_buffer st' = batch_buffer st.

(** Every insert that is not committed is counted in the batch. *)
Definition pending_counted (st : State) : Prop :=
  (length (tx_rows (store st)) ≤ length (batch_buffer st))%nat.

(** What the counting of uncommitted inserts goes by. *)
Definition pending_view (st : State) : list Row * list json :=
  (tx_rows (store st), batch_buffer st).

(** The store answers every call of the startup. *)
Definition reachable : BootEnv :=
  mkBootEnv Done (λ _, mkAttempt Done Done) Done.

(** What is durable in the store. *)
Definition committed_view (st : State) : list Row * gmap (Z * string) GoldRow :=
  (silver (store st), gold (store st)).

(** An environment in which the insert fails with [e] and everything else
    goes through. *)
Definition insert_down (e : Exn) (t : Z) : Env :=
  mkEnv Done (Fails e) (λ _, mkAttempt Done Done) t Done t Done t Done t Done Done.

(** A reading whose value is a text. *)
Definition worded : json :=
  JObj [("id", JStr "s1"); ("dt", JStr "2024-01-01T00:00:10"); ("value", JStr "n/a")].

(** The aggregate row a table with no column defaults gives a new bucket. *)
Definition unset : GoldRow := mkGoldRow 0 0 0 0 Poor 0.

(** Two statements do the same to the globals and the store and end the same
    way, from states that agree on them. *)
Definition alike {A : Type} (m1 m2 : Py A) : Prop :=
  ∀ s1 s2, core s1 = core s2 →
    (m1 s1).1 = (m2 s2).1 ∧ core (m1 s1).2 = core (m2 s2).2.

Definition set_fs_append (o : Outcome) (env : Env) : Env :=
  mkEnv o (db_insert env) (db_reconnect env) (t_check env) (flush_commit env)
        (t_flush env) (flush_rollback env) (now env) (gold_execute env)
        (db_now env) (gold_commit env) (gold_rollback env).

(** The file system refuses the write. *)
Definition disk_full : Exn := mkExn OSError "No space left on device".

(** An environment whose commit fails and whose rollback goes through. *)
Definition commit_down (e : Exn) (t : Z) : Env :=
  mkEnv Done Done (λ _, mkAttempt Done Done) t (Fails e) t Done t Done t Done Done.

(** * Properties *)

(** ** The refresh query *)

Lemma quality_of_cases (c : Z) :
  (58 ≤ c → quality_of c = Good) ∧
  (50 ≤ c < 58 → quality_of c = Fair) ∧
  (c < 50 → quality_of c = Poor).
Proof.
  unfold quality_of.
  destruct (Z.leb_spec 58 c), (Z.leb_spec 50 c); repeat split; intros; try lia; reflexivity.
Qed.

Lemma quality_of_monotone (c c' : Z) :
  c ≤ c' → quality_rank (quality_of c) ≤ quality_rank (quality_of c').
Proof.
  intros Hle. unfold quality_of.
  destruct (Z.leb_spec 58 c), (Z.leb_spec 50 c), (Z.leb_spec 58 c'), (Z.leb_spec 50 c');
    simpl; lia.
Qed.

Lemma select_gold_label (now : Z) (rows : list Row) (k : Z * string) (g : GoldRow) :
  select_gold now rows !! k = Some g →
  data_quality g = quality_of (sample_count g) ∧ last_updated g = now.
Proof.
  unfold select_gold. rewrite lookup_fmap.
  destruct (group_rows _ !! k) as [a|]; simpl; [|discriminate].
  intros [= <-]. split; reflexivity.
Qed.

(** A group counts the rows that fall under its key, and there is a group
    for a key exactly when some row falls under it. *)
Lemma group_rows_count (rows : list Row) (k : Z * string) :
  agg_count <$> group_rows rows !! k =
  match filter (λ r, group_key r = k) rows with
  | [] => None
  | group => Some (Z.of_nat (length group))
  end.
Proof.
  induction rows as [|r rows IH]; [reflexivity|].
  unfold group_rows in *. simpl. rewrite lookup_partial_alter.
  rewrite filter_cons. case_decide as Hk.
  - subst k. unfold agg_add. simpl.
    destruct (foldr _ ∅ rows !! group_key r) as [a|]; simpl in *.
    + destruct (filter _ rows); [discriminate|].
      injection IH as ->. f_equal. simpl length. lia.
    + destruct (filter _ rows); [reflexivity|discriminate].
  - exact IH.
Qed.

(** The [sample_count] of an aggregate row is the number of visible rows of
    its sensor that fall into its bucket and into the look-back window. *)
Lemma select_gold_sample_count (now : Z) (rows : list Row) (k : Z * string)
  (g : GoldRow) :
  select_gold now rows !! k = Some g →
  sample_count g =
  Z.of_nat (length (filter (λ r, group_key r = k)
                           (filter (λ r, in_window now r = true) rows))).
Proof.
  unfold select_gold. rewrite lookup_fmap. intros Hg.
  pose proof (group_rows_count (filter (λ r, in_window now r = true) rows) k) as Hcount.
  destruct (group_rows _ !! k) as [a|]; simpl in *; [|discriminate].
  injection Hg as <-. simpl.
  destruct (filter (λ r, group_key r = k) _); [discriminate|].
  by injection Hcount.
Qed.

Lemma upsert_twice (new old : gmap (Z * string) GoldRow) :
  upsert new (upsert new old) = upsert new old.
Proof.
  unfold upsert. rewrite (assoc_L (∪)). by rewrite (idemp_L (∪)).
Qed.

(** ** Running statements *)

Lemma calls_app (f : Func) (tr tr' : list Event) :
  calls f (tr ++ tr') = (calls f tr + calls f tr')%nat.
Proof. induction tr as [|ev tr IH]; simpl; [done|]. rewrite IH. lia. Qed.

#[local] Arguments set_session _ _ /.
#[local] Arguments set_last_gold_refresh _ _ /.
#[local] Arguments set_batch_buffer _ _ /.
#[local] Arguments set_last_commit_time _ _ /.
#[local] Arguments set_files _ _ /.
#[local] Arguments set_store _ _ /.
#[local] Arguments set_trace _ _ /.

Ltac py_unfold :=
  unfold mbind, mret, Py_bind, Py_ret, try_except, emit, modify, get, raise,
    lift, external, any_exception in *.

Lemma store_commit_refresh_twice (now : Z) (s : Store) :
  visible_gold (store_refresh now (store_commit (store_refresh now s))) =
  visible_gold (store_refresh now s).
Proof.
  unfold store_refresh, store_commit, visible_gold, visible_rows; simpl.
  rewrite app_nil_r. apply upsert_twice.
Qed.

(** What a pass that returns [True] went through. *)
Lemma refresh_true_inv (env : Env) (st st1 : State) :
  refresh_gold_layer env st = (Ret true, st1) →
  db_conn st ≠ None ∧ db_cursor st ≠ None ∧
  gold_execute env = Done ∧ gold_commit env = Done ∧
  db_conn st1 = db_conn st ∧ db_cursor st1 = db_cursor st ∧
  batch_buffer st1 = batch_buffer st ∧
  last_commit_time st1 = last_commit_time st ∧
  last_gold_refresh st1 = last_gold_refresh st ∧
  files st1 = files st ∧
  store st1 = store_commit (store_refresh (db_now env) (store st)) ∧
  trace st1 = trace st ++
    [Call F_refresh_gold_layer;
     Print (GoldUpserted (refresh_rowcount (db_now env) (store st)))].
Proof.
  unfold refresh_gold_layer. py_unfold. simpl.
  case_bool_decide as Hc; simpl; [intros [=]|].
  case_bool_decide as Hk; simpl; [intros [=]|].
  destruct (gold_execute env) eqn:He; simpl.
  - destruct (gold_commit env) eqn:Hm; simpl.
    + intros [= <-]. simpl. rewrite <- app_assoc. repeat split; auto.
    + destruct (gold_rollback env); simpl; intros [=].
  - destruct (gold_rollback env); simpl; intros [=].
Qed.

(** The committed aggregate table is out of the reach of a pass that does
    not complete. *)
Lemma refresh_gold_committed (env : Env) (st : State) :
  gold (store (refresh_gold_layer env st).2) = gold (store st) ∨
  gold (store (refresh_gold_layer env st).2) =
    visible_gold (store_refresh (db_now env) (store st)).
Proof.
  unfold refresh_gold_layer. py_unfold. simpl.
  case_bool_decide; simpl; [by left|].
  case_bool_decide; simpl; [by left|].
  destruct (gold_execute env); simpl.
  - destruct (gold_commit env); simpl; [by right|].
    destruct (gold_rollback env); simpl; by left.
  - destruct (gold_rollback env); simpl; by left.
Qed.

(** C5 (as amended): two refresh passes in succession that read the same
    [NOW()], with no row inserted between them, leave the aggregate table as
    the first pass left it, in every column. *)
Theorem refresh_twice_same_now (env1 env2 : Env) (st st1 : State) :
  refresh_gold_layer env1 st = (Ret true, st1) →
  db_now env2 = db_now env1 →
  gold (store (refresh_gold_layer env2 st1).2) = gold (store st1).
Proof.
  intros Hrun Hnow.
  destruct (refresh_true_inv _ _ _ Hrun) as (_ & _ & _ & _ & _ & _ & _ & _ & _ & _ & Hs & _).
  destruct (refresh_gold_committed env2 st1) as [->| ->]; [done|].
  rewrite Hs, Hnow. apply store_commit_refresh_twice.
Qed.

Lemma refresh_twice_same_now_witness :
  let env := Sensors.calm Examples.midnight (Examples.after 60) (Examples.after 60) in
  let st := Examples.online Examples.two_rows in
  gold (store (refresh_gold_layer env (refresh_gold_layer env st).2).2)
  = gold (store (refresh_gold_layer env st).2).
Proof.
  intros env st.
  apply (refresh_twice_same_now env env st (refresh_gold_layer env st).2);
    reflexivity.
Defined.

(** C5 (as stated) fails: with the two rows of 00:00:10 and 00:00:50, a pass at
    00:05:05 counts both, and a second pass 25 seconds later, when the first
    row has left the five-minute window, overwrites the bucket with a count
    of one and a later [last_updated]. *)
Lemma refresh_twice_later_drifts :
  let st := Examples.online Examples.two_rows in
  let env1 := Sensors.calm Examples.midnight (Examples.after 305) (Examples.after 305) in
  let env2 := Sensors.calm Examples.midnight (Examples.after 330) (Examples.after 330) in
  let st1 := (refresh_gold_layer env1 st).2 in
  let st2 := (refresh_gold_layer env2 st1).2 in
  (refresh_gold_layer env1 st).1 = Ret true ∧
  (refresh_gold_layer env2 st1).1 = Ret true ∧
  silver (store st2) = silver (store st1) ∧
  gold (store st1) !! Examples.first_minute
    = Some (mkGoldRow 650 5 8 2 Poor (Examples.after 305)) ∧
  gold (store st2) !! Examples.first_minute
    = Some (mkGoldRow 800 8 8 1 Poor (Examples.after 330)) ∧
  gold (store st2) ≠ gold (store st1).
Proof.
  intros st env1 env2 st1 st2.
  assert (H1 : gold (store st1) !! Examples.first_minute
               = Some (mkGoldRow 650 5 8 2 Poor (Examples.after 305)))
    by (vm_compute; reflexivity).
  assert (H2 : gold (store st2) !! Examples.first_minute
               = Some (mkGoldRow 800 8 8 1 Poor (Examples.after 330)))
    by (vm_compute; reflexivity).
  repeat split; try (vm_compute; reflexivity); try assumption.
  intros Heq. rewrite Heq, H1 in H2. discriminate H2.
Qed.

(** C6: the label of every bucket group the refresh query yields is [Good]
    from 58 samples on, [Fair] from 50 to 57, [Poor] below 50; and between any
    two groups, the one with at least as many samples has a label at least as
    good. *)
Theorem quality_label_by_count (now now' : Z) (rows rows' : list Row)
  (k k' : Z * string) (g g' : GoldRow) :
  select_gold now rows !! k = Some g →
  select_gold now' rows' !! k' = Some g' →
  (58 ≤ sample_count g → data_quality g = Good) ∧
  (50 ≤ sample_count g < 58 → data_quality g = Fair) ∧
  (sample_count g < 50 → data_quality g = Poor) ∧
  (sample_count g ≤ sample_count g' →
   quality_rank (data_quality g) ≤ quality_rank (data_quality g')).
Proof.
  intros Hg Hg'.
  apply select_gold_label in Hg as [-> _].
  apply select_gold_label in Hg' as [-> _].
  destruct (quality_of_cases (sample_count g)) as (HG & HF & HP).
  repeat split; auto using quality_of_monotone.
Qed.

Lemma quality_label_by_count_witness :
  let now := Examples.after 60 in
  let g := mkGoldRow 700 7 7 1 Poor now in
  let g' := mkGoldRow 3350 5 62 58 Good now in
  (58 ≤ sample_count g → data_quality g = Good) ∧
  (50 ≤ sample_count g < 58 → data_quality g = Fair) ∧
  (sample_count g < 50 → data_quality g = Poor) ∧
  (sample_count g ≤ sample_count g' →
   quality_rank (data_quality g) ≤ quality_rank (data_quality g')).
Proof.
  intros now g g'.
  apply (quality_label_by_count now now Examples.full_minute Examples.full_minute
           (Examples.midnight, "s2") (Examples.midnight, "s1") g g');
    vm_compute; reflexivity.
Defined.

(** ** The refresh pass and the flush *)

Lemma refresh_completes (env : Env) (st : State) :
  db_conn st ≠ None → db_cursor st ≠ None →
  gold_execute env = Done → gold_commit env = Done →
  refresh_gold_layer env st =
  (Ret true,
   set_trace (trace st ++
              [Call F_refresh_gold_layer;
               Print (GoldUpserted (refresh_rowcount (db_now env) (store st)))])
     (set_store (store_commit (store_refresh (db_now env) (store st))) st)).
Proof.
  intros Hc Hk He Hm. unfold refresh_gold_layer. py_unfold. simpl.
  rewrite (bool_decide_eq_false_2 _ Hc), (bool_decide_eq_false_2 _ Hk). simpl.
  rewrite He, Hm. simpl. rewrite <- app_assoc. reflexivity.
Qed.

Lemma refresh_fails (env : Env) (st : State) :
  db_conn st ≠ None → db_cursor st ≠ None →
  gold_execute env ≠ Done ∨ gold_commit env ≠ Done →
  gold_rollback env = Done →
  ∃ tr,
    refresh_gold_layer env st =
    (Ret false, set_trace tr (set_store (store_rollback (store st)) st)) ∧
    calls F_refresh_gold_layer tr = S (calls F_refresh_gold_layer (trace st)) ∧
    calls F_flush_batch tr = calls F_flush_batch (trace st).
Proof.
  intros Hc Hk Hbad Hr. unfold refresh_gold_layer. py_unfold. simpl.
  rewrite (bool_decide_eq_false_2 _ Hc), (bool_decide_eq_false_2 _ Hk). simpl.
  destruct (gold_execute env) eqn:He; simpl.
  - destruct (gold_commit env) eqn:Hm; simpl; [destruct Hbad; congruence|].
    rewrite Hr. simpl. eexists. split; [reflexivity|].
    simpl. rewrite !calls_app. simpl. split; lia.
  - rewrite Hr. simpl. eexists. split; [reflexivity|].
    simpl. rewrite !calls_app. simpl. split; lia.
Qed.

(** C2 (as amended): with a live connection, a refresh pass that completes
    returns the flag [True] and prints the number of buckets it upserted; a
    pass that fails and is rolled back returns [False]. *)
Theorem refresh_returns_flag (env : Env) (st : State) :
  db_conn st ≠ None → db_cursor st ≠ None →
  (gold_execute env = Done → gold_commit env = Done →
   (refresh_gold_layer env st).1 = Ret true ∧
   last (trace (refresh_gold_layer env st).2) =
     Some (Print (GoldUpserted
       (size (select_gold (db_now env) (visible_rows (store st))))))) ∧
  (gold_execute env ≠ Done ∨ gold_commit env ≠ Done →
   gold_rollback env = Done →
   (refresh_gold_layer env st).1 = Ret false).
Proof.
  intros Hc Hk. split.
  - intros He Hm. rewrite (refresh_completes env st Hc Hk He Hm). simpl.
    split; [reflexivity|].
    change [Call F_refresh_gold_layer;
            Print (GoldUpserted (refresh_rowcount (db_now env) (store st)))]
      with ([Call F_refresh_gold_layer] ++
            [Print (GoldUpserted (refresh_rowcount (db_now env) (store st)))]).
    rewrite app_assoc, last_snoc. reflexivity.
  - intros Hbad Hr.
    destruct (refresh_fails env st Hc Hk Hbad Hr) as (tr & -> & _). reflexivity.
Qed.

Lemma refresh_returns_flag_witness :
  let st := Examples.online Examples.two_sensors in
  let env := Sensors.calm Examples.midnight (Examples.after 60) (Examples.after 60) in
  let bad := Examples.failing Examples.midnight (Examples.after 60) (Examples.after 60) in
  ((refresh_gold_layer env st).1 = Ret true ∧
   last (trace (refresh_gold_layer env st).2) = Some (Print (GoldUpserted 2))) ∧
  (refresh_gold_layer bad st).1 = Ret false.
Proof.
  intros st env bad. split.
  - apply (refresh_returns_flag env st); [discriminate|discriminate|reflexivity|reflexivity].
  - apply (refresh_returns_flag bad st);
      [discriminate|discriminate|left; discriminate|reflexivity].
Defined.

(** C2 (as stated) fails: a pass that upserts two buckets returns [True],
    which is not the count 2. *)
Lemma refresh_returns_true_not_count :
  let st := Examples.online Examples.two_sensors in
  let env := Sensors.calm Examples.midnight (Examples.after 60) (Examples.after 60) in
  (refresh_gold_layer env st).1 = Ret true ∧
  refresh_rowcount (db_now env) (store st) = 2%nat ∧
  py_int true ≠ Z.of_nat (refresh_rowcount (db_now env) (store st)).
Proof.
  intros st env. repeat split; try (vm_compute; reflexivity).
  vm_compute. discriminate.
Qed.

Lemma flush_commits (env : Env) (st : State) :
  db_conn st ≠ None → batch_buffer st ≠ [] → flush_commit env = Done →
  flush_batch env st =
  (Ret tt,
   set_trace (trace st ++ [Call F_flush_batch;
                           Print (SilverCommitted (length (batch_buffer st)))])
     (set_last_commit_time (t_flush env)
        (set_batch_buffer [] (set_store (store_commit (store st)) st)))).
Proof.
  intros Hc Hb Hm. unfold flush_batch. py_unfold. simpl.
  rewrite (bool_decide_eq_true_2 _ Hc), (bool_decide_eq_true_2 _ Hb). simpl.
  rewrite Hm. simpl. rewrite <- app_assoc. reflexivity.
Qed.

Lemma flush_commit_fails (env : Env) (st : State) (e : Exn) :
  db_conn st ≠ None → batch_buffer st ≠ [] → flush_commit env = Fails e →
  flush_batch env st =
  match flush_rollback env with
  | Done =>
      (Ret tt,
       set_trace (trace st ++ [Call F_flush_batch; Print (CommitFailed e)])
         (set_store (store_rollback (store st)) st))
  | Fails e' =>
      (Raise e',
       set_trace (trace st ++ [Call F_flush_batch; Print (CommitFailed e)]) st)
  end.
Proof.
  intros Hc Hb Hm. unfold flush_batch. py_unfold. simpl.
  rewrite (bool_decide_eq_true_2 _ Hc), (bool_decide_eq_true_2 _ Hb). simpl.
  rewrite Hm. simpl.
  destruct (flush_rollback env); simpl; rewrite <- app_assoc; reflexivity.
Qed.

Lemma flush_nothing (env : Env) (st : State) :
  db_conn st = None ∨ batch_buffer st = [] →
  flush_batch env st = (Ret tt, set_trace (trace st ++ [Call F_flush_batch]) st).
Proof.
  intros Hno. unfold flush_batch. py_unfold. simpl.
  destruct Hno as [Hno|Hno].
  - rewrite bool_decide_eq_false_2 by (intros Hc; by apply Hc). reflexivity.
  - rewrite (bool_decide_eq_false_2 (batch_buffer st ≠ []))
      by (intros Hb; by apply Hb).
    rewrite andb_false_r. reflexivity.
Qed.

(** C8: a flush with a connection and a non-empty batch.  When the commit
    succeeds the open transaction becomes part of the committed tables, the
    batch is emptied and the commit clock is set to the time of the flush.
    When the commit fails the batch and the commit clock stay as they were and
    the rollback is issued: it discards the open transaction, or its own
    failure is what the flush raises. *)
Theorem flush_batch_outcomes (env : Env) (st : State) :
  db_conn st ≠ None → batch_buffer st ≠ [] →
  (flush_commit env = Done →
   (flush_batch env st).1 = Ret tt ∧
   store (flush_batch env st).2 = store_commit (store st) ∧
   silver (store (flush_batch env st).2) = silver (store st) ++ tx_rows (store st) ∧
   tx_rows (store (flush_batch env st).2) = [] ∧
   batch_buffer (flush_batch env st).2 = [] ∧
   last_commit_time (flush_batch env st).2 = t_flush env) ∧
  (∀ e, flush_commit env = Fails e →
   batch_buffer (flush_batch env st).2 = batch_buffer st ∧
   last_commit_time (flush_batch env st).2 = last_commit_time st ∧
   silver (store (flush_batch env st).2) = silver (store st) ∧
   (flush_rollback env = Done →
    (flush_batch env st).1 = Ret tt ∧
    store (flush_batch env st).2 = store_rollback (store st) ∧
    tx_rows (store (flush_batch env st).2) = []) ∧
   (∀ e', flush_rollback env = Fails e' → (flush_batch env st).1 = Raise e')).
Proof.
  intros Hc Hb. split.
  - intros Hm. rewrite (flush_commits env st Hc Hb Hm). simpl. repeat split.
  - intros e Hm. rewrite (flush_commit_fails env st e Hc Hb Hm).
    destruct (flush_rollback env); simpl; repeat split; intros; congruence.
Qed.

Lemma flush_batch_outcomes_witness :
  let st := Examples.pending_two in
  let ok := Sensors.calm (Examples.after 52) (Examples.after 52) (Examples.after 52) in
  let bad := Examples.failing (Examples.after 52) (Examples.after 52) (Examples.after 52) in
  (silver (store (flush_batch ok st).2) =
     [mkRow (Examples.after 5) "s2" 7; mkRow (Examples.after 10) "s1" 5;
      mkRow (Examples.after 50) "s1" 8] ∧
   batch_buffer (flush_batch ok st).2 = [] ∧
   last_commit_time (flush_batch ok st).2 = Examples.after 52) ∧
  (batch_buffer (flush_batch bad st).2 = batch_buffer st ∧
   last_commit_time (flush_batch bad st).2 = Examples.midnight ∧
   tx_rows (store (flush_batch bad st).2) = []).
Proof.
  intros st ok bad.
  destruct (flush_batch_outcomes ok st) as [Hok _]; [discriminate|discriminate|].
  destruct (flush_batch_outcomes bad st) as [_ Hbad]; [discriminate|discriminate|].
  destruct (Hok eq_refl) as (_ & _ & Hs & _ & Hb & Ht).
  destruct (Hbad Examples.deadlock eq_refl) as (Hb' & Ht' & _ & Hr & _).
  destruct (Hr eq_refl) as (_ & _ & Hx).
  repeat split; assumption.
Defined.

(** C10: the refresh pass works on the one transaction of the connection, the
    one the inserts of the batch are in.  With a connection, a pass that
    completes commits the pending inserts with its own upsert, and a pass that
    fails and rolls back discards them; either way the batch and the commit
    clock are left as they were, so after a failed pass the batch still counts
    rows the open transaction no longer holds. *)
Theorem refresh_shares_transaction (env : Env) (st : State) :
  db_conn st ≠ None → db_cursor st ≠ None →
  batch_buffer (refresh_gold_layer env st).2 = batch_buffer st ∧
  last_commit_time (refresh_gold_layer env st).2 = last_commit_time st ∧
  (gold_execute env = Done → gold_commit env = Done →
   silver (store (refresh_gold_layer env st).2) = silver (store st) ++ tx_rows (store st) ∧
   tx_rows (store (refresh_gold_layer env st).2) = []) ∧
  (gold_execute env ≠ Done ∨ gold_commit env ≠ Done →
   gold_rollback env = Done →
   silver (store (refresh_gold_layer env st).2) = silver (store st) ∧
   tx_rows (store (refresh_gold_layer env st).2) = []).
Proof.
  intros Hc Hk. repeat split.
  - unfold refresh_gold_layer. py_unfold. simpl.
    rewrite (bool_decide_eq_false_2 _ Hc), (bool_decide_eq_false_2 _ Hk). simpl.
    destruct (gold_execute env), (gold_commit env), (gold_rollback env); reflexivity.
  - unfold refresh_gold_layer. py_unfold. simpl.
    rewrite (bool_decide_eq_false_2 _ Hc), (bool_decide_eq_false_2 _ Hk). simpl.
    destruct (gold_execute env), (gold_commit env), (gold_rollback env); reflexivity.
  - rewrite (refresh_completes env st Hc Hk H H0). reflexivity.
  - rewrite (refresh_completes env st Hc Hk H H0). reflexivity.
  - destruct (refresh_fails env st Hc Hk H H0) as (tr & -> & _). reflexivity.
  - destruct (refresh_fails env st Hc Hk H H0) as (tr & -> & _). reflexivity.
Qed.

Lemma refresh_shares_transaction_witness :
  let st := Examples.pending_two in
  let ok := Sensors.calm (Examples.after 52) (Examples.after 60) (Examples.after 60) in
  let bad := Examples.failing (Examples.after 52) (Examples.after 60) (Examples.after 60) in
  (silver (store (refresh_gold_layer ok st).2) =
     [mkRow (Examples.after 5) "s2" 7; mkRow (Examples.after 10) "s1" 5;
      mkRow (Examples.after 50) "s1" 8] ∧
   tx_rows (store (refresh_gold_layer ok st).2) = []) ∧
  (length (batch_buffer (refresh_gold_layer bad st).2) = 2%nat ∧
   silver (store (refresh_gold_layer bad st).2) = [mkRow (Examples.after 5) "s2" 7] ∧
   tx_rows (store (refresh_gold_layer bad st).2) = []).
Proof.
  intros st ok bad.
  destruct (refresh_shares_transaction ok st) as (_ & _ & Hok & _);
    [discriminate|discriminate|].
  destruct (refresh_shares_transaction bad st) as (Hb & _ & _ & Hbad);
    [discriminate|discriminate|].
  split; [exact (Hok eq_refl eq_refl)|].
  destruct Hbad as [Hs Hx]; [left; discriminate|reflexivity|].
  split; [rewrite Hb; reflexivity|]. split; assumption.
Defined.

(** ** Frame rules *)

Section Frames.
Context {X : Type} (obs : State → X).

Lemma keeps_ret {A} (a : A) : keeps obs (mret a : Py A).
Proof. intros st. reflexivity. Qed.

Lemma keeps_bind {A B} (m : Py A) (k : A → Py B) :
  keeps obs m → (∀ a, keeps obs (k a)) → keeps obs (m ≫= k).
Proof.
  intros Hm Hk st. unfold mbind, Py_bind. specialize (Hm st).
  destruct (m st) as [[a|e] st']; simpl in *; [|assumption].
  rewrite (Hk a st'). assumption.
Qed.

Lemma keeps_try {A} (caught : Exn → bool) (m : Py A) (h : Exn → Py A) :
  keeps obs m → (∀ e, keeps obs (h e)) → keeps obs (try_except caught m h).
Proof.
  intros Hm Hh st. unfold try_except. specialize (Hm st).
  destruct (m st) as [[a|e] st']; simpl in *; [assumption|].
  destruct (caught e); simpl; [|assumption].
  rewrite (Hh e st'). assumption.
Qed.

Lemma keeps_get : keeps obs get.
Proof. intros st. reflexivity. Qed.

Lemma keeps_lift {A} (r : Result A) : keeps obs (lift r).
Proof. intros st. reflexivity. Qed.

Lemma keeps_raise {A} (e : Exn) : keeps obs (raise e : Py A).
Proof. intros st. reflexivity. Qed.

Lemma keeps_external (o : Outcome) : keeps obs (external o).
Proof. destruct o; intros st; reflexivity. Qed.

Lemma keeps_modify (f : State → State) :
  (∀ st, obs (f st) = obs st) → keeps obs (modify f).
Proof. intros Hf st. apply Hf. Qed.

Lemma keeps_if {A} (b : bool) (m m' : Py A) :
  keeps obs m → keeps obs m' → keeps obs (if b then m else m').
Proof. destruct b; auto. Qed.

End Frames.

(** Breaks a statement into its parts; what is left are the updates of the
    state and the calls of other functions. *)
Ltac frame_step :=
  lazymatch goal with
  | |- keeps _ (mret _) => apply keeps_ret
  | |- keeps _ (mbind _ _) => apply keeps_bind; [|intros ?]
  | |- keeps _ (try_except _ _ _) => apply keeps_try; [|intros ?]
  | |- keeps _ get => apply keeps_get
  | |- keeps _ (lift _) => apply keeps_lift
  | |- keeps _ (raise _) => apply keeps_raise
  | |- keeps _ (external _) => apply keeps_external
  | |- keeps _ (if _ then _ else _) => apply keeps_if
  | |- keeps _ (modify _) => apply keeps_modify; reflexivity
  | |- keeps _ (emit _) => apply keeps_modify; reflexivity
  end.

Ltac frame := repeat frame_step.

Lemma schedule_view_emit (ev : Event) :
  is_call F_flush_batch ev = false → is_call F_refresh_gold_layer ev = false →
  keeps schedule_view (emit ev).
Proof.
  intros Hf Hr st. unfold schedule_view, emit, modify. simpl.
  rewrite !calls_app. simpl. rewrite Hf, Hr. by rewrite !Nat.add_0_r.
Qed.

Section ScriptFrames.
Context {P : Platform}.

Lemma connect_loop_schedule_view (tries : nat → Attempt) (remaining attempt : nat) :
  keeps schedule_view (connect_loop tries attempt remaining).
Proof.
  revert attempt. induction remaining as [|rest IH]; intros attempt; simpl.
  - apply keeps_ret.
  - apply keeps_try; [|intros e].
    + unfold open_session. frame; by apply schedule_view_emit.
    + apply keeps_bind; [by apply schedule_view_emit|intros _].
      apply keeps_if.
      * apply keeps_bind; [by apply schedule_view_emit|intros _]. apply IH.
      * frame. by apply schedule_view_emit.
Qed.

Lemma connect_database_schedule_view (tries : nat → Attempt) :
  keeps schedule_view (connect_database tries).
Proof.
  unfold connect_database. apply keeps_bind; [by apply schedule_view_emit|intros _].
  apply connect_loop_schedule_view.
Qed.

Lemma connect_database_files (tries : nat → Attempt) :
  keeps files (connect_database tries).
Proof.
  unfold connect_database. frame. generalize 0%nat. generalize max_retries.
  intros remaining. induction remaining as [|rest IH]; intros attempt; simpl.
  - apply keeps_ret.
  - unfold open_session. frame. apply IH.
Qed.

Lemma store_raw_data_schedule_view (env : Env) (data : json) :
  keeps schedule_view (store_raw_data env data).
Proof.
  unfold store_raw_data, append_file. frame; by apply schedule_view_emit.
Qed.

Lemma store_to_silver_schedule_view (env : Env) (data : json) :
  keeps schedule_view (store_to_silver env data).
Proof.
  unfold store_to_silver, execute_insert.
  apply keeps_try; [|intros e].
  - frame. destruct (db_insert env); [destruct (pg_row _ _ _)|];
      unfold rejected; frame.
  - frame; first [by apply schedule_view_emit|apply connect_database_schedule_view].
Qed.

Lemma ingest_schedule_view (env : Env) (payload : string) :
  keeps schedule_view (ingest env payload).
Proof.
  unfold ingest.
  frame; first [by apply schedule_view_emit
               |apply store_raw_data_schedule_view
               |apply store_to_silver_schedule_view].
Qed.

End ScriptFrames.

(** ** The two checks of the handler *)

Lemma flush_batch_view (env : Env) (st : State) :
  calls F_flush_batch (trace (flush_batch env st).2) = S (calls F_flush_batch (trace st)) ∧
  calls F_refresh_gold_layer (trace (flush_batch env st).2)
    = calls F_refresh_gold_layer (trace st) ∧
  last_gold_refresh (flush_batch env st).2 = last_gold_refresh st ∧
  db_conn (flush_batch env st).2 = db_conn st ∧
  db_cursor (flush_batch env st).2 = db_cursor st ∧
  (flush_commit env = Done ∨ flush_rollback env = Done →
   (flush_batch env st).1 = Ret tt).
Proof.
  destruct (decide (db_conn st = None)) as [Hc|Hc];
    [rewrite flush_nothing by auto; simpl; rewrite !calls_app; simpl;
     repeat split; lia|].
  destruct (decide (batch_buffer st = [])) as [Hb|Hb];
    [rewrite flush_nothing by auto; simpl; rewrite !calls_app; simpl;
     repeat split; lia|].
  destruct (flush_commit env) as [|e] eqn:Hm.
  - rewrite (flush_commits env st Hc Hb Hm). simpl. rewrite !calls_app. simpl.
    repeat split; lia.
  - rewrite (flush_commit_fails env st e Hc Hb Hm).
    destruct (flush_rollback env) eqn:Hr; simpl; rewrite !calls_app; simpl;
      repeat split; try lia; intros [?|?]; congruence.
Qed.

Lemma refresh_view (env : Env) (st : State) :
  calls F_refresh_gold_layer (trace (refresh_gold_layer env st).2)
    = S (calls F_refresh_gold_layer (trace st)) ∧
  calls F_flush_batch (trace (refresh_gold_layer env st).2)
    = calls F_flush_batch (trace st) ∧
  last_gold_refresh (refresh_gold_layer env st).2 = last_gold_refresh st ∧
  (gold_rollback env = Done → ∃ b, (refresh_gold_layer env st).1 = Ret b).
Proof.
  unfold refresh_gold_layer. py_unfold. simpl.
  destruct (bool_decide (db_conn st = None) || bool_decide (db_cursor st = None));
    simpl; [rewrite !calls_app; simpl; repeat split; eauto; lia|].
  destruct (gold_execute env), (gold_commit env), (gold_rollback env); simpl;
    rewrite !calls_app; simpl; repeat split; eauto; try lia; discriminate.
Qed.

Lemma refresh_commit_view (env : Env) : keeps commit_view (refresh_gold_layer env).
Proof. unfold refresh_gold_layer. frame. Qed.

Lemma timedelta_seconds_elapsed (later earlier : Z) :
  0 ≤ later - earlier < 86400 * ticks_per_second →
  (refresh_seconds ≤ timedelta_seconds later earlier
   ↔ refresh_seconds * ticks_per_second ≤ later - earlier).
Proof.
  intros Hday. unfold timedelta_seconds, refresh_seconds, ticks_per_second in *.
  rewrite Z.mod_small.
  - split; intros Hle.
    + pose proof (Z.mul_div_le (later - earlier) 1000000). lia.
    + apply Z.div_le_lower_bound; lia.
  - split; [apply Z.div_pos; lia|apply Z.div_lt_upper_bound; lia].
Qed.

Lemma commit_due_spec (env : Env) (st : State) :
  commit_due env st = true ↔
  (batch_size ≤ length (batch_buffer st))%nat
  ∨ commit_interval * ticks_per_second < t_check env - last_commit_time st.
Proof.
  unfold commit_due. rewrite orb_true_iff, Nat.leb_le, Z.ltb_lt. reflexivity.
Qed.

Lemma commit_check_spec (env : Env) (st : State) :
  calls F_flush_batch (trace (commit_check env st).2)
    = (calls F_flush_batch (trace st) + (if commit_due env st then 1 else 0))%nat ∧
  calls F_refresh_gold_layer (trace (commit_check env st).2)
    = calls F_refresh_gold_layer (trace st) ∧
  last_gold_refresh (commit_check env st).2 = last_gold_refresh st ∧
  (commit_due env st = false → commit_view (commit_check env st).2 = commit_view st) ∧
  (commit_due env st = true → db_conn st ≠ None → batch_buffer st ≠ [] →
   flush_commit env = Done →
   (commit_check env st).1 = Ret tt ∧
   commit_view (commit_check env st).2 = ([], t_flush env)) ∧
  (flush_rollback env = Done → (commit_check env st).1 = Ret tt).
Proof.
  unfold commit_check. py_unfold. simpl.
  destruct (commit_due env st) eqn:Hdue; simpl.
  - pose proof (flush_batch_view env st) as (Hf & Hr & Hl & _ & _ & Hret).
    split; [lia|]. split; [assumption|]. split; [assumption|].
    split; [discriminate|]. split; [|auto].
    intros _ Hc Hb Hm. rewrite (flush_commits env st Hc Hb Hm). split; reflexivity.
  - split; [lia|]. repeat split; auto; discriminate.
Qed.

Lemma refresh_check_spec (env : Env) (st : State) :
  calls F_flush_batch (trace (refresh_check env st).2)
    = calls F_flush_batch (trace st) ∧
  commit_view (refresh_check env st).2 = commit_view st ∧
  (gold_rollback env = Done →
   (refresh_check env st).1 = Ret tt ∧
   calls F_refresh_gold_layer (trace (refresh_check env st).2)
     = (calls F_refresh_gold_layer (trace st)
        + (if refresh_due env st then 1 else 0))%nat ∧
   last_gold_refresh (refresh_check env st).2
     = (if refresh_due env st then now env else last_gold_refresh st)).
Proof.
  unfold refresh_check. py_unfold. simpl.
  destruct (refresh_due env st); simpl.
  - pose proof (refresh_view env st) as (Hr & Hf & Hl & Hret).
    pose proof (refresh_commit_view env st) as Hcv.
    destruct (refresh_gold_layer env st) as [[b|e] s2]; simpl in *.
    + split; [assumption|]. split; [assumption|]. intros _.
      split; [reflexivity|]. split; [lia|reflexivity].
    + split; [assumption|]. split; [assumption|]. intros Hrb.
      destruct (Hret Hrb) as [b [=]].
  - split; [reflexivity|]. split; [reflexivity|]. intros _.
    split; [reflexivity|]. split; [lia|reflexivity].
Qed.

Section Handler.
Context {P : Platform}.

Lemma on_message_after_ingest (env : Env) (payload : string) (st st1 : State) :
  ingest env payload st = (Ret tt, st1) →
  on_message env payload st =
  match commit_check env st1 with
  | (Ret _, s2) =>
      match refresh_check env s2 with
      | (Ret _, s3) => (Ret tt, s3)
      | (Raise e, s3) =>
          (Ret tt, set_trace (trace s3 ++ [Print (ProcessingFailed e)]) s3)
      end
  | (Raise e, s2) =>
      (Ret tt, set_trace (trace s2 ++ [Print (ProcessingFailed e)]) s2)
  end.
Proof.
  intros Hin. unfold on_message. py_unfold. rewrite Hin.
  destruct (commit_check env st1) as [[[]|e] s2]; [|reflexivity].
  destruct (refresh_check env s2) as [[[]|e] s3]; reflexivity.
Qed.

Lemma on_message_flush_calls (env : Env) (payload : string) (st st1 : State) :
  ingest env payload st = (Ret tt, st1) →
  calls F_flush_batch (trace (on_message env payload st).2)
    = (calls F_flush_batch (trace st) + (if commit_due env st1 then 1 else 0))%nat ∧
  (commit_due env st1 = false →
   commit_view (on_message env payload st).2 = commit_view st1) ∧
  (commit_due env st1 = true → db_conn st1 ≠ None → batch_buffer st1 ≠ [] →
   flush_commit env = Done →
   commit_view (on_message env payload st).2 = ([], t_flush env)).
Proof.
  intros Hin. rewrite (on_message_after_ingest env payload st st1 Hin).
  pose proof (ingest_schedule_view env payload st) as Hview.
  rewrite Hin in Hview. simpl in Hview. injection Hview as Hf0 _ _.
  pose proof (commit_check_spec env st1) as (Hf & _ & _ & Hkeep & Hflush & _).
  destruct (commit_check env st1) as [[[]|e] s2]; simpl in *.
  - pose proof (refresh_check_spec env s2) as (Hf' & Hcv' & _).
    destruct (refresh_check env s2) as [[[]|e] s3]; simpl in *.
    + split; [lia|]. split; [intros Hd; rewrite Hcv'; auto|].
      intros Hd Hc Hb Hm. rewrite Hcv'. by apply Hflush.
    + rewrite calls_app. simpl. split; [lia|].
      split; [intros Hd; unfold commit_view in *; simpl; rewrite <- Hkeep by auto; auto|].
      intros Hd Hc Hb Hm. unfold commit_view in *; simpl.
      destruct (Hflush Hd Hc Hb Hm) as [_ <-]. auto.
  - rewrite calls_app. simpl. split; [lia|].
    split; [intros Hd; unfold commit_view in *; simpl; by apply Hkeep|].
    intros Hd Hc Hb Hm. destruct (Hflush Hd Hc Hb Hm) as [[=] _].
Qed.

(** C4 (as amended): for a reading that the handler takes as far as its
    status line, so that the line is printed, the handler enters
    [flush_batch] exactly when the batch, the reading counted, holds at least
    [batch_size] readings or more than [commit_interval] seconds have passed
    since the last commit: once when either holds, not at all when neither
    does.  With a connection and a pending reading the flush that is due
    commits, whichever of the two made it due; a flush that is not due leaves
    the batch and the commit clock alone. *)
Theorem flush_attempted_when_due (env : Env) (payload : string) (st st1 : State) :
  ingest env payload st = (Ret tt, st1) →
  ((batch_size ≤ length (batch_buffer st1))%nat
   ∨ commit_interval * ticks_per_second < t_check env - last_commit_time st1 →
   calls F_flush_batch (trace (on_message env payload st).2)
     = S (calls F_flush_batch (trace st)) ∧
   (db_conn st1 ≠ None → batch_buffer st1 ≠ [] → flush_commit env = Done →
    batch_buffer (on_message env payload st).2 = [] ∧
    last_commit_time (on_message env payload st).2 = t_flush env)) ∧
  (¬ ((batch_size ≤ length (batch_buffer st1))%nat
      ∨ commit_interval * ticks_per_second < t_check env - last_commit_time st1) →
   calls F_flush_batch (trace (on_message env payload st).2)
     = calls F_flush_batch (trace st) ∧
   batch_buffer (on_message env payload st).2 = batch_buffer st1 ∧
   last_commit_time (on_message env payload st).2 = last_commit_time st1).
Proof.
  intros Hin.
  destruct (on_message_flush_calls env payload st st1 Hin) as (Hcalls & Hkeep & Hflush).
  split.
  - intros Hdue. apply commit_due_spec in Hdue. rewrite Hdue in Hcalls.
    split; [lia|]. intros Hc Hb Hm.
    specialize (Hflush Hdue Hc Hb Hm). by injection Hflush.
  - intros Hnot. rewrite <- commit_due_spec in Hnot.
    apply not_true_is_false in Hnot. rewrite Hnot in Hcalls.
    split; [lia|]. specialize (Hkeep Hnot). by injection Hkeep.
Qed.

(** C7 (as amended): for a reading that the handler takes as far as its
    status line, so that the line is printed, when the rollbacks of the store
    complete, so that the flush and the refresh pass return, and less than a
    day has passed, the handler enters [refresh_gold_layer] exactly when at
    least 60 seconds have passed since [last_gold_refresh], and every pass it
    enters, whether it returns success or failure, sets [last_gold_refresh]
    to the time of the reading. *)
Theorem refresh_gated_by_last_attempt (env : Env) (payload : string) (st st1 : State) :
  ingest env payload st = (Ret tt, st1) →
  flush_rollback env = Done → gold_rollback env = Done →
  0 ≤ now env - last_gold_refresh st < 86400 * ticks_per_second →
  (refresh_seconds * ticks_per_second ≤ now env - last_gold_refresh st →
   calls F_refresh_gold_layer (trace (on_message env payload st).2)
     = S (calls F_refresh_gold_layer (trace st)) ∧
   last_gold_refresh (on_message env payload st).2 = now env) ∧
  (now env - last_gold_refresh st < refresh_seconds * ticks_per_second →
   calls F_refresh_gold_layer (trace (on_message env payload st).2)
     = calls F_refresh_gold_layer (trace st) ∧
   last_gold_refresh (on_message env payload st).2 = last_gold_refresh st).
Proof.
  intros Hin Hfr Hgr Hday.
  rewrite (on_message_after_ingest env payload st st1 Hin).
  pose proof (ingest_schedule_view env payload st) as Hview.
  rewrite Hin in Hview. simpl in Hview. injection Hview as _ Hr0 Hl0.
  pose proof (commit_check_spec env st1) as (_ & Hr1 & Hl1 & _ & _ & Hret1).
  specialize (Hret1 Hfr).
  destruct (commit_check env st1) as [[[]|e] s2]; simpl in *; [|discriminate].
  pose proof (refresh_check_spec env s2) as (_ & _ & Hspec).
  destruct (Hspec Hgr) as (Hret2 & Hr2 & Hl2).
  destruct (refresh_check env s2) as [[[]|e] s3]; simpl in *; [|discriminate].
  assert (Hdue : refresh_due env s2 = true
                 ↔ refresh_seconds * ticks_per_second ≤ now env - last_gold_refresh st).
  { unfold refresh_due. rewrite Z.leb_le, Hl1, Hl0.
    by apply timedelta_seconds_elapsed. }
  split.
  - intros Hle. apply Hdue in Hle. rewrite Hle in *. split; [lia|assumption].
  - intros Hlt. destruct (refresh_due env s2).
    + destruct Hdue as [Hdue _]. specialize (Hdue eq_refl). lia.
    + split; [lia|congruence].
Qed.

End Handler.

#[local] Existing Instance Sensors.platform | 100.

Lemma flush_attempted_when_due_witness :
  let tenth := Examples.payload_of (Examples.reading "s1" "2024-01-01T00:00:10" 10) in
  let early := Sensors.calm (Examples.after 1) (Examples.after 1) (Examples.after 1) in
  let late := Sensors.calm (Examples.after 6) (Examples.after 6) (Examples.after 6) in
  let idle := Examples.online Sensors.empty_store in
  (calls F_flush_batch (trace (on_message early tenth Examples.pending_nine).2) = 1%nat ∧
   batch_buffer (on_message early tenth Examples.pending_nine).2 = []) ∧
  (calls F_flush_batch (trace (on_message late tenth idle).2) = 1%nat ∧
   batch_buffer (on_message late tenth idle).2 = [] ∧
   last_commit_time (on_message late tenth idle).2 = Examples.after 6) ∧
  (calls F_flush_batch (trace (on_message early tenth idle).2) = 0%nat ∧
   length (batch_buffer (on_message early tenth idle).2) = 1%nat).
Proof.
  intros tenth early late idle.
  destruct (flush_attempted_when_due (P := Sensors.platform) early tenth
              Examples.pending_nine (ingest early tenth Examples.pending_nine).2)
    as [Hsize _]; [vm_compute; reflexivity|].
  destruct (flush_attempted_when_due (P := Sensors.platform) late tenth idle
              (ingest late tenth idle).2)
    as [Htime _]; [vm_compute; reflexivity|].
  destruct (flush_attempted_when_due (P := Sensors.platform) early tenth idle
              (ingest early tenth idle).2)
    as [_ Hnone]; [vm_compute; reflexivity|].
  destruct Hsize as (Hs1 & Hs2); [left; vm_compute; lia|].
  destruct Hs2 as (Hs2 & _); [discriminate|discriminate|reflexivity|].
  destruct Htime as (Ht1 & Ht2); [right; vm_compute; reflexivity|].
  destruct Ht2 as (Ht2 & Ht3); [discriminate|discriminate|reflexivity|].
  destruct Hnone as (Hn1 & Hn2 & _);
    [intros [Hn|Hn]; vm_compute in Hn; first [lia|discriminate]|].
  repeat split; assumption.
Defined.

(** C4 (as stated) fails: nine readings wait for their commit, the last
    commit is a hundred seconds old, and a reading arrives whose value is the
    text [n/a].  It is written to its raw file and handed to the store, and
    the status line then raises on the value: the handler ends in its [except]
    branch before the commit check.  [flush_batch] is not entered, though the
    commit interval is long past and nine readings are counted. *)
Lemma unprintable_reading_is_not_flushed :
  let env := Sensors.calm (Examples.after 100) (Examples.after 100) (Examples.after 100) in
  let payload := Examples.payload_of worded in
  let st := Examples.pending_nine in
  let st' := (on_message env payload st).2 in
  loads payload = Some worded ∧
  db_conn st = Some 0%nat ∧ length (batch_buffer st) = 9%nat ∧
  calls F_flush_batch (trace st) = 0%nat ∧
  files st' !! "/data/raw/2024-01-01_s1.jsonl"
  = Some (payload +:+ String PyStr.newline "") ∧
  last (trace st')
  = Some (Print (ProcessingFailed (mkExn ValueError "Unknown format code 'd'"))) ∧
  db_conn st' = Some 0%nat ∧ length (batch_buffer st') = 9%nat ∧
  (commit_interval * ticks_per_second <? t_check env - last_commit_time st') = true ∧
  commit_due env st' = true ∧
  calls F_flush_batch (trace st') = 0%nat.
Proof.
  intros env payload st st'.
  repeat split; vm_compute; reflexivity.
Qed.

Lemma refresh_gated_by_last_attempt_witness :
  let first := Examples.payload_of (Examples.reading "s1" "2024-01-01T00:01:00" 5) in
  let second := Examples.payload_of (Examples.reading "s1" "2024-01-01T00:01:01" 6) in
  let down := Examples.gold_down (Examples.after 60) (Examples.after 60) (Examples.after 60) in
  let up := Sensors.calm (Examples.after 61) (Examples.after 61) (Examples.after 61) in
  let st := Examples.online Examples.two_rows in
  let st1 := (on_message down first st).2 in
  (calls F_refresh_gold_layer (trace st1) = 1%nat ∧
   last_gold_refresh st1 = Examples.after 60) ∧
  (calls F_refresh_gold_layer (trace (on_message up second st1).2) = 1%nat ∧
   last_gold_refresh (on_message up second st1).2 = Examples.after 60).
Proof.
  intros first second down up st st1.
  destruct (refresh_gated_by_last_attempt (P := Sensors.platform) down first st
              (ingest down first st).2) as [Hdue _];
    [vm_compute; reflexivity|reflexivity|reflexivity|vm_compute; split; [discriminate|reflexivity]|].
  destruct (refresh_gated_by_last_attempt (P := Sensors.platform) up second st1
              (ingest up second st1).2) as [_ Hnot];
    [vm_compute; reflexivity|reflexivity|reflexivity|vm_compute; split; [discriminate|reflexivity]|].
  split.
  - apply Hdue. vm_compute. discriminate.
  - destruct Hnot as [Hc Hl]; [vm_compute; reflexivity|].
    split; [rewrite Hc|rewrite Hl]; vm_compute; reflexivity.
Defined.

(** C7 (as stated) fails: the pass of the reading of 00:01:00 fails and leaves
    the aggregate table empty, so no refresh has succeeded since the process
    started at midnight; the reading of 00:01:01 comes 61 seconds after that,
    and no second pass is started, because the failed pass has moved
    [last_gold_refresh] to 00:01:00. *)
Lemma failed_refresh_is_not_retried :
  let first := Examples.payload_of (Examples.reading "s1" "2024-01-01T00:01:00" 5) in
  let second := Examples.payload_of (Examples.reading "s1" "2024-01-01T00:01:01" 6) in
  let down := Examples.gold_down (Examples.after 60) (Examples.after 60) (Examples.after 60) in
  let up := Sensors.calm (Examples.after 61) (Examples.after 61) (Examples.after 61) in
  let st := Examples.online Examples.two_rows in
  let st1 := (on_message down first st).2 in
  let st2 := (on_message up second st1).2 in
  last_gold_refresh st = Examples.midnight ∧
  trace st1 =
    [Print (Status true true "s1" (JStr "00:01:00") 5);
     Call F_flush_batch; Print (SilverCommitted 1);
     Call F_refresh_gold_layer; Print (GoldFailed Examples.deadlock)] ∧
  gold (store st1) = ∅ ∧
  (refresh_seconds <=? timedelta_seconds (now up) (last_gold_refresh st)) = true ∧
  last_gold_refresh st1 = Examples.after 60 ∧
  calls F_refresh_gold_layer (trace st1) = 1%nat ∧
  calls F_refresh_gold_layer (trace st2) = 1%nat ∧
  gold (store st2) = ∅.
Proof.
  intros first second down up st st1 st2.
  repeat split; vm_compute; reflexivity.
Qed.

(** ** Payloads that are not readings *)

Lemma getitem_error_text (data : json) (k : string) (e : Exn) :
  getitem data k = Raise e →
  k = "id" ∨ k = "dt" ∨ k = "value" →
  PyStr.contains "connection" (PyStr.lower (exn_text e)) = false.
Proof.
  intros Hget Hk. destruct data; simpl in Hget;
    try (injection Hget as <-; reflexivity).
  destruct (assoc k items); [discriminate|]. injection Hget as <-.
  destruct Hk as [ -> | [ -> | -> ] ]; reflexivity.
Qed.

Lemma status_line_needs_fields (raw_ok silver_ok : bool) (data : json) :
  has_fields data = false → ∃ e, status_line raw_ok silver_ok data = Raise e.
Proof.
  unfold has_fields, status_line, and_then.
  destruct (getitem data "id") as [sensor|e]; simpl; [|eauto].
  destruct (format_10s sensor); [|eauto].
  destruct (getitem data "dt") as [clock|e]; simpl; [|eauto].
  destruct (slice_11_19 clock); [|eauto].
  destruct (getitem data "value") as [value|e]; simpl; [discriminate|eauto].
Qed.

Section Malformed.
Context {P : Platform}.

(** The raw writer returns, and acts on the raw files alone; it writes only
    when the sensor and the timestamp are there. *)
Lemma store_raw_data_spec (env : Env) (data : json) (st : State) :
  ∃ b tr fs,
    store_raw_data env data st = (Ret b, set_trace tr (set_files fs st)) ∧
    (returns (getitem data "id") && returns (getitem data "dt") = false →
     fs = files st).
Proof.
  unfold store_raw_data, append_file. py_unfold. simpl.
  destruct (getitem data "id") as [id|e]; simpl; [|by eauto 10].
  destruct (py_replace id); simpl; [|by eauto 10].
  destruct (getitem data "dt") as [timestamp|e]; simpl; [|by eauto 10].
  destruct (py_date timestamp); simpl; [|by eexists _, _, _; split].
  destruct (fs_append env); simpl; by eexists _, _, _; split.
Qed.

Lemma store_to_silver_needs_fields (env : Env) (data : json) (st : State) :
  has_fields data = false →
  ∃ tr, store_to_silver env data st = (Ret false, set_trace tr st).
Proof.
  intros Hmiss. unfold store_to_silver, execute_insert. py_unfold. simpl.
  destruct (bool_decide (db_conn st = None) || bool_decide (db_cursor st = None));
    simpl; [by exists (trace st); destruct st|].
  unfold has_fields in Hmiss.
  destruct (getitem data "dt") as [time|e] eqn:Ht; simpl.
  - destruct (getitem data "id") as [sensor|e] eqn:Hs; simpl.
    + destruct (getitem data "value") as [value|e] eqn:Hv; simpl; [discriminate|].
      rewrite (getitem_error_text data "value" e Hv) by auto. simpl. eauto.
    + rewrite (getitem_error_text data "id" e Hs) by auto. simpl. eauto.
  - rewrite (getitem_error_text data "dt" e Ht) by auto. simpl. eauto.
Qed.

(** C1 (as amended): a payload that does not decode or lacks a required field
    is dropped without an exception leaving the handler and without a row
    inserted or counted: the connection, the batch, both clocks and the store
    with its open transaction are as before.  When the payload does not decode
    or lacks [id] or [dt], the raw files are as before too. *)
Theorem malformed_payload_dropped (env : Env) (payload : string) (st : State) :
  malformed payload →
  (on_message env payload st).1 = Ret tt ∧
  core (on_message env payload st).2 = core st ∧
  (unaddressed payload → files (on_message env payload st).2 = files st).
Proof.
  unfold malformed, unaddressed, on_message, ingest. py_unfold.
  destruct (loads payload) as [data|]; simpl; [|by intros _].
  intros Hmiss.
  destruct (store_raw_data_spec env data st) as (b & tr & fs & -> & Hfs).
  destruct (store_to_silver_needs_fields env data (set_trace tr (set_files fs st)) Hmiss)
    as (tr' & ->).
  destruct (status_line_needs_fields b false data Hmiss) as (e & ->).
  simpl. repeat split. intros Hno. by apply Hfs.
Qed.

End Malformed.

Lemma malformed_payload_dropped_witness :
  let env := Sensors.calm (Examples.after 11) (Examples.after 11) (Examples.after 11) in
  let garbled := "{id: s1" in
  let anonymous := Examples.payload_of (JObj [("dt", JStr "2024-01-01T00:00:10"); ("value", JInt 5)]) in
  ((on_message env garbled Examples.pending_two).1 = Ret tt ∧
   core (on_message env garbled Examples.pending_two).2 = core Examples.pending_two ∧
   files (on_message env garbled Examples.pending_two).2 = ∅) ∧
  ((on_message env anonymous Examples.pending_two).1 = Ret tt ∧
   core (on_message env anonymous Examples.pending_two).2 = core Examples.pending_two ∧
   files (on_message env anonymous Examples.pending_two).2 = ∅).
Proof.
  intros env garbled anonymous. split.
  - destruct (malformed_payload_dropped env garbled Examples.pending_two)
      as (Hret & Hcore & Hfiles); [vm_compute; reflexivity|].
    split; [exact Hret|]. split; [exact Hcore|]. apply Hfiles. vm_compute. exact I.
  - destruct (malformed_payload_dropped env anonymous Examples.pending_two)
      as (Hret & Hcore & Hfiles); [vm_compute; reflexivity|].
    split; [exact Hret|]. split; [exact Hcore|]. apply Hfiles. vm_compute. reflexivity.
Defined.

(** C1 (as stated) fails: a payload that lacks only [value] is appended to the
    raw file of its sensor and date, although no row is inserted and nothing
    is raised. *)
Lemma payload_without_value_is_captured :
  let env := Sensors.calm (Examples.after 11) (Examples.after 11) (Examples.after 11) in
  let payload := Examples.payload_of Examples.no_value in
  loads payload = Some Examples.no_value ∧
  getitem Examples.no_value "value" = Raise (mkExn KeyError "'value'") ∧
  files Examples.fresh = ∅ ∧
  (on_message env payload Examples.fresh).1 = Ret tt ∧
  files (on_message env payload Examples.fresh).2
    = {[ "/data/raw/2024-01-01_s1.jsonl" := payload +:+ String PyStr.newline "" ]} ∧
  store (on_message env payload Examples.fresh).2 = store Examples.fresh.
Proof.
  intros env payload. repeat split; vm_compute; reflexivity.
Qed.

(** ** Startup without a store *)

Lemma slept_app (tr tr' : list Event) : slept (tr ++ tr') = slept tr ++ slept tr'.
Proof. unfold slept. apply omap_app. Qed.

Lemma connect_loop_refused (tries : nat → Attempt) (remaining attempt : nat) (st : State) :
  (attempt + remaining = max_retries)%nat →
  (∀ k, (k < max_retries)%nat →
        ∃ e, at_connect (tries k) = Fails e ∧ is_operational e = true) →
  ∃ tr,
    connect_loop tries attempt remaining st = (Ret false, set_trace tr st) ∧
    slept tr = slept (trace st) ++ replicate (remaining - 1) retry_delay.
Proof.
  revert attempt st. induction remaining as [|rest IH]; intros attempt st Hsum Hall.
  - exists (trace st). simpl. rewrite app_nil_r. by destruct st.
  - destruct (Hall attempt) as (e & He & Hop); [lia|].
    simpl. unfold open_session. py_unfold. simpl. rewrite He. simpl. rewrite Hop.
    destruct (attempt <? 4)%nat eqn:Hlast.
    + apply Nat.ltb_lt in Hlast.
      edestruct (IH (S attempt)) as (tr & Hrun & Hslept); [lia|assumption|].
      rewrite Hrun. exists tr. split; [reflexivity|].
      rewrite Hslept. simpl. rewrite !slept_app. simpl. rewrite !app_nil_r.
      rewrite <- app_assoc. simpl.
      destruct rest as [|rest']; [unfold max_retries in *; lia|].
      simpl. rewrite Nat.sub_0_r. reflexivity.
    + apply Nat.ltb_ge in Hlast.
      assert (rest = 0%nat) as -> by (unfold max_retries in *; lia).
      simpl. eexists. split; [reflexivity|].
      rewrite !slept_app. simpl. by rewrite !app_nil_r.
Qed.

#[local] Arguments connect_loop : simpl never.

Lemma connect_database_refused (tries : nat → Attempt) (st : State) :
  (∀ k, (k < max_retries)%nat →
        ∃ e, at_connect (tries k) = Fails e ∧ is_operational e = true) →
  ∃ tr,
    connect_database tries st = (Ret false, set_trace tr st) ∧
    slept tr = slept (trace st) ++ replicate 4 retry_delay.
Proof.
  intros Hall. unfold connect_database. py_unfold. simpl.
  edestruct (connect_loop_refused tries max_retries 0) as (tr & Hrun & Hslept);
    [reflexivity|assumption|].
  rewrite Hrun. simpl. exists tr. split; [reflexivity|].
  rewrite Hslept. simpl. rewrite slept_app. simpl. by rewrite app_nil_r.
Qed.

Section Offline.
Context {P : Platform}.

Lemma store_to_silver_offline (env : Env) (data : json) (st : State) :
  db_conn st = None → store_to_silver env data st = (Ret false, st).
Proof.
  intros Hc. unfold store_to_silver. py_unfold. simpl. rewrite Hc. reflexivity.
Qed.

Lemma refresh_offline (env : Env) (st : State) :
  db_conn st = None →
  refresh_gold_layer env st =
  (Ret false, set_trace (trace st ++ [Call F_refresh_gold_layer]) st).
Proof.
  intros Hc. unfold refresh_gold_layer. py_unfold. simpl. rewrite Hc. reflexivity.
Qed.

(** Without a connection the handler touches neither the batch nor the
    store, and a connection does not come back. *)
Lemma on_message_offline (env : Env) (payload : string) (st : State) :
  db_conn st = None → batch_buffer st = [] →
  (on_message env payload st).1 = Ret tt ∧
  offline_view (on_message env payload st).2 = offline_view st.
Proof.
  intros Hc Hb. unfold on_message, ingest. py_unfold.
  destruct (loads payload) as [data|]; simpl; [|by split].
  destruct (store_raw_data_spec env data st) as (b & tr & fs & -> & _).
  rewrite store_to_silver_offline by exact Hc.
  destruct (status_line b false data) as [line|e]; simpl; [|by split].
  unfold commit_check, refresh_check. py_unfold. simpl.
  destruct (commit_due env _); simpl.
  - rewrite flush_nothing by (left; exact Hc). simpl.
    destruct (refresh_due env _); simpl; [|by split].
    rewrite refresh_offline by exact Hc. by split.
  - destruct (refresh_due env _); simpl; [|by split].
    rewrite refresh_offline by exact Hc. by split.
Qed.

Lemma loop_forever_offline (inbox : list (Env * string)) (st : State) :
  db_conn st = None → batch_buffer st = [] →
  (loop_forever inbox st).1 = Ret tt ∧
  offline_view (loop_forever inbox st).2 = offline_view st.
Proof.
  revert st. induction inbox as [|[env payload] rest IH]; intros st Hc Hb; simpl.
  - by split.
  - destruct (on_message_offline env payload st Hc Hb) as (Hret & Hview).
    unfold mbind, Py_bind.
    destruct (on_message env payload st) as [[[]|e] st1]; simpl in *; [|discriminate].
    injection Hview as Hc1 Hk1 Hb1 Hs1.
    destruct (IH st1) as (Hret' & Hview'); [congruence|congruence|].
    split; [assumption|]. rewrite Hview'. unfold offline_view. congruence.
Qed.

(** C3 (as amended): when all five tries of the connection routine are
    refused at startup, with the fixed five seconds slept between one try and
    the next, the process does not end: it enters the ingestion loop without
    a connection, and through every sequence of messages it stays without
    one, inserts no row, counts nothing in the batch and leaves the store as
    it was. *)
Theorem exhausted_startup_enters_loop (boot : BootEnv) (st : State) :
  db_conn st = None → batch_buffer st = [] →
  mkdir_raw boot = Done → mqtt_connect boot = Done →
  (∀ k, (k < max_retries)%nat →
        ∃ e, at_connect (boot_attempts boot k) = Fails e ∧ is_operational e = true) →
  (startup boot st).1 = Ret tt ∧
  db_conn (startup boot st).2 = None ∧
  slept (trace (startup boot st).2) = slept (trace st) ++ replicate 4 retry_delay ∧
  ∀ inbox,
    (loop_forever inbox (startup boot st).2).1 = Ret tt ∧
    db_conn (loop_forever inbox (startup boot st).2).2 = None ∧
    batch_buffer (loop_forever inbox (startup boot st).2).2 = [] ∧
    store (loop_forever inbox (startup boot st).2).2 = store st.
Proof.
  intros Hc Hb Hmk Hmq Hall.
  assert (Hrun : ∃ tr, startup boot st = (Ret tt, set_trace tr st) ∧
                       slept tr = slept (trace st) ++ replicate 4 retry_delay).
  { unfold startup, setup_storage. py_unfold. simpl.
    rewrite Hmk, Hmq. simpl.
    edestruct (connect_database_refused (boot_attempts boot))
      as (tr & Hrun & Hslept); [assumption|].
    rewrite Hrun. simpl. eexists. split; [reflexivity|].
    rewrite slept_app, Hslept. simpl. rewrite !slept_app. simpl.
    by rewrite !app_nil_r. }
  destruct Hrun as (tr & -> & Hslept). simpl.
  split; [reflexivity|]. split; [assumption|]. split; [assumption|].
  intros inbox.
  destruct (loop_forever_offline inbox (set_trace tr st)) as (Hret & Hview);
    [assumption|assumption|].
  injection Hview as Hc1 _ Hb1 Hs1. simpl in *. repeat split; congruence.
Qed.

End Offline.

Lemma exhausted_startup_enters_loop_witness :
  let env := Sensors.calm (Examples.after 30) (Examples.after 90) (Examples.after 90) in
  let inbox := [(env, Examples.payload_of (Examples.reading "s1" "2024-01-01T00:00:10" 5))] in
  let st0 := (startup Examples.unreachable Examples.fresh).2 in
  (startup Examples.unreachable Examples.fresh).1 = Ret tt ∧
  db_conn st0 = None ∧
  slept (trace st0) = [5; 5; 5; 5] ∧
  (loop_forever inbox st0).1 = Ret tt ∧
  db_conn (loop_forever inbox st0).2 = None ∧
  batch_buffer (loop_forever inbox st0).2 = [] ∧
  store (loop_forever inbox st0).2 = Sensors.empty_store.
Proof.
  intros env inbox st0.
  destruct (exhausted_startup_enters_loop Examples.unreachable Examples.fresh)
    as (Hret & Hc & Hs & Hloop);
    [reflexivity|reflexivity|reflexivity|reflexivity
    |intros k _; exists Examples.refused; split; reflexivity|].
  split; [exact Hret|]. split; [exact Hc|]. split; [exact Hs|]. exact (Hloop inbox).
Defined.

(** C3 (as stated) fails: with the store unreachable for all five tries,
    [main] comes to its loop, handles the reading it is sent there, which goes
    to the raw file alone, and ends only at the shutdown signal; nothing is
    raised anywhere on the way. *)
Lemma startup_continues_without_connection :
  let env := Sensors.calm (Examples.after 30) (Examples.after 90) (Examples.after 90) in
  let payload := Examples.payload_of (Examples.reading "s1" "2024-01-01T00:00:10" 5) in
  let st0 := (startup Examples.unreachable Examples.fresh).2 in
  let st1 := (loop_forever [(env, payload)] st0).2 in
  (startup Examples.unreachable Examples.fresh).1 = Ret tt ∧
  trace st0 =
    [Print Banner; Print StorageInitialized; Call F_connect_database;
     Print Connecting; Print (AttemptFailed 1 5); Sleep 5;
     Print Connecting; Print (AttemptFailed 2 5); Sleep 5;
     Print Connecting; Print (AttemptFailed 3 5); Sleep 5;
     Print Connecting; Print (AttemptFailed 4 5); Sleep 5;
     Print Connecting; Print (AttemptFailed 5 5); Print CouldNotConnect;
     Print PipelineInfo] ∧
  db_conn st0 = None ∧
  (loop_forever [(env, payload)] st0).1 = Ret tt ∧
  files st1 = {[ "/data/raw/2024-01-01_s1.jsonl" := payload +:+ String PyStr.newline "" ]} ∧
  last (trace st1) = Some (Call F_refresh_gold_layer) ∧
  In (Print (Status true false "s1" (JStr "00:00:10") 5)) (trace st1) ∧
  (main Examples.unreachable [(env, payload)] env Examples.fresh).1 = Ret tt.
Proof.
  intros env payload st0 st1.
  repeat split; try (vm_compute; reflexivity).
  vm_compute. tauto.
Qed.

(** ** Raw files, line by line *)

Lemma append_snoc (cur : string) (c : ascii) (t : string) :
  (cur +:+ String c EmptyString) +:+ t = cur +:+ String c t.
Proof.
  induction cur as [|d cur IH]; [reflexivity|].
  change (String d ((cur +:+ String c EmptyString) +:+ t) = String d (cur +:+ String c t)).
  by rewrite IH.
Qed.

Lemma append_empty_r (s : string) : s +:+ EmptyString = s.
Proof.
  induction s as [|c s IH]; [reflexivity|].
  change (String c (s +:+ EmptyString) = String c s). by rewrite IH.
Qed.

(** A text of whole lines followed by more text reads as its lines followed
    by the lines of the rest. *)
Lemma lines_from_whole (old rest cur : string) :
  PyStr.terminated old = true → (old = EmptyString → cur = EmptyString) →
  PyStr.lines_from cur (old +:+ rest)
  = PyStr.lines_from cur old ++ PyStr.lines_from EmptyString rest.
Proof.
  revert cur. induction old as [|c t IH]; intros cur Hterm Hcur.
  - rewrite Hcur by reflexivity. reflexivity.
  - change (String c t +:+ rest) with (String c (t +:+ rest)).
    destruct t as [|c' t'].
    + simpl in Hterm. simpl. rewrite Hterm. reflexivity.
    + assert (Ht : PyStr.terminated (String c' t') = true) by exact Hterm.
      cbn [PyStr.lines_from]. destruct (Ascii.eqb c PyStr.newline).
      * rewrite IH by (auto; discriminate). reflexivity.
      * rewrite IH by (auto; discriminate). reflexivity.
Qed.

(** One unbroken line and its terminator read as that line. *)
Lemma lines_from_line (line cur : string) :
  PyStr.free_of PyStr.newline line = true →
  PyStr.lines_from cur (line +:+ String PyStr.newline EmptyString) = [cur +:+ line].
Proof.
  revert cur. induction line as [|c t IH]; intros cur Hfree.
  - simpl. by rewrite append_empty_r.
  - change (String c t +:+ String PyStr.newline EmptyString)
      with (String c (t +:+ String PyStr.newline EmptyString)).
    simpl in Hfree. apply andb_true_iff in Hfree as [Hc Ht].
    apply negb_true_iff in Hc. cbn [PyStr.lines_from]. rewrite Hc.
    rewrite IH by exact Ht. by rewrite append_snoc.
Qed.

Lemma last_line_appended (old line : string) :
  PyStr.terminated old = true →
  PyStr.free_of PyStr.newline line = true →
  PyStr.last_line (old +:+ (line +:+ String PyStr.newline EmptyString)) = Some line.
Proof.
  intros Hterm Hfree. unfold PyStr.last_line, PyStr.splitlines.
  rewrite lines_from_whole by auto. rewrite lines_from_line by exact Hfree.
  apply last_snoc.
Qed.

Lemma terminated_appended (old line : string) :
  PyStr.terminated (old +:+ (line +:+ String PyStr.newline EmptyString)) = true.
Proof.
  assert (Hline : ∀ s, PyStr.terminated (s +:+ String PyStr.newline EmptyString) = true).
  { induction s as [|c s IH]; [reflexivity|].
    change (String c s +:+ String PyStr.newline EmptyString)
      with (String c (s +:+ String PyStr.newline EmptyString)).
    destruct s as [|c' s']; [reflexivity|exact IH]. }
  induction old as [|c t IH]; [apply Hline|].
  change (String c t +:+ (line +:+ String PyStr.newline EmptyString))
    with (String c (t +:+ (line +:+ String PyStr.newline EmptyString))).
  destruct t as [|c' t'].
  - change (EmptyString +:+ (line +:+ String PyStr.newline EmptyString))
      with (line +:+ String PyStr.newline EmptyString) in *.
    specialize (Hline line).
    destruct (line +:+ String PyStr.newline EmptyString) eqn:Hl; [|exact Hline].
    destruct line; discriminate.
  - exact IH.
Qed.

Lemma preserves_bind {A B} (inv : State → Prop) (m : Py A) (k : A → Py B) :
  preserves inv m → (∀ a, preserves inv (k a)) → preserves inv (m ≫= k).
Proof.
  intros Hm Hk st Hst. unfold mbind, Py_bind. specialize (Hm st Hst).
  destruct (m st) as [[a|e] st']; simpl in *; [|assumption]. by apply Hk.
Qed.

Lemma preserves_try {A} (inv : State → Prop) (caught : Exn → bool)
  (m : Py A) (h : Exn → Py A) :
  preserves inv m → (∀ e, preserves inv (h e)) →
  preserves inv (try_except caught m h).
Proof.
  intros Hm Hh st Hst. unfold try_except. specialize (Hm st Hst).
  destruct (m st) as [[a|e] st']; simpl in *; [assumption|].
  destruct (caught e); simpl; [|assumption]. by apply Hh.
Qed.

Lemma keeps_files_preserves {A} (m : Py A) :
  keeps files m → preserves whole_files m.
Proof. intros Hkeep st Hst path text. rewrite Hkeep. apply Hst. Qed.

Section Capture.
Context {P : Platform}.

Lemma store_raw_data_writes (env : Env) (data : json) (st : State)
  (i t d : string) :
  getitem data "id" = Ret (JStr i) → getitem data "dt" = Ret (JStr t) →
  fromisoformat_date t = Some d → fs_append env = Done →
  store_raw_data env data st =
  (Ret true,
   set_files
     (<[partition_file d (PyStr.replace_space i) :=
          default "" (files st !! partition_file d (PyStr.replace_space i))
          +:+ (dumps data +:+ String PyStr.newline EmptyString)]> (files st)) st).
Proof.
  intros Hi Ht Hd Hw. unfold store_raw_data, append_file. py_unfold. simpl.
  rewrite Hi. simpl. rewrite Ht. simpl. rewrite Hd. simpl. rewrite Hw. simpl.
  by destruct st.
Qed.

Lemma store_raw_data_whole_files (env : Env) (data : json) (st : State) :
  whole_files st → whole_files (store_raw_data env data st).2.
Proof.
  intros Hwhole. unfold store_raw_data, append_file. py_unfold. simpl.
  destruct (getitem data "id") as [id|e]; simpl; [|exact Hwhole].
  destruct (py_replace id); simpl; [|exact Hwhole].
  destruct (getitem data "dt") as [timestamp|e]; simpl; [|exact Hwhole].
  destruct (py_date timestamp); simpl; [|exact Hwhole].
  destruct (fs_append env); simpl; [|exact Hwhole].
  intros path text. simpl. rewrite lookup_insert. case_decide.
  - intros [= <-]. apply terminated_appended.
  - apply Hwhole.
Qed.

Lemma store_to_silver_files (env : Env) (data : json) :
  keeps files (store_to_silver env data).
Proof.
  unfold store_to_silver, execute_insert.
  apply keeps_try; [|intros e].
  - frame. destruct (db_insert env); [destruct (pg_row _ _ _)|];
      unfold rejected; frame.
  - frame. apply connect_database_files.
Qed.

Lemma flush_batch_files (env : Env) : keeps files (flush_batch env).
Proof. unfold flush_batch. frame. Qed.

Lemma refresh_files (env : Env) : keeps files (refresh_gold_layer env).
Proof. unfold refresh_gold_layer. frame. Qed.

(** Whatever the handler goes through, the raw files stay whole lines: it
    changes them only by the write of the raw writer. *)
Lemma on_message_whole_files (env : Env) (payload : string) :
  preserves whole_files (on_message env payload).
Proof.
  unfold on_message, ingest, commit_check, refresh_check.
  repeat lazymatch goal with
    | |- preserves _ (store_raw_data _ _) =>
        intros st Hst; by apply store_raw_data_whole_files
    | |- preserves _ (store_to_silver _ _) =>
        apply keeps_files_preserves, store_to_silver_files
    | |- preserves _ (try_except _ _ _) => apply preserves_try; [|intros ?]
    | |- preserves _ (mbind _ _) => apply preserves_bind; [|intros ?]
    | |- preserves _ _ =>
        apply keeps_files_preserves; frame;
        first [apply flush_batch_files|apply refresh_files]
    end.
Qed.

(** C9: for a reading with a sensor, a timestamp that parses and a value,
    whose write goes through, the raw writer returns [True], and the last
    line of the file of its date and sanitized sensor is then the record as
    [json.dumps] writes it, which [json.loads] reads back with the same
    sensor, timestamp and value.  The file held whole lines before, as every
    raw file does, and [json.dumps] and [json.loads] do their part on this
    record: one line out, the same record back. *)
Theorem capture_read_back (env : Env) (data : json) (st : State)
  (i t d : string) (v : json) :
  reading_of data = Some (i, t, v) →
  fromisoformat_date t = Some d →
  fs_append env = Done →
  whole_files st →
  PyStr.free_of PyStr.newline (dumps data) = true →
  loads (dumps data) = Some data →
  (store_raw_data env data st).1 = Ret true ∧
  ∃ text line record,
    files (store_raw_data env data st).2
      !! partition_file d (PyStr.replace_space i) = Some text ∧
    PyStr.last_line text = Some line ∧
    loads line = Some record ∧
    reading_of record = Some (i, t, v).
Proof.
  intros Hreading Hd Hw Hwhole Hline Hback.
  assert (Hi : getitem data "id" = Ret (JStr i) ∧ getitem data "dt" = Ret (JStr t)).
  { unfold reading_of in Hreading.
    destruct (getitem data "id") as [[]|]; try discriminate.
    destruct (getitem data "dt") as [[]|]; try discriminate.
    destruct (getitem data "value"); try discriminate.
    injection Hreading as -> -> _. by split. }
  destruct Hi as [Hi Ht].
  rewrite (store_raw_data_writes env data st i t d Hi Ht Hd Hw). simpl.
  split; [reflexivity|].
  eexists _, (dumps data), data. rewrite lookup_insert_eq.
  split; [reflexivity|]. split; [|by split].
  apply last_line_appended; [|exact Hline].
  destruct (files st !! partition_file d (PyStr.replace_space i)) as [old|] eqn:Hold;
    simpl; [by apply (Hwhole _ _ Hold)|reflexivity].
Qed.

End Capture.

Lemma capture_read_back_witness :
  let env := Sensors.calm (Examples.after 11) (Examples.after 11) (Examples.after 11) in
  let data := Examples.reading "unit 7" "2024-01-01T00:00:10" 5 in
  let first := (store_raw_data env (Examples.reading "unit 7" "2024-01-01T23:59:59" 4)
                  Examples.fresh).2 in
  (store_raw_data env data first).1 = Ret true ∧
  ∃ text line record,
    files (store_raw_data env data first).2 !! "/data/raw/2024-01-01_unit_7.jsonl"
      = Some text ∧
    PyStr.last_line text = Some line ∧
    loads line = Some record ∧
    reading_of record = Some ("unit 7", "2024-01-01T00:00:10", JInt 5).
Proof.
  intros env data first.
  apply (capture_read_back env data first "unit 7" "2024-01-01T00:00:10" "2024-01-01" (JInt 5));
    try (vm_compute; reflexivity).
  apply store_raw_data_whole_files. intros path text Hin. vm_compute in Hin. discriminate.
Defined.

(** ** The batch and the connection *)

Lemma keeps_preserves {X A} (obs : State → X) (inv : X → Prop) (m : Py A) :
  keeps obs m → preserves (λ st, inv (obs st)) m.
Proof. intros Hkeep st Hst. by rewrite Hkeep. Qed.

Lemma flush_batch_has_conn (env : Env) : preserves batch_has_conn (flush_batch env).
Proof.
  intros st Hinv.
  destruct (decide (db_conn st = None)) as [Hc|Hc];
    [rewrite flush_nothing by auto; exact Hinv|].
  destruct (decide (batch_buffer st = [])) as [Hb|Hb];
    [rewrite flush_nothing by auto; exact Hinv|].
  destruct (flush_commit env) as [|e] eqn:Hm.
  - rewrite (flush_commits env st Hc Hb Hm). intros Hne. exact Hc.
  - rewrite (flush_commit_fails env st e Hc Hb Hm).
    destruct (flush_rollback env); intros Hne; exact Hc.
Qed.

Lemma refresh_batch_view (env : Env) : keeps batch_view (refresh_gold_layer env).
Proof. unfold refresh_gold_layer. frame. Qed.

Section BatchInvariant.
Context {P : Platform}.

Lemma connect_loop_conn (tries : nat → Attempt) (remaining attempt : nat) :
  preserves (λ st, db_conn st ≠ None) (connect_loop tries attempt remaining) ∧
  keeps batch_buffer (connect_loop tries attempt remaining).
Proof.
  revert attempt. induction remaining as [|rest IH]; intros attempt.
  - split; [by intros st Hst|apply keeps_ret].
  - change (connect_loop tries attempt (S rest)) with
      (try_except is_operational
         (emit (Print Connecting);;
          open_session (tries attempt);;
          emit (Print DatabaseConnected);;
          mret true)
         (λ e,
          emit (Print (AttemptFailed (S attempt) max_retries));;
          if (attempt <? max_retries - 1)%nat
          then emit (Sleep retry_delay);; connect_loop tries (S attempt) rest
          else emit (Print CouldNotConnect);; mret false)).
    destruct (IH (S attempt)) as [IHconn IHbatch]. split.
    + apply preserves_try; [|intros e].
      * unfold open_session.
        repeat lazymatch goal with
          | |- preserves _ (mbind _ _) => apply preserves_bind; [|intros ?]
          | |- preserves _ (modify (λ st, set_session _ _)) =>
              intros st Hst; simpl; discriminate
          | |- preserves _ _ =>
              apply (keeps_preserves db_conn (λ c, c ≠ None)); frame
          end.
      * apply preserves_bind;
          [apply (keeps_preserves db_conn (λ c, c ≠ None)); frame|intros _].
        destruct (attempt <? max_retries - 1)%nat.
        -- apply preserves_bind;
             [apply (keeps_preserves db_conn (λ c, c ≠ None)); frame|intros _].
           apply IHconn.
        -- apply (keeps_preserves db_conn (λ c, c ≠ None)). frame.
    + unfold open_session. frame. apply IHbatch.
Qed.

Lemma store_to_silver_batch (env : Env) (data : json) :
  keeps batch_buffer (store_to_silver env data).
Proof.
  unfold store_to_silver, execute_insert, connect_database.
  apply keeps_try; [|intros e].
  - frame. destruct (db_insert env); [destruct (pg_row _ _ _)|];
      unfold rejected; frame.
  - frame. apply connect_loop_conn.
Qed.

Lemma store_to_silver_conn (env : Env) (data : json) :
  preserves (λ st, db_conn st ≠ None) (store_to_silver env data).
Proof.
  unfold store_to_silver, execute_insert, connect_database.
  apply preserves_try; [|intros e].
  - apply (keeps_preserves db_conn (λ c, c ≠ None)).
    frame. destruct (db_insert env); [destruct (pg_row _ _ _)|];
      unfold rejected; frame.
  - repeat lazymatch goal with
      | |- preserves _ (connect_loop _ _ _) => apply connect_loop_conn
      | |- preserves _ (mbind _ _) => apply preserves_bind; [|intros ?]
      | |- preserves _ (if _ then _ else _) => destruct (PyStr.contains _ _)
      | |- preserves _ _ =>
          apply (keeps_preserves db_conn (λ c, c ≠ None)); frame
      end.
Qed.

(** The silver writer returns [True] only with a connection. *)
Lemma store_to_silver_true (env : Env) (data : json) (st st' : State) :
  store_to_silver env data st = (Ret true, st') → db_conn st' ≠ None.
Proof.
  unfold store_to_silver. py_unfold. simpl.
  destruct (db_conn st) as [c|] eqn:Hc; simpl; [|intros [=]].
  destruct (bool_decide (db_cursor st = None)); simpl; [intros [=]|].
  assert (Hkeep : keeps db_conn (execute_insert env data)).
  { unfold execute_insert. frame. destruct (db_insert env); [destruct (pg_row _ _ _)|];
      unfold rejected; frame. }
  specialize (Hkeep st).
  destruct (execute_insert env data st) as [[[]|e] s1]; simpl in *.
  - intros [= <-]. congruence.
  - destruct (PyStr.contains _ _); simpl.
    + destruct (connect_database _ _) as [[b|e'] s2]; simpl; intros [=].
    + intros [=].
Qed.

Lemma on_message_batch_has_conn (env : Env) (payload : string) :
  preserves batch_has_conn (on_message env payload).
Proof.
  unfold on_message. apply preserves_try;
    [|intros e; apply (keeps_preserves batch_view
                         (λ v, v.2 ≠ [] → v.1 ≠ None)); frame].
  apply preserves_bind; [|intros _; apply preserves_bind; [|intros _]].
  - intros st Hinv. unfold ingest. py_unfold.
    destruct (loads payload) as [data|]; simpl; [|exact Hinv].
    destruct (store_raw_data_spec env data st) as (b & tr & fs & -> & _).
    pose proof (store_to_silver_batch env data (set_trace tr (set_files fs st))) as Hb.
    pose proof (store_to_silver_conn env data (set_trace tr (set_files fs st))) as Hc.
    pose proof (store_to_silver_true env data (set_trace tr (set_files fs st))) as Ht.
    destruct (store_to_silver env data _) as [[ok|e] s2]; simpl in *.
    + destruct ok; simpl.
      * specialize (Ht s2 eq_refl).
        destruct (status_line b true data); simpl; intros _; exact Ht.
      * destruct (status_line b false data); simpl;
          intros Hne; simpl in Hne; apply Hc, Hinv; congruence.
    + intros Hne. simpl in Hne. apply Hc, Hinv. congruence.
  - unfold commit_check. apply preserves_bind; [by intros st Hst|intros st0].
    destruct (commit_due env st0); [apply flush_batch_has_conn|by intros st Hst].
  - unfold refresh_check. apply preserves_bind; [by intros st Hst|intros st0].
    apply (keeps_preserves batch_view (λ v, v.2 ≠ [] → v.1 ≠ None)).
    frame. apply refresh_batch_view.
Qed.

End BatchInvariant.

(** ** The variant under [data_ingestion/] *)

Section VariantFacts.
Context {P : Platform}.
Variable blank : GoldRow.

Lemma variant_refresh_view (env : Env) (st : State) :
  calls F_refresh_gold_layer (trace (DataIngestion.refresh_gold_layer blank env st).2)
    = S (calls F_refresh_gold_layer (trace st)) ∧
  last_gold_refresh (DataIngestion.refresh_gold_layer blank env st).2
    = last_gold_refresh st ∧
  (gold_rollback env = Done →
   ∃ b, (DataIngestion.refresh_gold_layer blank env st).1 = Ret b).
Proof.
  unfold DataIngestion.refresh_gold_layer. py_unfold. simpl.
  destruct (bool_decide (db_conn st = None) || bool_decide (db_cursor st = None));
    simpl; [rewrite !calls_app; simpl; repeat split; eauto; lia|].
  destruct (gold_execute env), (gold_commit env), (gold_rollback env); simpl;
    rewrite !calls_app; simpl; repeat split; eauto; try lia; discriminate.
Qed.

(** The pass of the variant returns the flag as well: [True] when it
    completes, after printing the count, [False] when it fails and is rolled
    back. *)
Lemma variant_refresh_returns_flag (env : Env) (st : State) :
  db_conn st ≠ None → db_cursor st ≠ None →
  (gold_execute env = Done → gold_commit env = Done →
   (DataIngestion.refresh_gold_layer blank env st).1 = Ret true ∧
   last (trace (DataIngestion.refresh_gold_layer blank env st).2) =
     Some (Print (GoldUpserted
       (size (DataIngestion.select_mean (db_now env) (visible_rows (store st))))))) ∧
  (gold_execute env ≠ Done ∨ gold_commit env ≠ Done →
   gold_rollback env = Done →
   (DataIngestion.refresh_gold_layer blank env st).1 = Ret false).
Proof.
  intros Hc Hk. unfold DataIngestion.refresh_gold_layer. py_unfold. simpl.
  rewrite (bool_decide_eq_false_2 _ Hc), (bool_decide_eq_false_2 _ Hk). simpl.
  split.
  - intros -> ->. simpl. split; [reflexivity|]. apply last_snoc.
  - intros Hbad ->.
    destruct (gold_execute env), (gold_commit env); simpl; try reflexivity.
    destruct Hbad; congruence.
Qed.

Lemma variant_refresh_check_spec (env : Env) (st : State) :
  gold_rollback env = Done →
  (DataIngestion.refresh_check blank env st).1 = Ret tt ∧
  calls F_refresh_gold_layer (trace (DataIngestion.refresh_check blank env st).2)
    = (calls F_refresh_gold_layer (trace st)
       + (if DataIngestion.refresh_due env st then 1 else 0))%nat ∧
  last_gold_refresh (DataIngestion.refresh_check blank env st).2
    = (if DataIngestion.refresh_due env st then now env else last_gold_refresh st).
Proof.
  intros Hrb. unfold DataIngestion.refresh_check. py_unfold. simpl.
  destruct (DataIngestion.refresh_due env st); simpl.
  - match goal with
    | |- context [DataIngestion.refresh_gold_layer blank env ?s] =>
        pose proof (variant_refresh_view env s) as (Hr & Hl & Hret);
        destruct (DataIngestion.refresh_gold_layer blank env s) as [[b|e] s2]
    end; simpl in *.
    + rewrite calls_app in Hr. simpl in Hr.
      split; [reflexivity|]. split; [lia|reflexivity].
    + destruct (Hret Hrb) as [b [=]].
  - split; [reflexivity|]. split; [lia|reflexivity].
Qed.

Lemma variant_on_message_after_ingest (env : Env) (payload : string)
  (st st1 : State) :
  ingest env payload st = (Ret tt, st1) →
  DataIngestion.on_message blank env payload st =
  match commit_check env st1 with
  | (Ret _, s2) =>
      match DataIngestion.refresh_check blank env s2 with
      | (Ret _, s3) => (Ret tt, s3)
      | (Raise e, s3) =>
          (Ret tt, set_trace (trace s3 ++ [Print (ProcessingFailed e)]) s3)
      end
  | (Raise e, s2) =>
      (Ret tt, set_trace (trace s2 ++ [Print (ProcessingFailed e)]) s2)
  end.
Proof.
  intros Hin. unfold DataIngestion.on_message. py_unfold. rewrite Hin.
  destruct (commit_check env st1) as [[[]|e] s2]; [|reflexivity].
  destruct (DataIngestion.refresh_check blank env s2) as [[[]|e] s3]; reflexivity.
Qed.

(** X18: the handler of the variant restarts the refresh clock after every pass
    that returns, as the other does; its clock has no day to wrap around. *)
Lemma variant_refresh_gated_by_last_attempt (env : Env) (payload : string)
  (st st1 : State) :
  ingest env payload st = (Ret tt, st1) →
  flush_rollback env = Done → gold_rollback env = Done →
  (refresh_seconds * ticks_per_second ≤ now env - last_gold_refresh st →
   calls F_refresh_gold_layer (trace (DataIngestion.on_message blank env payload st).2)
     = S (calls F_refresh_gold_layer (trace st)) ∧
   last_gold_refresh (DataIngestion.on_message blank env payload st).2 = now env) ∧
  (now env - last_gold_refresh st < refresh_seconds * ticks_per_second →
   calls F_refresh_gold_layer (trace (DataIngestion.on_message blank env payload st).2)
     = calls F_refresh_gold_layer (trace st) ∧
   last_gold_refresh (DataIngestion.on_message blank env payload st).2
     = last_gold_refresh st).
Proof.
  intros Hin Hfr Hgr.
  pose proof (ingest_schedule_view env payload st) as Hview.
  rewrite Hin in Hview. simpl in Hview. injection Hview as _ Hr0 Hl0.
  rewrite (variant_on_message_after_ingest env payload st st1 Hin).
  pose proof (commit_check_spec env st1) as (_ & Hr1 & Hl1 & _ & _ & Hret1).
  specialize (Hret1 Hfr).
  destruct (commit_check env st1) as [[[]|e] s2]; simpl in *; [|discriminate].
  destruct (variant_refresh_check_spec env s2 Hgr) as (Hret2 & Hr2 & Hl2).
  destruct (DataIngestion.refresh_check blank env s2) as [[[]|e] s3]; simpl in *;
    [|discriminate].
  unfold DataIngestion.refresh_due in *. rewrite Hl1, Hl0 in *.
  destruct (Z.leb_spec (refresh_seconds * ticks_per_second)
                       (now env - last_gold_refresh st)).
  - split; [intros _; split; [lia|assumption]|lia].
  - split; [lia|intros _; split; [lia|congruence]].
Qed.

End VariantFacts.

(** ** Readings the handler gets through *)

Section Readings.
Context {P : Platform}.

Lemma connect_loop_returns (tries : nat → Attempt) (remaining attempt : nat) (st : State) :
  (∀ k, tame (tries k) = true) →
  ∃ b st', connect_loop tries attempt remaining st = (Ret b, st').
Proof.
  intros Htame. revert attempt st.
  induction remaining as [|rest IH]; intros attempt st; [by eexists _, _|].
  change (connect_loop tries attempt (S rest)) with
    (try_except is_operational
       (emit (Print Connecting);;
        open_session (tries attempt);;
        emit (Print DatabaseConnected);;
        mret true)
       (λ e,
        emit (Print (AttemptFailed (S attempt) max_retries));;
        if (attempt <? max_retries - 1)%nat
        then emit (Sleep retry_delay);; connect_loop tries (S attempt) rest
        else emit (Print CouldNotConnect);; mret false)).
  specialize (Htame attempt). unfold tame, expected in Htame.
  apply andb_true_iff in Htame as [Hconnect Hsetup].
  unfold open_session. py_unfold. simpl.
  destruct (at_connect (tries attempt)) as [|e]; simpl.
  - destruct (at_setup (tries attempt)) as [|e]; simpl; [by eexists _, _|].
    rewrite Hsetup. destruct (attempt <? 4)%nat; [apply IH|by eexists _, _].
  - rewrite Hconnect. destruct (attempt <? 4)%nat; [apply IH|by eexists _, _].
Qed.

Lemma store_to_silver_returns (env : Env) (data : json) (st : State) :
  (∀ k, tame (db_reconnect env k) = true) →
  ∃ b st', store_to_silver env data st = (Ret b, st').
Proof.
  intros Htame. unfold store_to_silver, connect_database. py_unfold. simpl.
  destruct (bool_decide (db_conn st = None) || bool_decide (db_cursor st = None));
    simpl; [by eexists _, _|].
  destruct (execute_insert env data st) as [[[]|e] s1]; simpl; [by eexists _, _|].
  destruct (PyStr.contains _ _); simpl; [|by eexists _, _].
  edestruct (connect_loop_returns (db_reconnect env) max_retries 0) as (b & s2 & Hrun);
    [exact Htame|].
  rewrite Hrun. by eexists _, _.
Qed.

(** A reading with a string for its sensor and its timestamp and an integer
    for its value gets to the two checks of the handler, as long as no
    reconnect fails in a way [connect_database] does not expect. *)
Lemma ingest_returns (env : Env) (payload : string) (st : State)
  (data : json) (i t : string) (n : Z) :
  loads payload = Some data →
  reading_of data = Some (i, t, JInt n) →
  (∀ k, tame (db_reconnect env k) = true) →
  ∃ st1, ingest env payload st = (Ret tt, st1).
Proof.
  intros Hload Hreading Htame. unfold ingest. py_unfold. rewrite Hload. simpl.
  destruct (store_raw_data_spec env data st) as (b & tr & fs & -> & _).
  destruct (store_to_silver_returns env data (set_trace tr (set_files fs st)) Htame)
    as (ok & s2 & ->).
  assert (Hline : ∀ a b', ∃ line, status_line a b' data = Ret line).
  { intros a b'. unfold reading_of in Hreading. unfold status_line, and_then.
    destruct (getitem data "id") as [[]|]; try discriminate.
    destruct (getitem data "dt") as [[]|]; try discriminate.
    destruct (getitem data "value") as [v|]; try discriminate.
    injection Hreading as -> -> ->. simpl. eauto. }
  destruct (Hline b ok) as (line & Hl).
  destruct ok; simpl; rewrite Hl; simpl; eauto.
Qed.

End Readings.

(** * Further properties of the script *)

(** ** What the refresh query computes *)

Lemma time_bucket_bounds (t : Z) :
  time_bucket t mod bucket_width = 0 ∧
  time_bucket t ≤ t < time_bucket t + bucket_width.
Proof.
  unfold time_bucket, bucket_width, ticks_per_second.
  split.
  - rewrite Z.mul_comm. apply Z_mod_mult.
  - pose proof (Z.mul_div_le t (60 * 1000000)).
    pose proof (Z.mul_succ_div_gt t (60 * 1000000)). lia.
Qed.

(** The bucket of an instant is the one whole minute that contains it. *)
Theorem time_bucket_is_the_minute (t b : Z) :
  time_bucket t = b ↔ b mod bucket_width = 0 ∧ b ≤ t < b + bucket_width.
Proof.
  split.
  - intros <-. apply time_bucket_bounds.
  - intros [Hmod Hin]. unfold time_bucket.
    assert (Hw : 0 < bucket_width) by (unfold bucket_width, ticks_per_second; lia).
    apply Z.mod_divide in Hmod; [|lia]. destruct Hmod as [q ->].
    rewrite (Z.mul_comm q). f_equal. symmetry.
    apply (Z.div_unique_pos t bucket_width q (t - bucket_width * q)); lia.
Qed.

(** The aggregate of a group, against the rows of the group. *)
Lemma group_rows_spec (rows : list Row) (k : Z * string) :
  match group_rows rows !! k with
  | None => filter (λ r, group_key r = k) rows = []
  | Some a =>
      let group := filter (λ r, group_key r = k) rows in
      group ≠ [] ∧
      agg_sum a = sum_values group ∧
      agg_count a = Z.of_nat (length group) ∧
      (∃ r, r ∈ group ∧ row_value r = agg_min a) ∧
      (∃ r, r ∈ group ∧ row_value r = agg_max a) ∧
      (∀ r, r ∈ group → agg_min a ≤ row_value r ≤ agg_max a)
  end.
Proof.
  induction rows as [|r rows IH]; [reflexivity|].
  unfold group_rows in *. simpl foldr. rewrite lookup_partial_alter.
  rewrite filter_cons. case_decide as Hk.
  - subst k. unfold agg_add.
    destruct (foldr _ ∅ rows !! group_key r) as [a|]; simpl in *.
    + destruct IH as (Hne & Hsum & Hcount & (rmin & Hrmin & Hmin)
                      & (rmax & Hrmax & Hmax) & Hall).
      split; [discriminate|]. split; [lia|]. split; [lia|].
      split; [|split].
      * destruct (Z.min_spec (agg_min a) (row_value r)) as [[_ ->]|[_ ->]].
        -- exists rmin. split; [by apply elem_of_cons; right|assumption].
        -- exists r. split; [by apply elem_of_cons; left|reflexivity].
      * destruct (Z.max_spec (agg_max a) (row_value r)) as [[_ ->]|[_ ->]].
        -- exists r. split; [by apply elem_of_cons; left|reflexivity].
        -- exists rmax. split; [by apply elem_of_cons; right|assumption].
      * intros r' [->|Hin]%elem_of_cons; [lia|].
        specialize (Hall r' Hin). lia.
    + rewrite IH. simpl.
      split; [discriminate|]. split; [lia|]. split; [lia|].
      split; [exists r; split; [by apply list_elem_of_singleton|reflexivity]|].
      split; [exists r; split; [by apply list_elem_of_singleton|reflexivity]|].
      intros r' ->%list_elem_of_singleton. lia.
  - exact IH.
Qed.

Lemma round_avg_nearest (sum count : Z) :
  0 < count → 2 * Z.abs (100 * sum - round_avg sum count * count) ≤ count.
Proof.
  intros Hc. unfold round_avg. destruct (Z.leb_spec 0 sum).
  - pose proof (Z.mul_div_le (200 * sum + count) (2 * count)).
    pose proof (Z.mul_succ_div_gt (200 * sum + count) (2 * count)). nia.
  - pose proof (Z.mul_div_le (200 * - sum + count) (2 * count)).
    pose proof (Z.mul_succ_div_gt (200 * - sum + count) (2 * count)). nia.
Qed.

Lemma select_gold_spec (now : Z) (rows : list Row) (k : Z * string) :
  match select_gold now rows !! k with
  | None => counted now rows k = []
  | Some g =>
      let group := counted now rows k in
      group ≠ [] ∧
      sample_count g = Z.of_nat (length group) ∧
      val_mean g = round_avg (sum_values group) (Z.of_nat (length group)) ∧
      (∃ r, r ∈ group ∧ row_value r = val_min g) ∧
      (∃ r, r ∈ group ∧ row_value r = val_max g) ∧
      (∀ r, r ∈ group → val_min g ≤ row_value r ≤ val_max g)
  end.
Proof.
  unfold select_gold, counted. rewrite lookup_fmap.
  pose proof (group_rows_spec (filter (λ r, in_window now r = true) rows) k) as Hspec.
  destruct (group_rows _ !! k) as [a|]; simpl in *; [|exact Hspec].
  destruct Hspec as (Hne & Hsum & Hcount & Hmin & Hmax & Hall).
  rewrite <- Hsum, <- Hcount. repeat split; auto; apply Hall; assumption.
Qed.

(** X1: the aggregate row of bucket [b] and sensor [s] counts the rows of that
    sensor whose time lies in the minute that starts at [b] and in the last
    five minutes before the pass; [b] is a whole minute. *)
Theorem bucket_counts_its_minute (now : Z) (rows : list Row) (b : Z) (s : string)
  (g : GoldRow) :
  select_gold now rows !! (b, s) = Some g →
  b mod bucket_width = 0 ∧
  1 ≤ sample_count g ∧
  sample_count g =
    Z.of_nat (length (filter (λ r, row_sensor r = s
                                   ∧ b ≤ row_time r < b + bucket_width
                                   ∧ now - lookback ≤ row_time r) rows)).
Proof.
  intros Hg. pose proof (select_gold_spec now rows (b, s)) as Hspec.
  rewrite Hg in Hspec. simpl in Hspec.
  destruct Hspec as (Hne & Hcount & _ & (r & Hr & _) & _).
  assert (Hsame : counted now rows (b, s) =
                  filter (λ r, row_sensor r = s
                               ∧ b ≤ row_time r < b + bucket_width
                               ∧ now - lookback ≤ row_time r) rows).
  { unfold counted. rewrite list_filter_filter. apply list_filter_iff.
    intros r'. unfold group_key, in_window. rewrite Z.leb_le.
    split.
    - intros [[= Hb Hs] Hw]. apply time_bucket_is_the_minute in Hb. tauto.
    - intros (Hs & Hb & Hw). split; [|assumption].
      f_equal; [|assumption]. apply time_bucket_is_the_minute.
      split; [|assumption].
      apply list_elem_of_filter in Hr as [[= Hb' _] _].
      rewrite <- Hb'. apply time_bucket_bounds. }
  split.
  - apply list_elem_of_filter in Hr as [[= Hb' _] _].
    rewrite <- Hb'. apply time_bucket_bounds.
  - rewrite Hcount, <- Hsame. split; [|reflexivity].
    destruct (counted now rows (b, s)); [done|simpl; lia].
Qed.

Lemma bucket_counts_its_minute_witness :
  let now := Examples.after 60 in
  let g := mkGoldRow 3350 5 62 58 Good now in
  Examples.midnight mod bucket_width = 0 ∧
  1 ≤ sample_count g ∧
  sample_count g =
    Z.of_nat (length (filter (λ r, row_sensor r = "s1"
                                   ∧ Examples.midnight ≤ row_time r
                                       < Examples.midnight + bucket_width
                                   ∧ now - lookback ≤ row_time r)
                             Examples.full_minute)).
Proof.
  intros now g.
  apply (bucket_counts_its_minute now Examples.full_minute Examples.midnight "s1" g).
  vm_compute. reflexivity.
Defined.

(** X2: the statistics of an aggregate row are those of the rows it counts:
    [val_mean], in hundredths, is within half a hundredth of their mean,
    [val_min] and [val_max] are the least and the greatest of their values,
    and the mean lies between the two. *)
Theorem bucket_statistics (now : Z) (rows : list Row) (k : Z * string) (g : GoldRow) :
  select_gold now rows !! k = Some g →
  2 * Z.abs (100 * sum_values (counted now rows k) - val_mean g * sample_count g)
    ≤ sample_count g ∧
  (∃ r, r ∈ counted now rows k ∧ row_value r = val_min g) ∧
  (∃ r, r ∈ counted now rows k ∧ row_value r = val_max g) ∧
  (∀ r, r ∈ counted now rows k → val_min g ≤ row_value r ≤ val_max g) ∧
  100 * val_min g ≤ val_mean g ≤ 100 * val_max g.
Proof.
  intros Hg. pose proof (select_gold_spec now rows k) as Hspec.
  rewrite Hg in Hspec. simpl in Hspec.
  destruct Hspec as (Hne & Hcount & Hmean & Hmin & Hmax & Hall).
  assert (Hpos : 0 < sample_count g).
  { rewrite Hcount. destruct (counted now rows k); [done|simpl; lia]. }
  assert (Hnear : 2 * Z.abs (100 * sum_values (counted now rows k)
                             - val_mean g * sample_count g) ≤ sample_count g).
  { rewrite Hmean, Hcount. apply round_avg_nearest. lia. }
  split; [exact Hnear|]. split; [exact Hmin|]. split; [exact Hmax|].
  split; [exact Hall|].
  assert (Hsum : val_min g * sample_count g ≤ sum_values (counted now rows k)
                 ≤ val_max g * sample_count g).
  { rewrite Hcount. clear - Hall.
    induction (counted now rows k) as [|r group IH]; [simpl; lia|].
    assert (Hr : val_min g ≤ row_value r ≤ val_max g)
      by (apply Hall, elem_of_cons; by left).
    assert (IH' : val_min g * Z.of_nat (length group) ≤ sum_values group
                  ≤ val_max g * Z.of_nat (length group))
      by (apply IH; intros r' Hr'; apply Hall, elem_of_cons; by right).
    simpl sum_values. simpl length. nia. }
  nia.
Qed.

Lemma bucket_statistics_witness :
  let now := Examples.after 60 in
  let g := mkGoldRow 3350 5 62 58 Good now in
  let group := counted now Examples.full_minute (Examples.midnight, "s1") in
  2 * Z.abs (100 * sum_values group - val_mean g * sample_count g) ≤ sample_count g ∧
  (∃ r, r ∈ group ∧ row_value r = val_min g) ∧
  (∃ r, r ∈ group ∧ row_value r = val_max g) ∧
  (∀ r, r ∈ group → val_min g ≤ row_value r ≤ val_max g) ∧
  100 * val_min g ≤ val_mean g ≤ 100 * val_max g.
Proof.
  intros now g group.
  apply (bucket_statistics now Examples.full_minute (Examples.midnight, "s1") g).
  vm_compute. reflexivity.
Defined.

(** X3: a refresh pass writes the buckets that have rows in its window and no
    others: a bucket without such rows keeps its aggregate row whatever the
    pass does, a pass that returns [True] leaves every bucket with such rows
    at the aggregate of these rows, and a pass that does not return [True]
    leaves the committed table as it was. *)
Theorem refresh_writes_window_buckets (env : Env) (st : State) (k : Z * string) :
  tx_gold (store st) = None →
  (counted (db_now env) (visible_rows (store st)) k = [] →
   gold (store (refresh_gold_layer env st).2) !! k = gold (store st) !! k) ∧
  ((refresh_gold_layer env st).1 = Ret true →
   counted (db_now env) (visible_rows (store st)) k ≠ [] →
   gold (store (refresh_gold_layer env st).2) !! k
   = select_gold (db_now env) (visible_rows (store st)) !! k) ∧
  ((refresh_gold_layer env st).1 ≠ Ret true →
   gold (store (refresh_gold_layer env st).2) = gold (store st)).
Proof.
  intros Htx.
  pose proof (select_gold_spec (db_now env) (visible_rows (store st)) k) as Hspec.
  assert (Hdone : ∀ b s', refresh_gold_layer env st = (Ret b, s') → b = true →
            gold (store s') =
            upsert (select_gold (db_now env) (visible_rows (store st))) (gold (store st))).
  { intros b s' Hrun ->. apply refresh_true_inv in Hrun.
    destruct Hrun as (_ & _ & _ & _ & _ & _ & _ & _ & _ & _ & -> & _).
    unfold store_commit, store_refresh, visible_gold. simpl. by rewrite Htx. }
  assert (Hfail : (refresh_gold_layer env st).1 ≠ Ret true →
            gold (store (refresh_gold_layer env st).2) = gold (store st)).
  { unfold refresh_gold_layer. py_unfold. simpl.
    destruct (bool_decide (db_conn st = None) || bool_decide (db_cursor st = None));
      simpl; [reflexivity|].
    destruct (gold_execute env), (gold_commit env), (gold_rollback env); simpl;
      intros Hne; try reflexivity; by destruct Hne. }
  split; [|split; [|exact Hfail]].
  - intros Hnone.
    destruct (refresh_gold_layer env st) as [[[]|e] s'] eqn:Hrun; simpl in *;
      [|by rewrite Hfail|by rewrite Hfail].
    rewrite (Hdone true s' eq_refl eq_refl). unfold upsert.
    rewrite lookup_union.
    destruct (select_gold _ _ !! k) as [g|]; [|by rewrite (left_id_L None _)].
    destruct Hspec as [Hne _]. by destruct Hne.
  - intros Htrue Hsome.
    destruct (refresh_gold_layer env st) as [[[]|e] s'] eqn:Hrun; simpl in *;
      try discriminate.
    rewrite (Hdone true s' eq_refl eq_refl). unfold upsert.
    rewrite lookup_union.
    destruct (select_gold _ _ !! k) as [g|]; [|by destruct Hsome].
    by rewrite union_Some_l.
Qed.

Lemma refresh_writes_window_buckets_witness :
  let st := Examples.online Examples.two_rows in
  let late := Sensors.calm Examples.midnight (Examples.after 400) (Examples.after 400) in
  let soon := Sensors.calm Examples.midnight (Examples.after 60) (Examples.after 60) in
  gold (store (refresh_gold_layer late st).2) !! Examples.first_minute = None ∧
  gold (store (refresh_gold_layer soon st).2) !! Examples.first_minute
    = Some (mkGoldRow 650 5 8 2 Poor (Examples.after 60)).
Proof.
  intros st late soon.
  destruct (refresh_writes_window_buckets late st Examples.first_minute) as (Hold & _);
    [reflexivity|].
  destruct (refresh_writes_window_buckets soon st Examples.first_minute) as (_ & Hnew & _);
    [reflexivity|].
  split.
  - rewrite Hold; [reflexivity|vm_compute; reflexivity].
  - rewrite Hnew; [vm_compute; reflexivity|reflexivity|vm_compute; discriminate].
Defined.

(** ** The connection routine *)

Lemma tries_made_app (tr tr' : list Event) :
  tries_made (tr ++ tr') = (tries_made tr + tries_made tr')%nat.
Proof.
  induction tr as [|ev tr IH]; [reflexivity|].
  destruct ev as [[]| |]; simpl; rewrite IH; reflexivity.
Qed.

Lemma connect_loop_unfold (tries : nat → Attempt) (attempt rest : nat) :
  connect_loop tries attempt (S rest) =
  try_except is_operational
    (emit (Print Connecting);;
     open_session (tries attempt);;
     emit (Print DatabaseConnected);;
     mret true)
    (λ e,
     emit (Print (AttemptFailed (S attempt) max_retries));;
     if (attempt <? max_retries - 1)%nat
     then emit (Sleep retry_delay);; connect_loop tries (S attempt) rest
     else emit (Print CouldNotConnect);; mret false).
Proof. reflexivity. Qed.

(** One try, whatever comes of it: either it ends the routine after no
    sleep, or it is followed by one sleep and the next try. *)
Lemma connect_loop_step (tries : nat → Attempt) (attempt rest : nat) (st : State) :
  (∃ r st',
     connect_loop tries attempt (S rest) st = (r, st') ∧
     slept (trace st') = slept (trace st) ∧
     tries_made (trace st') = S (tries_made (trace st)) ∧
     batch_buffer st' = batch_buffer st ∧
     (r = Ret true → succeeds (tries attempt) = true ∧ db_conn st' ≠ None
                     ∧ db_cursor st' = db_conn st' ∧ tx_rows (store st') = []) ∧
     (∀ e, r = Raise e → crash (tries attempt) = Some e) ∧
     (r = Ret false → retried (tries attempt) = true ∧ ¬ (attempt < 4)%nat))
  ∨
  (∃ st1,
     connect_loop tries attempt (S rest) st = connect_loop tries (S attempt) rest st1 ∧
     slept (trace st1) = slept (trace st) ++ [retry_delay] ∧
     tries_made (trace st1) = S (tries_made (trace st)) ∧
     batch_buffer st1 = batch_buffer st ∧
     retried (tries attempt) = true ∧ (attempt < 4)%nat).
Proof.
  rewrite connect_loop_unfold. unfold open_session, retried, succeeds, crash.
  py_unfold. simpl.
  destruct (at_connect (tries attempt)) as [|e]; simpl.
  - destruct (at_setup (tries attempt)) as [|e]; simpl.
    + left. eexists _, _. split; [reflexivity|]. simpl.
      rewrite !slept_app, !tries_made_app. simpl. rewrite !app_nil_r.
      repeat split; try done; lia.
    + destruct (is_operational e) eqn:Hop; simpl.
      * destruct (attempt <? 4)%nat eqn:Hlast.
        -- right. eexists. split; [reflexivity|]. simpl.
           rewrite !slept_app, !tries_made_app. simpl. rewrite !app_nil_r.
           apply Nat.ltb_lt in Hlast. repeat split; try done; lia.
        -- left. eexists _, _. split; [reflexivity|]. simpl.
           rewrite !slept_app, !tries_made_app. simpl. rewrite !app_nil_r.
           apply Nat.ltb_ge in Hlast. repeat split; try done; lia.
      * left. eexists _, _. split; [reflexivity|]. simpl.
        rewrite !slept_app, !tries_made_app. simpl. rewrite !app_nil_r.
        repeat split; try done; try lia. by intros e' [= <-].
  - destruct (is_operational e) eqn:Hop; simpl.
    + destruct (attempt <? 4)%nat eqn:Hlast.
      * right. eexists. split; [reflexivity|]. simpl.
        rewrite !slept_app, !tries_made_app. simpl. rewrite !app_nil_r.
        apply Nat.ltb_lt in Hlast. repeat split; try done; lia.
      * left. eexists _, _. split; [reflexivity|]. simpl.
        rewrite !slept_app, !tries_made_app. simpl. rewrite !app_nil_r.
        apply Nat.ltb_ge in Hlast. repeat split; try done; lia.
    + left. eexists _, _. split; [reflexivity|]. simpl.
      rewrite !slept_app, !tries_made_app. simpl. rewrite !app_nil_r.
      repeat split; try done; try lia. by intros e' [= <-].
Qed.

Lemma retried_not_final (a : Attempt) :
  retried a = true → succeeds a = false ∧ crash a = None.
Proof.
  unfold retried, succeeds, crash.
  destruct (at_connect a) as [|e]; [destruct (at_setup a) as [|e]|];
    try discriminate; intros ->; by split.
Qed.

Lemma connect_loop_bounded (tries : nat → Attempt) (rest attempt : nat) (st : State) :
  (attempt + S rest = max_retries)%nat →
  ∃ k, (k ≤ rest)%nat ∧
    slept (trace (connect_loop tries attempt (S rest) st).2)
      = slept (trace st) ++ replicate k retry_delay ∧
    tries_made (trace (connect_loop tries attempt (S rest) st).2)
      = (tries_made (trace st) + S k)%nat.
Proof.
  revert attempt st. induction rest as [|rest IH]; intros attempt st Hsum.
  - destruct (connect_loop_step tries attempt 0 st)
      as [(r & st' & -> & Hs & Ht & _)|(st1 & _ & _ & _ & _ & _ & Hlt)];
      [|unfold max_retries in Hsum; lia].
    exists 0%nat. simpl. rewrite app_nil_r. split; [lia|]. split; [assumption|lia].
  - destruct (connect_loop_step tries attempt (S rest) st)
      as [(r & st' & -> & Hs & Ht & _)|(st1 & -> & Hs & Ht & _)].
    + exists 0%nat. simpl. rewrite app_nil_r. split; [lia|]. split; [assumption|lia].
    + destruct (IH (S attempt) st1) as (k & Hk & Hs' & Ht'); [lia|].
      exists (S k). split; [lia|]. rewrite Hs', Ht', Hs, Ht. simpl.
      rewrite <- app_assoc. split; [reflexivity|lia].
Qed.

Lemma rhythm_app (tr tr' : list Event) :
  rhythm (tr ++ tr') = rhythm tr ++ rhythm tr'.
Proof. apply omap_app. Qed.

Lemma slept_of_rhythm (tr : list Event) :
  slept tr = omap id (rhythm tr).
Proof.
  induction tr as [|ev tr IH]; [reflexivity|].
  destruct ev as [[]| |]; simpl; unfold slept, rhythm in *; simpl;
    rewrite ?IH; reflexivity.
Qed.

Lemma tries_of_rhythm (tr : list Event) :
  tries_made tr
  = length (omap (λ o : option Z, match o with None => Some tt | Some _ => None end)
              (rhythm tr)).
Proof.
  induction tr as [|ev tr IH]; [reflexivity|].
  destruct ev as [[]| |]; simpl; unfold rhythm in *; simpl;
    rewrite ?IH; reflexivity.
Qed.

Lemma retries_sleeps (k : nat) :
  omap id (retries k) = replicate k retry_delay.
Proof.
  induction k as [|k IH]; [reflexivity|].
  change (retries (S k)) with ([Some retry_delay; None] ++ retries k).
  rewrite omap_app, IH. reflexivity.
Qed.

Lemma retries_tries (k : nat) :
  length (omap (λ o : option Z, match o with None => Some tt | Some _ => None end)
            (retries k)) = k.
Proof.
  induction k as [|k IH]; [reflexivity|].
  change (retries (S k)) with ([Some retry_delay; None] ++ retries k).
  rewrite omap_app, length_app, IH. reflexivity.
Qed.

(** The loop from try number [attempt] on: a try, then as many times a sleep
    and a try as there were tries that the loop went on after. *)
Lemma connect_loop_rhythm (tries : nat → Attempt) (rest attempt : nat) (st : State) :
  (attempt + S rest = max_retries)%nat →
  ∃ k, (k ≤ rest)%nat ∧
    rhythm (trace (connect_loop tries attempt (S rest) st).2)
    = rhythm (trace st) ++ None :: retries k.
Proof.
  unfold max_retries.
  revert attempt st. induction rest as [|rest IH]; intros attempt st Hsum;
    rewrite connect_loop_unfold; unfold open_session; py_unfold; simpl.
  - assert (Hlast : (attempt <? 4)%nat = false) by (apply Nat.ltb_ge; lia).
    rewrite Hlast. exists 0%nat. split; [lia|].
    destruct (at_connect (tries attempt)) as [|e]; simpl;
      [destruct (at_setup (tries attempt)) as [|e]; simpl|];
      try destruct (is_operational e); simpl;
      rewrite !rhythm_app; simpl; by rewrite ?app_nil_r.
  - assert (Hlast : (attempt <? 4)%nat = true) by (apply Nat.ltb_lt; lia).
    rewrite Hlast.
    destruct (at_connect (tries attempt)) as [|e]; simpl;
      [destruct (at_setup (tries attempt)) as [|e]; simpl|];
      try destruct (is_operational e); simpl;
      try (exists 0%nat; split; [lia|];
           rewrite !rhythm_app; simpl; by rewrite ?app_nil_r);
      match goal with
      | |- context [connect_loop tries (S attempt) (S rest) ?s] =>
          destruct (IH (S attempt) s) as (k & Hk & Hr); [lia|];
          exists (S k); split; [lia|]; rewrite Hr; simpl;
          rewrite !rhythm_app; simpl; rewrite ?app_nil_r, <- ?app_assoc;
          reflexivity
      end.
Qed.

(** X4: the connection routine tries at most five times and sleeps five seconds
    between one try and the next, never before the first and never after the
    last: whatever the store answers and however the routine ends, what it
    added to the run is a try followed [k] times by a sleep of five seconds
    and a try, for some [k] of at most four; so it has slept [k] times and
    tried [k + 1] times. *)
Theorem connect_database_bounded (tries : nat → Attempt) (st : State) :
  ∃ k, (k ≤ 4)%nat ∧
    rhythm (trace (connect_database tries st).2)
      = rhythm (trace st) ++ None :: retries k ∧
    slept (trace (connect_database tries st).2)
      = slept (trace st) ++ replicate k retry_delay ∧
    tries_made (trace (connect_database tries st).2)
      = (tries_made (trace st) + S k)%nat.
Proof.
  assert (Hrhythm : ∃ k, (k ≤ 4)%nat ∧
            rhythm (trace (connect_database tries st).2)
            = rhythm (trace st) ++ None :: retries k).
  { unfold connect_database. py_unfold. simpl.
    match goal with
    | |- context [connect_loop tries 0 max_retries ?s] =>
        destruct (connect_loop_rhythm tries 4 0 s) as (k & Hk & Hr);
          [reflexivity|]
    end.
    exists k. split; [exact Hk|].
    change max_retries with 5%nat. rewrite Hr. simpl.
    rewrite rhythm_app. simpl. by rewrite app_nil_r. }
  destruct Hrhythm as (k & Hk & Hr). exists k.
  split; [exact Hk|]. split; [exact Hr|].
  rewrite !slept_of_rhythm, !tries_of_rhythm, Hr, !omap_app, length_app.
  change (None :: retries k) with ([None] ++ retries k).
  rewrite !omap_app, length_app, retries_sleeps, retries_tries. simpl.
  split; [reflexivity|lia].
Qed.

Lemma connect_loop_decided (tries : nat → Attempt) (k rest attempt : nat) (st : State) :
  (attempt + S rest = max_retries)%nat → (k ≤ rest)%nat →
  (∀ j, (attempt <= j)%nat ∧ (j < attempt + k)%nat → retried (tries j) = true) →
  retried (tries (attempt + k)%nat) = false →
  ∃ r st',
    connect_loop tries attempt (S rest) st = (r, st') ∧
    slept (trace st') = slept (trace st) ++ replicate k retry_delay ∧
    batch_buffer st' = batch_buffer st ∧
    (succeeds (tries (attempt + k)%nat) = true →
     r = Ret true ∧ db_conn st' ≠ None ∧ db_cursor st' = db_conn st'
     ∧ tx_rows (store st') = []) ∧
    (∀ e, crash (tries (attempt + k)%nat) = Some e → r = Raise e).
Proof.
  revert rest attempt st. induction k as [|k IH]; intros rest attempt st Hsum Hk Hre Hnot.
  - rewrite Nat.add_0_r in *.
    destruct (connect_loop_step tries attempt rest st)
      as [(r & st' & Hrun & Hs & _ & Hb & Htrue & Hraise & Hfalse)
         |(st1 & _ & _ & _ & _ & Hretry & _)]; [|congruence].
    exists r, st'. split; [exact Hrun|]. simpl. rewrite app_nil_r.
    split; [exact Hs|]. split; [exact Hb|].
    destruct r as [[]|e].
    + destruct (Htrue eq_refl) as (Hok & Hconn). split; [by intros _|].
      intros e He. unfold succeeds, crash in *.
      destruct (at_connect (tries attempt)), (at_setup (tries attempt)); discriminate.
    + destruct (Hfalse eq_refl). congruence.
    + specialize (Hraise e eq_refl). split.
      * intros Hok. unfold succeeds, crash in *.
        destruct (at_connect (tries attempt)), (at_setup (tries attempt)); discriminate.
      * intros e' He'. congruence.
  - destruct (connect_loop_step tries attempt rest st)
      as [(r & st' & Hrun & Hs & _ & _ & Htrue & Hraise & Hfalse)
         |(st1 & Hrun & Hs & _ & Hb & _ & Hlt)].
    + assert (Hretry : retried (tries attempt) = true) by (apply Hre; lia).
      apply retried_not_final in Hretry as [Hno Hnc].
      destruct r as [[]|e].
      * destruct (Htrue eq_refl). congruence.
      * destruct (Hfalse eq_refl) as [_ Hlast]. unfold max_retries in *. lia.
      * specialize (Hraise e eq_refl). congruence.
    + destruct rest as [|rest]; [lia|].
      destruct (IH rest (S attempt) st1) as (r & st' & Hrun' & Hs' & Hb' & Hok & Hcr).
      * lia.
      * lia.
      * intros j' Hj. apply Hre. lia.
      * by replace (S attempt + k)%nat with (attempt + S k)%nat by lia.
      * replace (S attempt + k)%nat with (attempt + S k)%nat in * by lia.
        exists r, st'. rewrite Hrun. split; [exact Hrun'|].
        rewrite Hs', Hs, <- app_assoc. split; [reflexivity|].
        split; [congruence|]. split; assumption.
Qed.

(** X5: the routine returns [True] at the first try that goes through, after one
    sleep for each try before it: the globals then hold the new connection
    and its cursor, and the transaction of the new session is empty. *)
Theorem connect_database_first_success (tries : nat → Attempt) (k : nat) (st : State) :
  (k < max_retries)%nat →
  (∀ j, (j < k)%nat → retried (tries j) = true) →
  succeeds (tries k) = true →
  (connect_database tries st).1 = Ret true ∧
  db_conn (connect_database tries st).2 ≠ None ∧
  db_cursor (connect_database tries st).2 = db_conn (connect_database tries st).2 ∧
  tx_rows (store (connect_database tries st).2) = [] ∧
  batch_buffer (connect_database tries st).2 = batch_buffer st ∧
  slept (trace (connect_database tries st).2)
    = slept (trace st) ++ replicate k retry_delay.
Proof.
  intros Hk Hre Hok. unfold connect_database. py_unfold. simpl.
  match goal with
  | |- context [connect_loop tries 0 max_retries ?s] =>
      destruct (connect_loop_decided tries k 4 0 s)
        as (r & st' & Hrun & Hs & Hb & Htrue & _)
  end.
  - reflexivity.
  - unfold max_retries in Hk. lia.
  - intros j Hj. apply Hre. lia.
  - simpl. unfold retried, succeeds in *.
    destruct (at_connect (tries k)), (at_setup (tries k)); done.
  - change max_retries with 5%nat. rewrite Hrun. simpl in *.
    destruct (Htrue Hok) as (-> & Hc & Hcur & Htx).
    rewrite Hs, slept_app. simpl. rewrite app_nil_r. repeat split; assumption.
Qed.

Lemma connect_database_first_success_witness :
  let tries := λ j : nat, if (j <? 2)%nat then mkAttempt (Fails Examples.refused) Done
                          else mkAttempt Done Done in
  (connect_database tries Examples.pending_two).1 = Ret true ∧
  db_conn (connect_database tries Examples.pending_two).2 ≠ None ∧
  db_cursor (connect_database tries Examples.pending_two).2
    = db_conn (connect_database tries Examples.pending_two).2 ∧
  tx_rows (store (connect_database tries Examples.pending_two).2) = [] ∧
  batch_buffer (connect_database tries Examples.pending_two).2
    = batch_buffer Examples.pending_two ∧
  slept (trace (connect_database tries Examples.pending_two).2) = [5; 5].
Proof.
  intros tries.
  apply (connect_database_first_success tries 2 Examples.pending_two).
  - unfold max_retries. lia.
  - intros j Hj. destruct j as [|[|j]]; [reflexivity|reflexivity|lia].
  - reflexivity.
Defined.

Section Startup.
Context {P : Platform}.

(** X6: an exception of the connection routine that is not an
    [OperationalError] is not retried and not caught: it ends [main] at
    startup, before the first message, after one sleep for each try that
    failed with an [OperationalError] before it. *)
Theorem unexpected_error_ends_startup (boot : BootEnv) (k : nat) (e : Exn)
  (inbox : list (Env * string)) (last : Env) (st : State) :
  mkdir_raw boot = Done →
  (k < max_retries)%nat →
  (∀ j, (j < k)%nat → retried (boot_attempts boot j) = true) →
  crash (boot_attempts boot k) = Some e →
  (startup boot st).1 = Raise e ∧
  (main boot inbox last st).1 = Raise e ∧
  (main boot inbox last st).2 = (startup boot st).2 ∧
  slept (trace (startup boot st).2) = slept (trace st) ++ replicate k retry_delay.
Proof.
  intros Hmk Hk Hre Hcrash.
  assert (Hrun : ∃ st', startup boot st = (Raise e, st') ∧
            slept (trace st') = slept (trace st) ++ replicate k retry_delay).
  { unfold startup, setup_storage, connect_database. py_unfold. simpl.
    rewrite Hmk. simpl.
    match goal with
    | |- context [connect_loop (boot_attempts boot) 0 max_retries ?s] =>
        destruct (connect_loop_decided (boot_attempts boot) k 4 0 s)
          as (r & st' & Hrun & Hs & _ & _ & Hraise)
    end.
    - reflexivity.
    - unfold max_retries in Hk. lia.
    - intros j Hj. apply Hre. lia.
    - simpl. unfold retried, crash in *.
      destruct (at_connect (boot_attempts boot k)) as [|e'];
        [destruct (at_setup (boot_attempts boot k)) as [|e']|];
        try done; by destruct (is_operational e').
    - change max_retries with 5%nat. rewrite Hrun, (Hraise e Hcrash). simpl.
      eexists. split; [reflexivity|].
      rewrite Hs. simpl. rewrite !slept_app. simpl. by rewrite !app_nil_r. }
  destruct Hrun as (st' & Hrun & Hs).
  assert (Hmain : main boot inbox last st = (Raise e, st')).
  { unfold main, mbind, Py_bind. by rewrite Hrun. }
  rewrite Hmain, Hrun. simpl. repeat split. exact Hs.
Qed.

End Startup.

Lemma unexpected_error_ends_startup_witness :
  let inbox := [(Sensors.calm 0 0 0, Examples.payload_of Examples.no_value)] in
  (startup Examples.dropped Examples.fresh).1 = Raise Examples.closed_early ∧
  (main Examples.dropped inbox (Sensors.calm 0 0 0) Examples.fresh).1
    = Raise Examples.closed_early ∧
  (main Examples.dropped inbox (Sensors.calm 0 0 0) Examples.fresh).2
    = (startup Examples.dropped Examples.fresh).2 ∧
  slept (trace (startup Examples.dropped Examples.fresh).2) = [5].
Proof.
  intros inbox.
  apply (unexpected_error_ends_startup Examples.dropped 1 Examples.closed_early inbox
           (Sensors.calm 0 0 0) Examples.fresh).
  - reflexivity.
  - unfold max_retries. lia.
  - intros j Hj. destruct j; [reflexivity|lia].
  - reflexivity.
Defined.

(** ** Rules for relations *)

Section Moves.
Context (R : State → State → Prop) `{!PreOrder R}.

Lemma moves_ret {A} (a : A) : moves R (mret a : Py A).
Proof. intros st. simpl. reflexivity. Qed.

Lemma moves_bind {A B} (m : Py A) (k : A → Py B) :
  moves R m → (∀ a, moves R (k a)) → moves R (m ≫= k).
Proof.
  intros Hm Hk st. unfold mbind, Py_bind. specialize (Hm st).
  destruct (m st) as [[a|e] st']; simpl in *; [|assumption].
  etrans; [exact Hm|apply Hk].
Qed.

Lemma moves_try {A} (caught : Exn → bool) (m : Py A) (h : Exn → Py A) :
  moves R m → (∀ e, moves R (h e)) → moves R (try_except caught m h).
Proof.
  intros Hm Hh st. unfold try_except. specialize (Hm st).
  destruct (m st) as [[a|e] st']; simpl in *; [assumption|].
  destruct (caught e); simpl; [|assumption].
  etrans; [exact Hm|apply Hh].
Qed.

Lemma moves_if {A} (b : bool) (m m' : Py A) :
  moves R m → moves R m' → moves R (if b then m else m').
Proof. destruct b; auto. Qed.

Lemma keeps_moves {X A} (obs : State → X) (m : Py A) :
  (∀ st st', obs st' = obs st → R st st') → keeps obs m → moves R m.
Proof. intros Hobs Hkeep st. apply Hobs, Hkeep. Qed.

End Moves.

Lemma append_assoc (a b c : string) : (a +:+ b) +:+ c = a +:+ (b +:+ c).
Proof.
  induction a as [|x a IH]; [reflexivity|].
  change (String x ((a +:+ b) +:+ c) = String x (a +:+ (b +:+ c))). by rewrite IH.
Qed.

#[local] Instance grown_preorder : PreOrder grown.
Proof.
  split.
  - intros st path old Hold. exists EmptyString. by rewrite append_empty_r.
  - intros st1 st2 st3 H12 H23 path old Hold.
    destruct (H12 path old Hold) as (more & Hmid).
    destruct (H23 path _ Hmid) as (more' & Hend).
    exists (more +:+ more'). by rewrite <- append_assoc.
Qed.

#[local] Instance drops_only_preorder : PreOrder drops_only.
Proof.
  split.
  - intros st. by split.
  - intros st1 st2 st3 [Hl Hb] [Hl' Hb']. split; [lia|congruence].
Qed.

Lemma grown_of_files (st st' : State) : files st' = files st → grown st st'.
Proof.
  intros Heq path old Hold. exists EmptyString.
  by rewrite Heq, append_empty_r.
Qed.

Lemma drops_only_of_view (st st' : State) :
  (tx_rows (store st'), batch_buffer st') = (tx_rows (store st), batch_buffer st) →
  drops_only st st'.
Proof. intros [= Ht Hb]. split; [by rewrite Ht|exact Hb]. Qed.

(** Breaks a statement into its parts for a relation [R] that [obs]
    decides; what is left are the statements that change [obs]. *)
Ltac moves_by Hobs :=
  repeat lazymatch goal with
    | |- moves _ (mbind _ _) => apply moves_bind; [apply _| |intros ?]
    | |- moves _ (try_except _ _ _) => apply moves_try; [apply _| |intros ?]
    | |- moves _ (if _ then _ else _) => apply moves_if
    | |- moves _ (mret _) => apply moves_ret; apply _
    | |- moves _ (get) => apply (keeps_moves _ _ _ Hobs); apply keeps_get
    | |- moves _ (lift _) => apply (keeps_moves _ _ _ Hobs); apply keeps_lift
    | |- moves _ (raise _) => apply (keeps_moves _ _ _ Hobs); apply keeps_raise
    | |- moves _ (external _) => apply (keeps_moves _ _ _ Hobs); apply keeps_external
    | |- moves _ (emit _) =>
        apply (keeps_moves _ _ _ Hobs); apply keeps_modify; reflexivity
    | |- moves _ (modify _) =>
        apply (keeps_moves _ _ _ Hobs); apply keeps_modify; reflexivity
    end.

(** ** The raw files over a whole run *)

Section RawFiles.
Context {P : Platform}.

Lemma files_decide_grown (st st' : State) : files st' = files st → grown st st'.
Proof. apply grown_of_files. Qed.

Lemma store_raw_data_grown (env : Env) (data : json) :
  moves grown (store_raw_data env data).
Proof.
  intros st. unfold store_raw_data, append_file. py_unfold. simpl.
  destruct (getitem data "id") as [id|e]; simpl; [|by apply grown_of_files].
  destruct (py_replace id); simpl; [|by apply grown_of_files].
  destruct (getitem data "dt") as [timestamp|e]; simpl; [|by apply grown_of_files].
  destruct (py_date timestamp) as [date|e]; simpl; [|by apply grown_of_files].
  destruct (fs_append env); simpl; [|by apply grown_of_files].
  intros path old Hold. simpl. rewrite lookup_insert. case_decide as Hpath.
  - subst path. rewrite Hold. simpl. eauto.
  - exists EmptyString. by rewrite append_empty_r.
Qed.

Lemma connect_database_grown (tries : nat → Attempt) :
  moves grown (connect_database tries).
Proof. apply (keeps_moves _ files), connect_database_files. apply files_decide_grown. Qed.

Lemma on_message_grown (env : Env) (payload : string) :
  moves grown (on_message env payload).
Proof.
  unfold on_message, ingest, commit_check, refresh_check.
  repeat lazymatch goal with
    | |- moves _ (store_raw_data _ _) => apply store_raw_data_grown
    | |- moves _ (store_to_silver _ _) =>
        apply (keeps_moves _ files);
          [apply files_decide_grown|apply store_to_silver_files]
    | |- moves _ (flush_batch _) =>
        apply (keeps_moves _ files);
          [apply files_decide_grown|apply flush_batch_files]
    | |- moves _ (refresh_gold_layer _) =>
        apply (keeps_moves _ files);
          [apply files_decide_grown|apply refresh_files]
    | |- _ => progress moves_by files_decide_grown
    end.
Qed.

Lemma loop_forever_grown (inbox : list (Env * string)) :
  moves grown (loop_forever inbox).
Proof.
  induction inbox as [|[env payload] rest IH]; simpl.
  - apply moves_ret, _.
  - apply moves_bind; [apply _|apply on_message_grown|intros _; exact IH].
Qed.

(** X7: the raw files are append-only over the whole life of the process: from
    startup through any sequence of messages to the shutdown, no file is
    removed and the text a file held stays at its head. *)
Theorem raw_files_only_grow (boot : BootEnv) (inbox : list (Env * string))
  (last : Env) (st : State) (path old : string) :
  files st !! path = Some old →
  ∃ more, files (main boot inbox last st).2 !! path = Some (old +:+ more).
Proof.
  revert path old.
  change (grown st (main boot inbox last st).2).
  revert st. change (moves grown (main boot inbox last)).
  unfold main, startup, setup_storage, shutdown.
  repeat lazymatch goal with
    | |- moves _ (loop_forever _) => apply loop_forever_grown
    | |- moves _ (connect_database _) => apply connect_database_grown
    | |- moves _ (flush_batch _) =>
        apply (keeps_moves _ files);
          [apply files_decide_grown|apply flush_batch_files]
    | |- _ => progress moves_by files_decide_grown
    end.
Qed.

End RawFiles.

Lemma raw_files_only_grow_witness :
  let env := Sensors.calm (Examples.after 11) (Examples.after 11) (Examples.after 11) in
  let first := Examples.payload_of (Examples.reading "s1" "2024-01-01T00:00:10" 5) in
  let second := Examples.payload_of (Examples.reading "s1" "2024-01-01T00:00:11" 6) in
  let st := (on_message env first Examples.fresh).2 in
  ∃ more,
    files (main Examples.unreachable [(env, second)] env st).2
      !! "/data/raw/2024-01-01_s1.jsonl"
    = Some ((first +:+ String PyStr.newline "") +:+ more).
Proof.
  intros env first second st.
  apply (raw_files_only_grow Examples.unreachable [(env, second)] env st).
  vm_compute. reflexivity.
Defined.

(** ** Inserts that wait for a commit *)

Lemma drops_only_of_pending_view (st st' : State) :
  pending_view st' = pending_view st → drops_only st st'.
Proof. apply drops_only_of_view. Qed.

Lemma drops_preserves_pending {A} (m : Py A) :
  moves drops_only m → preserves pending_counted m.
Proof.
  intros Hm st Hst. destruct (Hm st) as [Hl Hb].
  unfold pending_counted in *. rewrite Hb. lia.
Qed.

Section Pending.
Context {P : Platform}.

Lemma open_session_drops (a : Attempt) : moves drops_only (open_session a).
Proof.
  unfold open_session. moves_by drops_only_of_pending_view.
  intros st. split; simpl; [lia|reflexivity].
Qed.

Lemma connect_loop_drops (tries : nat → Attempt) (remaining attempt : nat) :
  moves drops_only (connect_loop tries attempt remaining).
Proof.
  revert attempt. induction remaining as [|rest IH]; intros attempt.
  - apply moves_ret, _.
  - rewrite connect_loop_unfold.
    repeat lazymatch goal with
      | |- moves _ (open_session _) => apply open_session_drops
      | |- moves _ (connect_loop _ _ _) => apply IH
      | |- _ => progress moves_by drops_only_of_pending_view
      end.
Qed.

Lemma connect_database_drops (tries : nat → Attempt) :
  moves drops_only (connect_database tries).
Proof.
  unfold connect_database. moves_by drops_only_of_pending_view.
  apply connect_loop_drops.
Qed.

Lemma refresh_drops (env : Env) : moves drops_only (refresh_gold_layer env).
Proof.
  unfold refresh_gold_layer. moves_by drops_only_of_pending_view;
    intros st; split; simpl; first [lia|reflexivity].
Qed.

(** What an insert does to the transaction: it adds its row, or fails
    leaving the transaction as it was or without what it held. *)
Lemma execute_insert_spec (env : Env) (data : json) (st : State) :
  (∃ time sensor value r,
     getitem data "dt" = Ret time ∧ getitem data "id" = Ret sensor ∧
     getitem data "value" = Ret value ∧ db_insert env = Done ∧
     pg_row time sensor value = Some r ∧
     execute_insert env data st
     = (Ret tt, set_store (store_insert r (store st)) st))
  ∨ (∃ e, execute_insert env data st = (Raise e, st))
  ∨ (∃ e, execute_insert env data st
          = (Raise e, set_store (store_abort (store st)) st)).
Proof.
  unfold execute_insert, rejected. py_unfold. simpl.
  destruct (getitem data "dt") as [time|e]; simpl; [|right; left; eauto].
  destruct (getitem data "id") as [sensor|e]; simpl; [|right; left; eauto].
  destruct (getitem data "value") as [value|e]; simpl; [|right; left; eauto].
  destruct (db_insert env) as [|e]; simpl.
  - destruct (pg_row time sensor value) as [r|] eqn:Hrow; simpl.
    + left. by exists time, sensor, value, r.
    + right; right. eauto.
  - destruct (is_database_error e); simpl; [right; right; eauto|right; left; eauto].
Qed.

(** The silver writer returns [True] after exactly one insert into the open
    transaction, and otherwise leaves the transaction as it was or without
    its rows; the batch is not its business. *)
Lemma store_to_silver_pending (env : Env) (data : json) (st : State) :
  batch_buffer (store_to_silver env data st).2 = batch_buffer st ∧
  match (store_to_silver env data st).1 with
  | Ret true =>
      ∃ r, tx_rows (store (store_to_silver env data st).2)
           = tx_rows (store st) ++ [r]
  | _ => (length (tx_rows (store (store_to_silver env data st).2))
          ≤ length (tx_rows (store st)))%nat
  end.
Proof.
  split; [apply store_to_silver_batch|].
  unfold store_to_silver. py_unfold. simpl.
  destruct (bool_decide (db_conn st = None) || bool_decide (db_cursor st = None));
    simpl; [lia|].
  destruct (execute_insert_spec env data st)
    as [(time & sensor & value & r & _ & _ & _ & _ & _ & ->)|[[e ->]|[e ->]]];
    simpl.
  - by exists r.
  - pose proof (connect_database_drops (db_reconnect env)
                  (set_trace (trace st ++ [Print (SilverError e)]) st)) as [Hl _].
    destruct (PyStr.contains _ _); simpl; [|lia].
    destruct (connect_database _ _) as [[b|e'] s2]; simpl in *; exact Hl.
  - pose proof (connect_database_drops (db_reconnect env)
                  (set_trace (trace st ++ [Print (SilverError e)])
                     (set_store (store_abort (store st)) st))) as [Hl _].
    destruct (PyStr.contains _ _); simpl; [|lia].
    destruct (connect_database _ _) as [[b|e'] s2]; simpl in *; lia.
Qed.

Lemma ingest_pending (env : Env) (payload : string) :
  preserves pending_counted (ingest env payload).
Proof.
  intros st Hinv. unfold ingest. py_unfold.
  destruct (loads payload) as [data|]; simpl; [|exact Hinv].
  destruct (store_raw_data_spec env data st) as (b & tr & fs & -> & _).
  destruct (store_to_silver_pending env data (set_trace tr (set_files fs st)))
    as [Hb Hrows].
  unfold pending_counted in *.
  destruct (store_to_silver env data _) as [[ok|e] s2]; simpl in *.
  - destruct ok; simpl.
    + destruct Hrows as [r Hrows].
      destruct (status_line b true data); simpl;
        rewrite Hrows, Hb, !length_app; simpl; lia.
    + destruct (status_line b false data); simpl; rewrite Hb; lia.
  - rewrite Hb. lia.
Qed.

Lemma flush_batch_pending (env : Env) : preserves pending_counted (flush_batch env).
Proof.
  intros st Hinv. unfold pending_counted in *.
  destruct (decide (db_conn st = None)) as [Hc|Hc];
    [rewrite flush_nothing by auto; exact Hinv|].
  destruct (decide (batch_buffer st = [])) as [Hb|Hb];
    [rewrite flush_nothing by auto; exact Hinv|].
  destruct (flush_commit env) as [|e] eqn:Hm.
  - rewrite (flush_commits env st Hc Hb Hm). simpl. lia.
  - rewrite (flush_commit_fails env st e Hc Hb Hm).
    destruct (flush_rollback env); simpl; lia.
Qed.

Lemma on_message_pending (env : Env) (payload : string) :
  preserves pending_counted (on_message env payload).
Proof.
  unfold on_message, commit_check, refresh_check.
  repeat lazymatch goal with
    | |- preserves _ (ingest _ _) => apply ingest_pending
    | |- preserves _ (flush_batch _) => apply flush_batch_pending
    | |- preserves _ (refresh_gold_layer _) =>
        apply drops_preserves_pending, refresh_drops
    | |- preserves _ (mbind _ _) => apply preserves_bind; [|intros ?]
    | |- preserves _ (try_except _ _ _) => apply preserves_try; [|intros ?]
    | |- preserves _ (if ?b then _ else _) => destruct b
    | |- preserves _ _ =>
        apply (keeps_preserves pending_view
                 (λ v, (length v.1 ≤ length v.2)%nat)); frame
    end.
Qed.

Lemma startup_pending (boot : BootEnv) : preserves pending_counted (startup boot).
Proof.
  apply drops_preserves_pending. unfold startup, setup_storage.
  repeat lazymatch goal with
    | |- moves _ (connect_database _) => apply connect_database_drops
    | |- _ => progress moves_by drops_only_of_pending_view
    end.
Qed.

Lemma startup_batch_has_conn (boot : BootEnv) :
  preserves batch_has_conn (startup boot).
Proof.
  unfold startup, setup_storage, connect_database.
  repeat lazymatch goal with
    | |- preserves _ (connect_loop _ _ _) =>
        intros st Hst Hne;
        destruct (connect_loop_conn (boot_attempts boot) max_retries 0) as [Hc Hb];
        apply Hc, Hst; by rewrite <- (Hb st)
    | |- preserves _ (mbind _ _) => apply preserves_bind; [|intros ?]
    | |- preserves _ _ =>
        apply (keeps_preserves batch_view (λ v, v.2 ≠ [] → v.1 ≠ None)); frame
    end.
Qed.

Lemma loop_forever_preserves (inv : State → Prop) (inbox : list (Env * string)) :
  (∀ env payload, preserves inv (on_message env payload)) →
  preserves inv (loop_forever inbox).
Proof.
  intros Hstep. induction inbox as [|[env payload] rest IH]; simpl.
  - by intros st Hst.
  - apply preserves_bind; [apply Hstep|intros _; exact IH].
Qed.

(** X8: while the process runs, a reading is counted in the batch only when
    there is a connection: the batch of a process that never got one is
    empty, after the startup and after every message. *)
Theorem batch_only_with_connection (boot : BootEnv) (inbox : list (Env * string))
  (st : State) :
  (batch_buffer st ≠ [] → db_conn st ≠ None) →
  batch_buffer ((startup boot;; loop_forever inbox) st).2 ≠ [] →
  db_conn ((startup boot;; loop_forever inbox) st).2 ≠ None.
Proof.
  revert st. change (preserves batch_has_conn (startup boot;; loop_forever inbox)).
  apply preserves_bind; [apply startup_batch_has_conn|intros _].
  apply loop_forever_preserves, on_message_batch_has_conn.
Qed.

(** X9: while the process runs, the inserts that wait for a commit are never more
    than the readings counted in the batch. *)
Theorem uncommitted_rows_are_counted (boot : BootEnv) (inbox : list (Env * string))
  (st : State) :
  (length (tx_rows (store st)) ≤ length (batch_buffer st))%nat →
  (length (tx_rows (store ((startup boot;; loop_forever inbox) st).2))
   ≤ length (batch_buffer ((startup boot;; loop_forever inbox) st).2))%nat.
Proof.
  revert st. change (preserves pending_counted (startup boot;; loop_forever inbox)).
  apply preserves_bind; [apply startup_pending|intros _].
  apply loop_forever_preserves, on_message_pending.
Qed.

End Pending.

Lemma batch_only_with_connection_witness :
  let env := Sensors.calm (Examples.after 1) (Examples.after 11) (Examples.after 11) in
  let first := Examples.payload_of (Examples.reading "s1" "2024-01-01T00:00:10" 5) in
  db_conn ((startup reachable;; loop_forever [(env, first)]) Examples.fresh).2 ≠ None.
Proof.
  intros env first.
  apply (batch_only_with_connection reachable [(env, first)] Examples.fresh).
  - intros Hne. exfalso. apply Hne. reflexivity.
  - vm_compute. discriminate.
Defined.

Lemma uncommitted_rows_are_counted_witness :
  let env := Sensors.calm (Examples.after 1) (Examples.after 11) (Examples.after 11) in
  let first := Examples.payload_of (Examples.reading "s1" "2024-01-01T00:00:10" 5) in
  (length (tx_rows (store ((startup reachable;; loop_forever [(env, first)])
                             Examples.fresh).2))
   ≤ length (batch_buffer ((startup reachable;; loop_forever [(env, first)])
                             Examples.fresh).2))%nat.
Proof.
  intros env first.
  apply (uncommitted_rows_are_counted reachable [(env, first)] Examples.fresh).
  vm_compute. reflexivity.
Defined.

Section Bounds.
Context {P : Platform}.

Lemma ingest_batch_has_conn (env : Env) (payload : string) :
  preserves batch_has_conn (ingest env payload).
Proof.
  intros st Hinv. unfold ingest. py_unfold.
  destruct (loads payload) as [data|]; simpl; [|exact Hinv].
  destruct (store_raw_data_spec env data st) as (b & tr & fs & -> & _).
  pose proof (store_to_silver_batch env data (set_trace tr (set_files fs st))) as Hb.
  pose proof (store_to_silver_conn env data (set_trace tr (set_files fs st))) as Hc.
  pose proof (store_to_silver_true env data (set_trace tr (set_files fs st))) as Ht.
  destruct (store_to_silver env data _) as [[ok|e] s2]; simpl in *.
  - destruct ok; simpl.
    + specialize (Ht s2 eq_refl).
      destruct (status_line b true data); simpl; intros _; exact Ht.
    + destruct (status_line b false data); simpl;
        intros Hne; simpl in Hne; apply Hc, Hinv; congruence.
  - intros Hne. simpl in Hne. apply Hc, Hinv. congruence.
Qed.

(** What the commit check leaves waiting. *)
Lemma commit_check_bound (env : Env) (st : State) :
  batch_has_conn st → pending_counted st →
  flush_commit env = Done ∨ flush_rollback env = Done →
  (length (tx_rows (store (commit_check env st).2)) < batch_size)%nat ∧
  (flush_commit env = Done →
   (length (batch_buffer (commit_check env st).2) < batch_size)%nat).
Proof.
  intros Hconn Hcount Henv. unfold pending_counted, batch_size in *.
  unfold commit_check. py_unfold. unfold commit_due, batch_size.
  destruct (10 <=? length (batch_buffer st))%nat eqn:Hfull; simpl.
  - apply Nat.leb_le in Hfull.
    assert (Hb : batch_buffer st ≠ []) by (intros Hnil; rewrite Hnil in Hfull; simpl in Hfull; lia).
    specialize (Hconn Hb).
    destruct (flush_commit env) as [|e] eqn:Hm.
    + rewrite (flush_commits env st Hconn Hb Hm). simpl. split; [lia|intros _; lia].
    + rewrite (flush_commit_fails env st e Hconn Hb Hm).
      destruct Henv as [ [=] | -> ]. simpl. split; [lia|intros [=]].
  - apply Nat.leb_gt in Hfull.
    destruct (_ <? _); [|simpl; split; [lia|intros _; lia]].
    destruct (decide (db_conn st = None)) as [Hc|Hc];
      [rewrite flush_nothing by auto; simpl; split; [lia|intros _; lia]|].
    destruct (decide (batch_buffer st = [])) as [Hb|Hb];
      [rewrite flush_nothing by auto; simpl; split; [lia|intros _; lia]|].
    destruct (flush_commit env) as [|e] eqn:Hm.
    + rewrite (flush_commits env st Hc Hb Hm). simpl. split; [lia|intros _; lia].
    + rewrite (flush_commit_fails env st e Hc Hb Hm).
      destruct Henv as [ [=] | -> ]. simpl. split; [lia|intros [=]].
Qed.

Lemma commit_check_returns (env : Env) (st : State) :
  flush_commit env = Done ∨ flush_rollback env = Done →
  (commit_check env st).1 = Ret tt.
Proof.
  intros Henv. unfold commit_check. py_unfold.
  destruct (commit_due env st); [|reflexivity].
  by apply flush_batch_view.
Qed.

Lemma refresh_check_drops (env : Env) : moves drops_only (refresh_check env).
Proof.
  unfold refresh_check.
  repeat lazymatch goal with
    | |- moves _ (refresh_gold_layer _) => apply refresh_drops
    | |- _ => progress moves_by drops_only_of_pending_view
    end.
Qed.

(** X10: after a message whose status line was printed, fewer than ten inserts
    wait for a commit, provided the commit of the batch or the rollback after
    it went through; and fewer than ten readings are counted in the batch
    when it was the commit. *)
Theorem uncommitted_rows_bounded (env : Env) (payload : string) (st st1 : State) :
  (batch_buffer st ≠ [] → db_conn st ≠ None) →
  (length (tx_rows (store st)) ≤ length (batch_buffer st))%nat →
  ingest env payload st = (Ret tt, st1) →
  flush_commit env = Done ∨ flush_rollback env = Done →
  (length (tx_rows (store (on_message env payload st).2)) < batch_size)%nat ∧
  (flush_commit env = Done →
   (length (batch_buffer (on_message env payload st).2) < batch_size)%nat).
Proof.
  intros Hconn Hcount Hingest Henv.
  pose proof (ingest_batch_has_conn env payload st Hconn) as Hconn1.
  pose proof (ingest_pending env payload st Hcount) as Hcount1.
  rewrite Hingest in Hconn1, Hcount1. simpl in Hconn1, Hcount1.
  rewrite (on_message_after_ingest env payload st st1 Hingest).
  pose proof (commit_check_bound env st1 Hconn1 Hcount1 Henv) as [Hrows Hbatch].
  pose proof (commit_check_returns env st1 Henv) as Hret.
  destruct (commit_check env st1) as [[[]|e] s2]; simpl in *; [|discriminate].
  pose proof (refresh_check_drops env s2) as [Hl Hb].
  destruct (refresh_check env s2) as [[[]|e] s3]; simpl in *;
    (split; [lia|intros Hm; rewrite Hb; auto]).
Qed.

(** X11: the shutdown makes the waiting inserts durable when its commit goes
    through: the committed rows are then the rows that were visible, nothing
    is left in the transaction or in the batch.  When the commit does not go
    through, the committed rows are as before: what waited is lost with the
    connection. *)
Theorem shutdown_commits_or_loses (last : Env) (st : State) :
  (batch_buffer st ≠ [] → db_conn st ≠ None) →
  (length (tx_rows (store st)) ≤ length (batch_buffer st))%nat →
  (flush_commit last = Done →
   (shutdown last st).1 = Ret tt ∧
   silver (store (shutdown last st).2) = visible_rows (store st) ∧
   tx_rows (store (shutdown last st).2) = [] ∧
   batch_buffer (shutdown last st).2 = []) ∧
  (flush_commit last ≠ Done →
   silver (store (shutdown last st).2) = silver (store st)).
Proof.
  intros Hconn Hcount. unfold shutdown. py_unfold. simpl.
  set (st0 := mkState _ _ _ _ _ _ _ _).
  assert (Hview : db_conn st0 = db_conn st ∧ batch_buffer st0 = batch_buffer st
                  ∧ store st0 = store st) by done.
  destruct Hview as (Hc0 & Hb0 & Hs0).
  destruct (decide (batch_buffer st = [])) as [Hb|Hb].
  - rewrite flush_nothing by (right; congruence). simpl.
    rewrite Hb in Hcount. simpl in Hcount.
    assert (Hnil : tx_rows (store st) = [])
      by (destruct (tx_rows (store st)); [done|simpl in Hcount; lia]).
    unfold visible_rows. rewrite Hnil, app_nil_r.
    destruct (bool_decide (db_conn st ≠ None)); simpl; repeat split; auto.
  - specialize (Hconn Hb).
    destruct (flush_commit last) as [|e] eqn:Hm.
    + rewrite (flush_commits last st0) by congruence. simpl.
      rewrite bool_decide_eq_true_2 by exact Hconn. simpl.
      repeat split; auto. congruence.
    + rewrite (flush_commit_fails last st0 e) by congruence.
      split; [intros [=]|intros _].
      destruct (flush_rollback last); simpl; [|reflexivity].
      by destruct (bool_decide (db_conn st ≠ None)).
Qed.

End Bounds.

Lemma uncommitted_rows_bounded_witness :
  let env := Sensors.calm (Examples.after 1) (Examples.after 11) (Examples.after 11) in
  let tenth := Examples.payload_of (Examples.reading "s1" "2024-01-01T00:00:10" 10) in
  (length (tx_rows (store (on_message env tenth Examples.pending_nine).2))
   < batch_size)%nat ∧
  (flush_commit env = Done →
   (length (batch_buffer (on_message env tenth Examples.pending_nine).2)
    < batch_size)%nat).
Proof.
  intros env tenth.
  apply (uncommitted_rows_bounded env tenth Examples.pending_nine
           (ingest env tenth Examples.pending_nine).2).
  - intros _. vm_compute. discriminate.
  - vm_compute. reflexivity.
  - vm_compute. reflexivity.
  - left. reflexivity.
Defined.

Lemma shutdown_commits_or_loses_witness :
  let last := Sensors.calm (Examples.after 60) (Examples.after 60) (Examples.after 60) in
  (flush_commit last = Done →
   (shutdown last Examples.pending_two).1 = Ret tt ∧
   silver (store (shutdown last Examples.pending_two).2)
   = visible_rows (store Examples.pending_two) ∧
   tx_rows (store (shutdown last Examples.pending_two).2) = [] ∧
   batch_buffer (shutdown last Examples.pending_two).2 = []) ∧
  (flush_commit last ≠ Done →
   silver (store (shutdown last Examples.pending_two).2)
   = silver (store Examples.pending_two)).
Proof.
  intros last.
  apply (shutdown_commits_or_loses last Examples.pending_two).
  - intros _. vm_compute. discriminate.
  - vm_compute. lia.
Defined.

(** ** What becomes durable, and when *)

Lemma calls_emit_other (f : Func) (ev : Event) :
  is_call f ev = false → keeps (λ st, calls f (trace st)) (emit ev).
Proof.
  intros Hf st. unfold emit, modify. simpl. rewrite calls_app. simpl.
  rewrite Hf. lia.
Qed.

Section Durable.
Context {P : Platform}.

Lemma connect_loop_committed (tries : nat → Attempt) (remaining attempt : nat) :
  keeps committed_view (connect_loop tries attempt remaining).
Proof.
  revert attempt. induction remaining as [|rest IH]; intros attempt.
  - apply keeps_ret.
  - rewrite connect_loop_unfold. unfold open_session. frame. apply IH.
Qed.

Lemma ingest_committed (env : Env) (payload : string) :
  keeps committed_view (ingest env payload).
Proof.
  unfold ingest, store_raw_data, append_file, store_to_silver, execute_insert,
    rejected, connect_database.
  repeat lazymatch goal with
    | |- keeps _ (connect_loop _ _ _) => apply connect_loop_committed
    | |- keeps _ (match db_insert ?env with _ => _ end) =>
        destruct (db_insert env)
    | |- keeps _ (match pg_row ?t ?s ?v with _ => _ end) =>
        destruct (pg_row t s v)
    | |- _ => progress frame
    end.
Qed.

Lemma connect_loop_calls (tries : nat → Attempt) (remaining attempt : nat) :
  keeps (λ st, calls F_connect_database (trace st))
        (connect_loop tries attempt remaining).
Proof.
  revert attempt. induction remaining as [|rest IH]; intros attempt.
  - apply keeps_ret.
  - rewrite connect_loop_unfold. unfold open_session.
    repeat lazymatch goal with
      | |- keeps _ (connect_loop _ _ _) => apply IH
      | |- keeps _ (emit _) => by apply calls_emit_other
      | |- _ => progress frame_step
      end.
Qed.

Lemma connect_database_calls (tries : nat → Attempt) (st : State) :
  calls F_connect_database (trace (connect_database tries st).2)
  = S (calls F_connect_database (trace st)).
Proof.
  unfold connect_database. py_unfold. simpl.
  match goal with
  | |- context [connect_loop tries 0 max_retries ?s] =>
      rewrite (connect_loop_calls tries max_retries 0 s)
  end.
  simpl. rewrite calls_app. simpl. lia.
Qed.

Lemma refresh_check_calls (env : Env) (st : State) :
  calls F_refresh_gold_layer (trace (refresh_check env st).2)
  = (calls F_refresh_gold_layer (trace st)
     + (if refresh_due env st then 1 else 0))%nat ∧
  (refresh_due env st = false → refresh_check env st = (Ret tt, st)).
Proof.
  unfold refresh_check. py_unfold.
  destruct (refresh_due env st); simpl; [|split; [lia|done]].
  split; [|discriminate].
  pose proof (refresh_view env st) as (Hr & _).
  destruct (refresh_gold_layer env st) as [[b|e] s2]; simpl in *; lia.
Qed.

(** X12: a message makes nothing durable unless it calls [flush_batch] or
    [refresh_gold_layer]: when neither is entered while the message is
    handled, the committed rows and the committed aggregate rows are what
    they were, whatever was inserted and however the handler ended. *)
Theorem durable_only_by_flush_or_refresh (env : Env) (payload : string)
  (st : State) :
  calls F_flush_batch (trace (on_message env payload st).2)
    = calls F_flush_batch (trace st) →
  calls F_refresh_gold_layer (trace (on_message env payload st).2)
    = calls F_refresh_gold_layer (trace st) →
  silver (store (on_message env payload st).2) = silver (store st) ∧
  gold (store (on_message env payload st).2) = gold (store st).
Proof.
  intros Hflush Hrefresh.
  pose proof (ingest_committed env payload st) as Hcv.
  pose proof (ingest_schedule_view env payload st) as Hsv.
  destruct (ingest env payload st) as [[[]|e] s1] eqn:Hin; simpl in *.
  - injection Hsv as Hf0 Hr0 _.
    pose proof (on_message_flush_calls env payload st s1 Hin) as (Hf & _).
    rewrite Hflush in Hf.
    assert (Hnd : commit_due env s1 = false)
      by (destruct (commit_due env s1); [lia|done]).
    rewrite (on_message_after_ingest env payload st s1 Hin) in *.
    assert (Hcc : commit_check env s1 = (Ret tt, s1))
      by (unfold commit_check; py_unfold; by rewrite Hnd).
    rewrite Hcc in *.
    destruct (refresh_check_calls env s1) as [Hr Hnot].
    assert (Hnr : refresh_due env s1 = false).
    { destruct (refresh_due env s1); [exfalso|done].
      destruct (refresh_check env s1) as [[[]|e] s3]; simpl in *;
        rewrite ?calls_app in Hrefresh; simpl in Hrefresh; lia. }
    rewrite (Hnot Hnr). simpl. by injection Hcv as -> ->.
  - assert (Hrun : on_message env payload st
                   = (Ret tt, set_trace (trace s1 ++ [Print (ProcessingFailed e)]) s1))
      by (unfold on_message; py_unfold; by rewrite Hin).
    rewrite Hrun. simpl. by injection Hcv as -> ->.
Qed.

(** X13: a failed insert makes the silver writer connect again exactly when the
    text of the error contains [connection], in whatever case.  After any
    other error it prints the error and returns [False] with the session it
    had; when the error is one of the driver, the open transaction is aborted
    and the rows that waited in it are lost, otherwise it is as it was. *)
Theorem reconnect_on_connection_errors (env : Env) (data : json) (st : State)
  (e : Exn) (time sensor value : json) :
  db_conn st ≠ None → db_cursor st ≠ None →
  getitem data "dt" = Ret time → getitem data "id" = Ret sensor →
  getitem data "value" = Ret value →
  db_insert env = Fails e →
  (store_to_silver env data st).1 ≠ Ret true ∧
  if PyStr.contains "connection" (PyStr.lower (exn_text e))
  then calls F_connect_database (trace (store_to_silver env data st).2)
       = S (calls F_connect_database (trace st))
  else store_to_silver env data st
       = (Ret false,
          set_trace (trace st ++ [Print (SilverError e)])
            (if is_database_error e
             then set_store (store_abort (store st)) st
             else st)).
Proof.
  intros Hc Hk Ht Hs Hv Hins.
  unfold store_to_silver, execute_insert, rejected. py_unfold. simpl.
  rewrite (bool_decide_eq_false_2 _ Hc), (bool_decide_eq_false_2 _ Hk). simpl.
  rewrite Ht, Hs, Hv, Hins. simpl.
  destruct (is_database_error e); simpl;
    (destruct (PyStr.contains _ _); simpl; [|split; [discriminate|reflexivity]]);
    match goal with
    | |- context [connect_database (db_reconnect env) ?s] =>
        pose proof (connect_database_calls (db_reconnect env) s) as Hcalls;
        destruct (connect_database (db_reconnect env) s) as [[b|e'] s2]
    end; simpl in *;
    (split; [discriminate|]); rewrite Hcalls, calls_app; simpl; lia.
Qed.

(** X14: a reading whose value does not format as an integer is written to the
    raw file, inserted and counted like any other, and the handler then
    fails at the status line: neither the commit check nor the refresh check
    is reached, however full the batch and whatever the clocks. *)
Theorem unprintable_reading_skips_checks (env : Env) (payload : string)
  (data : json) (i t : string) (v : json) (e : Exn)
  (st s0 s2 : State) (raw_ok silver_ok : bool) :
  loads payload = Some data →
  reading_of data = Some (i, t, v) → format_3d v = Raise e →
  store_raw_data env data st = (Ret raw_ok, s0) →
  store_to_silver env data s0 = (Ret silver_ok, s2) →
  let counted := if silver_ok
                 then set_batch_buffer (batch_buffer s2 ++ [data]) s2 else s2 in
  on_message env payload st
  = (Ret tt, set_trace (trace counted ++ [Print (ProcessingFailed e)]) counted) ∧
  calls F_flush_batch (trace (on_message env payload st).2)
  = calls F_flush_batch (trace st) ∧
  calls F_refresh_gold_layer (trace (on_message env payload st).2)
  = calls F_refresh_gold_layer (trace st).
Proof.
  intros Hl Hr Hv Hraw Hsilver counted.
  assert (Hline : status_line raw_ok silver_ok data = Raise e).
  { unfold reading_of in Hr. unfold status_line, and_then.
    destruct (getitem data "id") as [[]|]; try discriminate.
    destruct (getitem data "dt") as [[]|]; try discriminate.
    destruct (getitem data "value"); try discriminate.
    injection Hr as <- <- <-. simpl. by rewrite Hv. }
  assert (Hin : ingest env payload st
                = (Raise e, counted)).
  { unfold ingest. py_unfold. rewrite Hl. simpl. rewrite Hraw. simpl.
    rewrite Hsilver. subst counted. destruct silver_ok; simpl; by rewrite Hline. }
  assert (Hrun : on_message env payload st
                 = (Ret tt, set_trace (trace counted ++ [Print (ProcessingFailed e)])
                              counted))
    by (unfold on_message; py_unfold; by rewrite Hin).
  split; [exact Hrun|].
  pose proof (ingest_schedule_view env payload st) as Hsv.
  rewrite Hin in Hsv. simpl in Hsv. injection Hsv as Hf Hg _.
  rewrite Hrun. simpl. rewrite !calls_app. simpl. lia.
Qed.

(** X15: the refresh gate reads the time since the last pass modulo whole days:
    [d] days and less than sixty seconds after it no pass is run, however
    large [d]; [d] days and sixty seconds or more after it one is.  A clock
    set back counts as a negative number of days. *)
Theorem refresh_gate_wraps_daily (env : Env) (st : State) (d : Z) :
  0 ≤ now env - last_gold_refresh st - d * (86400 * ticks_per_second)
    < 86400 * ticks_per_second →
  (now env - last_gold_refresh st - d * (86400 * ticks_per_second)
     < refresh_seconds * ticks_per_second →
   refresh_check env st = (Ret tt, st)) ∧
  (refresh_seconds * ticks_per_second
     ≤ now env - last_gold_refresh st - d * (86400 * ticks_per_second) →
   calls F_refresh_gold_layer (trace (refresh_check env st).2)
   = S (calls F_refresh_gold_layer (trace st))).
Proof.
  intros Hrange.
  set (rest := now env - last_gold_refresh st - d * (86400 * ticks_per_second)) in *.
  assert (Hdue : refresh_due env st = true
                 ↔ refresh_seconds * ticks_per_second ≤ rest).
  { unfold refresh_due, timedelta_seconds. rewrite Z.leb_le.
    replace (now env - last_gold_refresh st)
      with (rest + d * 86400 * ticks_per_second) by (subst rest; lia).
    unfold ticks_per_second, refresh_seconds in *.
    rewrite Z.div_add by lia. rewrite Z.mod_add by lia.
    rewrite Z.mod_small
      by (split; [apply Z.div_pos; lia|apply Z.div_lt_upper_bound; lia]).
    split; intros H.
    - pose proof (Z.mul_div_le rest 1000000). lia.
    - apply Z.div_le_lower_bound; lia. }
  destruct (refresh_check_calls env st) as [Hcalls Hnot]. split.
  - intros Hlt. apply Hnot. destruct (refresh_due env st); [|done].
    destruct Hdue as [Hdue _]. specialize (Hdue eq_refl). lia.
  - intros Hge. rewrite Hcalls. destruct Hdue as [_ Hdue].
    rewrite (Hdue Hge). lia.
Qed.

(** X16: no message ends the loop: whatever the payload and whatever fails while
    it is handled, the handler returns and the next message is taken. *)
Theorem loop_survives_every_message (inbox : list (Env * string)) (st : State) :
  (loop_forever inbox st).1 = Ret tt.
Proof.
  revert st. induction inbox as [|[env payload] rest IH]; intros st; simpl;
    [reflexivity|].
  py_unfold. unfold on_message. py_unfold.
  destruct ((ingest env payload;; commit_check env;; refresh_check env) st)
    as [[[]|e] s1] eqn:Hbody.
  - unfold mbind, Py_bind in Hbody. rewrite Hbody. apply IH.
  - unfold mbind, Py_bind in Hbody. rewrite Hbody. apply IH.
Qed.

End Durable.

Lemma durable_only_by_flush_or_refresh_witness :
  let env := Sensors.calm (Examples.after 1) (Examples.after 11) (Examples.after 11) in
  let third := Examples.payload_of (Examples.reading "s1" "2024-01-01T00:00:55" 9) in
  silver (store (on_message env third Examples.pending_two).2)
  = silver (store Examples.pending_two) ∧
  gold (store (on_message env third Examples.pending_two).2)
  = gold (store Examples.pending_two).
Proof.
  intros env third.
  apply (durable_only_by_flush_or_refresh env third Examples.pending_two);
    vm_compute; reflexivity.
Defined.

Lemma reconnect_on_connection_errors_witness :
  let env := insert_down Examples.deadlock (Examples.after 1) in
  let data := Examples.reading "s1" "2024-01-01T00:00:55" 9 in
  let st := Examples.pending_two in
  (store_to_silver env data st).1 ≠ Ret true ∧
  if PyStr.contains "connection" (PyStr.lower (exn_text Examples.deadlock))
  then calls F_connect_database (trace (store_to_silver env data st).2)
       = S (calls F_connect_database (trace st))
  else store_to_silver env data st
       = (Ret false,
          set_trace (trace st ++ [Print (SilverError Examples.deadlock)])
            (if is_database_error Examples.deadlock
             then set_store (store_abort (store st)) st
             else st)).
Proof.
  intros env data st.
  apply (reconnect_on_connection_errors env data st Examples.deadlock
           (JStr "2024-01-01T00:00:55") (JStr "s1") (JInt 9));
    first [discriminate|reflexivity].
Defined.

Lemma unprintable_reading_skips_checks_witness :
  let env := Sensors.calm (Examples.after 100) (Examples.after 100) (Examples.after 100) in
  let payload := Examples.payload_of worded in
  let st := Examples.pending_nine in
  let s0 := (store_raw_data env worded st).2 in
  let s2 := (store_to_silver env worded s0).2 in
  on_message env payload st
  = (Ret tt, set_trace (trace s2 ++ [Print (ProcessingFailed
                                       (mkExn ValueError "Unknown format code 'd'"))]) s2) ∧
  calls F_flush_batch (trace (on_message env payload st).2)
  = calls F_flush_batch (trace st) ∧
  calls F_refresh_gold_layer (trace (on_message env payload st).2)
  = calls F_refresh_gold_layer (trace st).
Proof.
  intros env payload st s0 s2.
  apply (unprintable_reading_skips_checks env payload worded
           "s1" "2024-01-01T00:00:10" (JStr "n/a")
           (mkExn ValueError "Unknown format code 'd'") st s0 s2 true false);
    vm_compute; reflexivity.
Defined.

Lemma refresh_gate_wraps_daily_witness :
  let env := Sensors.calm (Examples.after 86430) (Examples.after 86430)
               (Examples.after 86430) in
  (now env - last_gold_refresh Examples.fresh - 1 * (86400 * ticks_per_second)
     < refresh_seconds * ticks_per_second →
   refresh_check env Examples.fresh = (Ret tt, Examples.fresh)) ∧
  (refresh_seconds * ticks_per_second
     ≤ now env - last_gold_refresh Examples.fresh - 1 * (86400 * ticks_per_second) →
   calls F_refresh_gold_layer (trace (refresh_check env Examples.fresh).2)
   = S (calls F_refresh_gold_layer (trace Examples.fresh))).
Proof.
  intros env.
  apply (refresh_gate_wraps_daily env Examples.fresh 1).
  vm_compute. split; [discriminate|reflexivity].
Defined.

(** ** The refresh of the variant *)

Section VariantRefresh.
Context {P : Platform}.
Variable blank : GoldRow.

(** X17: a pass of the variant that completes writes the mean the query of the
    root script computes for the bucket, and nothing else: the other columns
    of a row that was there keep what they held, those of a new row are the
    defaults of the table; a bucket with no row in the window keeps its
    row. *)
Theorem variant_refresh_writes_mean_only (env : Env) (st : State)
  (key : Z * string) :
  db_conn st ≠ None → db_cursor st ≠ None →
  gold_execute env = Done → gold_commit env = Done →
  (DataIngestion.refresh_gold_layer blank env st).1 = Ret true ∧
  gold (store (DataIngestion.refresh_gold_layer blank env st).2) !! key
  = match select_gold (db_now env) (visible_rows (store st)) !! key with
    | Some new =>
        Some (DataIngestion.with_mean (val_mean new)
                (default blank (visible_gold (store st) !! key)))
    | None => visible_gold (store st) !! key
    end.
Proof.
  intros Hc Hk Hx Hm. unfold DataIngestion.refresh_gold_layer. py_unfold. simpl.
  rewrite (bool_decide_eq_false_2 _ Hc), (bool_decide_eq_false_2 _ Hk). simpl.
  rewrite Hx, Hm. simpl. split; [reflexivity|].
  unfold visible_gold at 1. simpl.
  unfold DataIngestion.upsert_mean, DataIngestion.select_mean, select_gold.
  rewrite lookup_merge, !lookup_fmap.
  destruct (group_rows _ !! key) as [a|]; simpl;
    destruct (visible_gold (store st) !! key); reflexivity.
Qed.

End VariantRefresh.

Lemma variant_refresh_writes_mean_only_witness :
  let env := Sensors.calm (Examples.after 60) (Examples.after 60) (Examples.after 60) in
  let st := Examples.online Examples.two_rows in
  (DataIngestion.refresh_gold_layer unset env st).1 = Ret true ∧
  gold (store (DataIngestion.refresh_gold_layer unset env st).2)
    !! Examples.first_minute
  = match select_gold (db_now env) (visible_rows (store st))
            !! Examples.first_minute with
    | Some new =>
        Some (DataIngestion.with_mean (val_mean new)
                (default unset (visible_gold (store st) !! Examples.first_minute)))
    | None => visible_gold (store st) !! Examples.first_minute
    end.
Proof.
  intros env st.
  apply (variant_refresh_writes_mean_only unset env st Examples.first_minute);
    first [discriminate|reflexivity].
Defined.

Lemma variant_refresh_gated_by_last_attempt_witness :
  let env := Sensors.calm (Examples.after 1) (Examples.after 86430)
               (Examples.after 86430) in
  let payload := Examples.payload_of (Examples.reading "s1" "2024-01-02T00:00:30" 9) in
  let st := Examples.online Examples.two_rows in
  (refresh_seconds * ticks_per_second ≤ now env - last_gold_refresh st →
   calls F_refresh_gold_layer
     (trace (DataIngestion.on_message unset env payload st).2)
     = S (calls F_refresh_gold_layer (trace st)) ∧
   last_gold_refresh (DataIngestion.on_message unset env payload st).2 = now env) ∧
  (now env - last_gold_refresh st < refresh_seconds * ticks_per_second →
   calls F_refresh_gold_layer
     (trace (DataIngestion.on_message unset env payload st).2)
     = calls F_refresh_gold_layer (trace st) ∧
   last_gold_refresh (DataIngestion.on_message unset env payload st).2
     = last_gold_refresh st).
Proof.
  intros env payload st.
  apply (variant_refresh_gated_by_last_attempt unset env payload st
           (ingest env payload st).2);
    vm_compute; reflexivity.
Defined.

(** ** The raw files and the database *)

Section Capture.
Context {P : Platform}.

Lemma store_raw_data_files_of (env1 env2 : Env) (data : json) (st1 st2 : State) :
  files st1 = files st2 → fs_append env1 = fs_append env2 →
  files (store_raw_data env1 data st1).2 = files (store_raw_data env2 data st2).2.
Proof.
  intros Hfiles Hfs. unfold store_raw_data, append_file. py_unfold. simpl.
  destruct (getitem data "id") as [id|e]; simpl; [|exact Hfiles].
  destruct (py_replace id); simpl; [|exact Hfiles].
  destruct (getitem data "dt") as [timestamp|e]; simpl; [|exact Hfiles].
  destruct (py_date timestamp) as [date|e]; simpl; [|exact Hfiles].
  rewrite Hfs. destruct (fs_append env2); simpl; [|exact Hfiles].
  by rewrite Hfiles.
Qed.

(** After the raw writer, nothing in the handler touches the files. *)
Lemma on_message_files (env : Env) (payload : string) (st : State) :
  files (on_message env payload st).2
  = match loads payload with
    | Some data => files (store_raw_data env data st).2
    | None => files st
    end.
Proof.
  destruct (loads payload) as [data|] eqn:Hl;
    [|unfold on_message, ingest; py_unfold; by rewrite Hl].
  destruct (store_raw_data_spec env data st) as (b & tr & fs & Hraw & _).
  assert (Hrun : on_message env payload st =
    try_except any_exception
      ((silver_ok ← store_to_silver env data;
        (if silver_ok
         then modify (λ st, set_batch_buffer (batch_buffer st ++ [data]) st)
         else mret tt);;
        line ← lift (status_line b silver_ok data);
        emit (Print line));;
       commit_check env;; refresh_check env)
      (λ e, emit (Print (ProcessingFailed e)))
      (set_trace tr (set_files fs st))).
  { unfold on_message, ingest. py_unfold. rewrite Hl. simpl. by rewrite Hraw. }
  rewrite Hrun, Hraw.
  match goal with
  | |- files (?m ?s).2 = _ => assert (Hkeep : keeps files m); [|apply Hkeep]
  end.
  unfold commit_check, refresh_check.
  repeat lazymatch goal with
    | |- keeps _ (store_to_silver _ _) => apply store_to_silver_files
    | |- keeps _ (flush_batch _) => apply flush_batch_files
    | |- keeps _ (refresh_gold_layer _) => apply refresh_files
    | |- _ => progress frame
    end.
Qed.

(** X19: what a message leaves in the raw files does not depend on the database:
    with the same files before and the same answer of the file system, the
    files after are the same whether the process is connected or not and
    whatever the store answers. *)
Theorem capture_independent_of_database (env1 env2 : Env) (payload : string)
  (st1 st2 : State) :
  files st1 = files st2 → fs_append env1 = fs_append env2 →
  files (on_message env1 payload st1).2 = files (on_message env2 payload st2).2.
Proof.
  intros Hfiles Hfs. rewrite !on_message_files.
  destruct (loads payload) as [data|]; [|exact Hfiles].
  by apply store_raw_data_files_of.
Qed.

End Capture.

Lemma capture_independent_of_database_witness :
  let env1 := Sensors.calm (Examples.after 11) (Examples.after 11) (Examples.after 11) in
  let env2 := Examples.failing (Examples.after 70) (Examples.after 70) (Examples.after 70) in
  let payload := Examples.payload_of (Examples.reading "s1" "2024-01-01T00:00:10" 5) in
  files (on_message env1 payload Examples.fresh).2
  = files (on_message env2 payload Examples.pending_two).2.
Proof.
  intros env1 env2 payload.
  apply (capture_independent_of_database env1 env2 payload
           Examples.fresh Examples.pending_two); reflexivity.
Defined.

(** ** The database and the raw files *)

Lemma alike_ret {A} (a : A) : alike (mret a : Py A) (mret a).
Proof. by intros s1 s2 Hc. Qed.

Lemma alike_lift {A} (r : Result A) : alike (lift r) (lift r).
Proof. by intros s1 s2 Hc. Qed.

Lemma alike_raise {A} (e : Exn) : alike (raise e : Py A) (raise e).
Proof. by intros s1 s2 Hc. Qed.

Lemma alike_external (o : Outcome) : alike (external o) (external o).
Proof. destruct o; by intros s1 s2 Hc. Qed.

Lemma alike_modify (f1 f2 : State → State) :
  (∀ s1 s2, core s1 = core s2 → core (f1 s1) = core (f2 s2)) →
  alike (modify f1) (modify f2).
Proof. intros Hf s1 s2 Hc. split; [reflexivity|by apply Hf]. Qed.

Lemma alike_emit (ev1 ev2 : Event) : alike (emit ev1) (emit ev2).
Proof. apply alike_modify. by intros s1 s2 Hc. Qed.

Lemma alike_bind {A B} (m1 m2 : Py A) (k1 k2 : A → Py B) :
  alike m1 m2 → (∀ a, alike (k1 a) (k2 a)) → alike (m1 ≫= k1) (m2 ≫= k2).
Proof.
  intros Hm Hk s1 s2 Hc. unfold mbind, Py_bind.
  destruct (Hm s1 s2 Hc) as [Hr Hc'].
  destruct (m1 s1) as [[a|e] s1'], (m2 s2) as [[a'|e'] s2']; simpl in *;
    try discriminate.
  - injection Hr as <-. by apply Hk.
  - injection Hr as <-. by split.
Qed.

Lemma alike_try {A} (caught : Exn → bool) (m1 m2 : Py A) (h1 h2 : Exn → Py A) :
  alike m1 m2 → (∀ e, alike (h1 e) (h2 e)) →
  alike (try_except caught m1 h1) (try_except caught m2 h2).
Proof.
  intros Hm Hh s1 s2 Hc. unfold try_except.
  destruct (Hm s1 s2 Hc) as [Hr Hc'].
  destruct (m1 s1) as [[a|e] s1'], (m2 s2) as [[a'|e'] s2']; simpl in *;
    try discriminate.
  - by split.
  - injection Hr as <-. destruct (caught e); [by apply Hh|by split].
Qed.

Lemma alike_get {B} (k1 k2 : State → Py B) :
  (∀ s1 s2, core s1 = core s2 → alike (k1 s1) (k2 s2)) →
  alike (get ≫= k1) (get ≫= k2).
Proof. intros Hk s1 s2 Hc. unfold mbind, Py_bind, get. by apply Hk. Qed.

Lemma alike_if {A} (b : bool) (m1 m2 m1' m2' : Py A) :
  alike m1 m2 → alike m1' m2' →
  alike (if b then m1 else m1') (if b then m2 else m2').
Proof. by destruct b. Qed.

Lemma core_fields (s1 s2 : State) :
  core s1 = core s2 →
  db_conn s1 = db_conn s2 ∧ db_cursor s1 = db_cursor s2 ∧
  last_gold_refresh s1 = last_gold_refresh s2 ∧
  batch_buffer s1 = batch_buffer s2 ∧
  last_commit_time s1 = last_commit_time s2 ∧ store s1 = store s2.
Proof. unfold core. intros [= -> -> -> -> -> ->]. done. Qed.

Ltac same_fields :=
  let s1 := fresh "s1" in
  let s2 := fresh "s2" in
  let Hc := fresh "Hc" in
  intros s1 s2 Hc; apply core_fields in Hc;
  destruct Hc as (? & ? & ? & ? & ? & ?); unfold core; simpl; congruence.

Ltac relate_step :=
  lazymatch goal with
  | |- alike (mret _) (mret _) => apply alike_ret
  | |- alike (get ≫= _) (get ≫= _) =>
      apply alike_get;
      let s1 := fresh "s1" in
      let s2 := fresh "s2" in
      let Hc := fresh "Hc" in
      intros s1 s2 Hc;
      let Hf := fresh "Hf" in
      pose proof (core_fields s1 s2 Hc) as Hf;
      destruct Hf as (? & ? & ? & ? & ? & ?)
  | |- alike (mbind _ _) (mbind _ _) => apply alike_bind; [|intros ?]
  | |- alike (try_except _ _ _) (try_except _ _ _) =>
      apply alike_try; [|intros ?]
  | |- alike (lift _) (lift _) => apply alike_lift
  | |- alike (raise _) (raise _) => apply alike_raise
  | |- alike (external _) (external _) => apply alike_external
  | |- alike (emit _) (emit _) => apply alike_emit
  | |- alike (modify _) (modify _) => apply alike_modify; same_fields
  | |- alike (if ?b then _ else _) (if ?b then _ else _) => apply alike_if
  end.

Ltac relate := repeat relate_step.

Section Independence.
Context {P : Platform}.

Lemma connect_loop_alike (tries : nat → Attempt) (remaining attempt : nat) :
  alike (connect_loop tries attempt remaining)
        (connect_loop tries attempt remaining).
Proof.
  revert attempt. induction remaining as [|rest IH]; intros attempt.
  - apply alike_ret.
  - rewrite connect_loop_unfold. unfold open_session. relate. apply IH.
Qed.

Lemma store_to_silver_alike (env : Env) (data : json) :
  alike (store_to_silver env data) (store_to_silver env data).
Proof.
  unfold store_to_silver, execute_insert, connect_database.
  apply alike_try; [|intros e].
  - relate_step.
    replace (db_conn s1) with (db_conn s2) by done.
    replace (db_cursor s1) with (db_cursor s2) by done.
    relate. destruct (db_insert env); [destruct (pg_row _ _ _)|];
      unfold rejected; relate.
  - relate. apply connect_loop_alike.
Qed.

Lemma flush_batch_alike (env : Env) :
  alike (flush_batch env) (flush_batch env).
Proof.
  unfold flush_batch. relate_step; [apply alike_emit|]. relate_step.
  replace (db_conn s1) with (db_conn s2) by done.
  replace (batch_buffer s1) with (batch_buffer s2) by done.
  relate.
Qed.

Lemma refresh_gold_layer_alike (env : Env) :
  alike (refresh_gold_layer env) (refresh_gold_layer env).
Proof.
  unfold refresh_gold_layer. relate_step; [apply alike_emit|].
  apply alike_try; [|intros e; relate].
  relate_step.
  replace (db_conn s1) with (db_conn s2) by done.
  replace (db_cursor s1) with (db_cursor s2) by done.
  relate.
Qed.

Lemma status_alike (raw_ok raw_ok' silver_ok : bool) (data : json) :
  alike (lift (status_line raw_ok silver_ok data) ≫= λ line, emit (Print line))
        (lift (status_line raw_ok' silver_ok data) ≫= λ line, emit (Print line)).
Proof.
  intros s1 s2 Hc. py_unfold. unfold status_line, and_then.
  destruct (getitem data "id") as [sensor|]; simpl; [|by split].
  destruct (format_10s sensor); simpl; [|by split].
  destruct (getitem data "dt") as [clock|]; simpl; [|by split].
  destruct (slice_11_19 clock); simpl; [|by split].
  destruct (getitem data "value") as [value|]; simpl; [|by split].
  destruct (format_3d value); simpl; by split.
Qed.

(** The handler once the raw writer is done with its answer [raw_ok]. *)
Lemma handler_alike (env : Env) (data : json) (raw_ok raw_ok' : bool) :
  alike
    (try_except any_exception
       ((silver_ok ← store_to_silver env data;
         (if silver_ok
          then modify (λ st, set_batch_buffer (batch_buffer st ++ [data]) st)
          else mret tt);;
         line ← lift (status_line raw_ok silver_ok data);
         emit (Print line));;
        commit_check env;; refresh_check env)
       (λ e, emit (Print (ProcessingFailed e))))
    (try_except any_exception
       ((silver_ok ← store_to_silver env data;
         (if silver_ok
          then modify (λ st, set_batch_buffer (batch_buffer st ++ [data]) st)
          else mret tt);;
         line ← lift (status_line raw_ok' silver_ok data);
         emit (Print line));;
        commit_check env;; refresh_check env)
       (λ e, emit (Print (ProcessingFailed e)))).
Proof.
  apply alike_try; [|intros e; apply alike_emit].
  apply alike_bind; [|intros _; apply alike_bind; [|intros _]].
  - apply alike_bind; [apply store_to_silver_alike|intros silver_ok].
    apply alike_bind; [relate|intros _]. apply status_alike.
  - unfold commit_check. relate_step.
    replace (commit_due env s1) with (commit_due env s2)
      by (unfold commit_due; congruence).
    apply alike_if; [apply flush_batch_alike|apply alike_ret].
  - unfold refresh_check. relate_step.
    replace (refresh_due env s1) with (refresh_due env s2)
      by (unfold refresh_due; congruence).
    apply alike_if; [|apply alike_ret].
    apply alike_bind; [apply refresh_gold_layer_alike|intros _]. relate.
Qed.

(** X20: what a message does to the database, the batch and the two clocks does
    not depend on the raw files: from states that agree on the globals and
    the store, it leaves them the same whether the write of the raw file
    goes through or not and whatever the files hold. *)
Theorem database_independent_of_capture (env : Env) (o : Outcome)
  (payload : string) (st1 st2 : State) :
  core st1 = core st2 →
  core (on_message env payload st1).2
  = core (on_message (set_fs_append o env) payload st2).2.
Proof.
  intros Hc.
  destruct (loads payload) as [data|] eqn:Hl.
  - destruct (store_raw_data_spec env data st1) as (b1 & tr1 & fs1 & Hraw1 & _).
    destruct (store_raw_data_spec (set_fs_append o env) data st2)
      as (b2 & tr2 & fs2 & Hraw2 & _).
    assert (Hrun1 : on_message env payload st1 =
      try_except any_exception
        ((silver_ok ← store_to_silver env data;
          (if silver_ok
           then modify (λ st, set_batch_buffer (batch_buffer st ++ [data]) st)
           else mret tt);;
          line ← lift (status_line b1 silver_ok data);
          emit (Print line));;
         commit_check env;; refresh_check env)
        (λ e, emit (Print (ProcessingFailed e)))
        (set_trace tr1 (set_files fs1 st1))).
    { unfold on_message, ingest. py_unfold. rewrite Hl. simpl. by rewrite Hraw1. }
    assert (Hrun2 : on_message (set_fs_append o env) payload st2 =
      try_except any_exception
        ((silver_ok ← store_to_silver env data;
          (if silver_ok
           then modify (λ st, set_batch_buffer (batch_buffer st ++ [data]) st)
           else mret tt);;
          line ← lift (status_line b2 silver_ok data);
          emit (Print line));;
         commit_check env;; refresh_check env)
        (λ e, emit (Print (ProcessingFailed e)))
        (set_trace tr2 (set_files fs2 st2))).
    { unfold on_message, ingest. py_unfold. rewrite Hl. simpl. by rewrite Hraw2. }
    rewrite Hrun1, Hrun2. by apply handler_alike.
  - unfold on_message, ingest. py_unfold. rewrite Hl. simpl. exact Hc.
Qed.

End Independence.

Lemma database_independent_of_capture_witness :
  let env := Sensors.calm (Examples.after 1) (Examples.after 11) (Examples.after 11) in
  let payload := Examples.payload_of (Examples.reading "s1" "2024-01-01T00:00:55" 9) in
  core (on_message env payload Examples.pending_two).2
  = core (on_message (set_fs_append (Fails disk_full) env) payload
            Examples.pending_two).2.
Proof.
  intros env payload.
  apply (database_independent_of_capture env (Fails disk_full) payload
           Examples.pending_two Examples.pending_two).
  reflexivity.
Defined.

(** ** Records in a raw file *)

Section Records.
Context {P : Platform}.

(** X21: two readings whose file names agree, the same sensor on the same day or
    two sensors whose ids differ only by a space for an underscore, are in
    one raw file in the order they arrived, after what the file held. *)
Theorem captures_append_in_order (env1 env2 : Env) (p1 p2 : string)
  (d1 d2 : json) (i1 i2 t1 t2 date : string) (st : State) :
  loads p1 = Some d1 → loads p2 = Some d2 →
  getitem d1 "id" = Ret (JStr i1) → getitem d1 "dt" = Ret (JStr t1) →
  getitem d2 "id" = Ret (JStr i2) → getitem d2 "dt" = Ret (JStr t2) →
  fromisoformat_date t1 = Some date → fromisoformat_date t2 = Some date →
  PyStr.replace_space i1 = PyStr.replace_space i2 →
  fs_append env1 = Done → fs_append env2 = Done →
  files (on_message env2 p2 (on_message env1 p1 st).2).2
    !! partition_file date (PyStr.replace_space i1)
  = Some ((default "" (files st !! partition_file date (PyStr.replace_space i1))
           +:+ (dumps d1 +:+ String PyStr.newline ""))
          +:+ (dumps d2 +:+ String PyStr.newline "")).
Proof.
  intros Hl1 Hl2 Hi1 Ht1 Hi2 Ht2 Hd1 Hd2 Hname Hfs1 Hfs2.
  rewrite on_message_files, Hl2.
  rewrite (store_raw_data_writes env2 d2 _ i2 t2 date Hi2 Ht2 Hd2 Hfs2).
  simpl. rewrite <- Hname, lookup_insert_eq. f_equal. f_equal.
  rewrite on_message_files, Hl1.
  rewrite (store_raw_data_writes env1 d1 _ i1 t1 date Hi1 Ht1 Hd1 Hfs1).
  simpl. by rewrite lookup_insert_eq.
Qed.

(** X22: every raw file ends with a newline after the startup and any sequence of
    messages, when it did before: no record is left without its end of
    line. *)
Theorem raw_files_stay_whole_lines (boot : BootEnv) (inbox : list (Env * string))
  (st : State) (path text : string) :
  (∀ path text, files st !! path = Some text → PyStr.terminated text = true) →
  files ((startup boot;; loop_forever inbox) st).2 !! path = Some text →
  PyStr.terminated text = true.
Proof.
  intros Hst. revert path text.
  change (whole_files ((startup boot;; loop_forever inbox) st).2).
  revert st Hst. change (preserves whole_files (startup boot;; loop_forever inbox)).
  apply preserves_bind; [|intros _; apply loop_forever_preserves, on_message_whole_files].
  apply keeps_files_preserves. unfold startup, setup_storage.
  repeat lazymatch goal with
    | |- keeps _ (connect_database _) => apply connect_database_files
    | |- _ => progress frame
    end.
Qed.

(** X23: after a commit that failed and was rolled back the rows that waited are
    gone but still counted: the next commit that goes through writes none of
    them and reports all of them as committed. *)
Theorem failed_commit_rows_lost_yet_reported (env1 env2 : Env) (st : State)
  (e : Exn) :
  db_conn st ≠ None → batch_buffer st ≠ [] →
  flush_commit env1 = Fails e → flush_rollback env1 = Done →
  flush_commit env2 = Done →
  silver (store (flush_batch env2 (flush_batch env1 st).2).2) = silver (store st) ∧
  batch_buffer (flush_batch env2 (flush_batch env1 st).2).2 = [] ∧
  last (trace (flush_batch env2 (flush_batch env1 st).2).2)
  = Some (Print (SilverCommitted (length (batch_buffer st)))).
Proof.
  intros Hc Hb Hm1 Hr1 Hm2.
  rewrite (flush_commit_fails env1 st e Hc Hb Hm1), Hr1. simpl.
  rewrite flush_commits by done. simpl.
  unfold visible_rows. simpl. rewrite app_nil_r.
  repeat split.
  change [Call F_flush_batch; Print (SilverCommitted (length (batch_buffer st)))]
    with ([Call F_flush_batch]
          ++ [Print (SilverCommitted (length (batch_buffer st)))]).
  rewrite app_assoc. apply last_snoc.
Qed.

End Records.

Lemma captures_append_in_order_witness :
  let env := Sensors.calm (Examples.after 1) (Examples.after 11) (Examples.after 11) in
  let d1 := Examples.reading "s 1" "2024-01-01T00:00:10" 5 in
  let d2 := Examples.reading "s_1" "2024-01-01T00:00:20" 6 in
  files (on_message env (Examples.payload_of d2)
           (on_message env (Examples.payload_of d1) Examples.fresh).2).2
    !! partition_file "2024-01-01" (PyStr.replace_space "s 1")
  = Some ((default "" (files Examples.fresh
                         !! partition_file "2024-01-01" (PyStr.replace_space "s 1"))
           +:+ (dumps d1 +:+ String PyStr.newline ""))
          +:+ (dumps d2 +:+ String PyStr.newline "")).
Proof.
  intros env d1 d2.
  apply (captures_append_in_order env env (Examples.payload_of d1)
           (Examples.payload_of d2) d1 d2 "s 1" "s_1"
           "2024-01-01T00:00:10" "2024-01-01T00:00:20" "2024-01-01"
           Examples.fresh); vm_compute; reflexivity.
Defined.

Lemma raw_files_stay_whole_lines_witness :
  let env := Sensors.calm (Examples.after 1) (Examples.after 11) (Examples.after 11) in
  let first := Examples.payload_of (Examples.reading "s1" "2024-01-01T00:00:10" 5) in
  PyStr.terminated (first +:+ String PyStr.newline "") = true.
Proof.
  intros env first.
  apply (raw_files_stay_whole_lines reachable [(env, first)] Examples.fresh
           "/data/raw/2024-01-01_s1.jsonl").
  - intros path text Hin. vm_compute in Hin. discriminate.
  - vm_compute. reflexivity.
Defined.

Lemma failed_commit_rows_lost_yet_reported_witness :
  let env1 := commit_down Examples.deadlock (Examples.after 6) in
  let env2 := Sensors.calm (Examples.after 12) (Examples.after 12) (Examples.after 12) in
  let st := Examples.pending_two in
  silver (store (flush_batch env2 (flush_batch env1 st).2).2) = silver (store st) ∧
  batch_buffer (flush_batch env2 (flush_batch env1 st).2).2 = [] ∧
  last (trace (flush_batch env2 (flush_batch env1 st).2).2)
  = Some (Print (SilverCommitted (length (batch_buffer st)))).
Proof.
  intros env1 env2 st.
  apply (failed_commit_rows_lost_yet_reported env1 env2 st Examples.deadlock);
    first [discriminate|reflexivity].
Defined.

(** ** A reading that goes through *)

Section Accepted.
Context {P : Platform}.

(** X24: with a connection and an insert that goes through, a reading with an
    integer value adds exactly its row to the open transaction and itself to
    the batch, commits nothing, and is reported on the status line with the
    silver flag set and the bronze flag as the raw writer answered. *)
Theorem reading_inserted_and_counted (env : Env) (payload : string) (data : json)
  (i t : string) (n : Z) (r : Row) (st : State) :
  loads payload = Some data → reading_of data = Some (i, t, JInt n) →
  db_conn st ≠ None → db_cursor st ≠ None → db_insert env = Done →
  pg_row (JStr t) (JStr i) (JInt n) = Some r →
  ∃ raw_ok st1,
    (store_raw_data env data st).1 = Ret raw_ok ∧
    ingest env payload st = (Ret tt, st1) ∧
    tx_rows (store st1) = tx_rows (store st) ++ [r] ∧
    silver (store st1) = silver (store st) ∧
    batch_buffer st1 = batch_buffer st ++ [data] ∧
    last (trace st1)
    = Some (Print (Status raw_ok true i (JStr (String.substring 11 8 t)) n)).
Proof.
  intros Hl Hr Hc Hk Hins Hrow.
  assert (Hfields : getitem data "id" = Ret (JStr i)
                    ∧ getitem data "dt" = Ret (JStr t)
                    ∧ getitem data "value" = Ret (JInt n)).
  { unfold reading_of in Hr.
    destruct (getitem data "id") as [[]|]; try discriminate.
    destruct (getitem data "dt") as [[]|]; try discriminate.
    destruct (getitem data "value"); try discriminate.
    by injection Hr as -> -> ->. }
  destruct Hfields as (Hi & Ht & Hv).
  destruct (store_raw_data_spec env data st) as (b & tr & fs & Hraw & _).
  exists b. unfold ingest, store_to_silver, execute_insert. py_unfold.
  rewrite Hl. simpl. rewrite Hraw. simpl.
  rewrite (bool_decide_eq_false_2 _ Hc), (bool_decide_eq_false_2 _ Hk). simpl.
  rewrite Ht, Hi, Hv, Hins. simpl. rewrite Hrow. simpl.
  unfold status_line, and_then. rewrite Hi, Ht, Hv. simpl.
  eexists. repeat split. simpl. apply last_snoc.
Qed.

End Accepted.

Lemma reading_inserted_and_counted_witness :
  let env := Sensors.calm (Examples.after 1) (Examples.after 11) (Examples.after 11) in
  let data := Examples.reading "s1" "2024-01-01T00:00:55" 9 in
  let st := Examples.pending_two in
  ∃ raw_ok st1,
    (store_raw_data env data st).1 = Ret raw_ok ∧
    ingest env (Examples.payload_of data) st = (Ret tt, st1) ∧
    tx_rows (store st1)
    = tx_rows (store st) ++ [mkRow (Examples.after 55) "s1" 9] ∧
    silver (store st1) = silver (store st) ∧
    batch_buffer st1 = batch_buffer st ++ [data] ∧
    last (trace st1)
    = Some (Print (Status raw_ok true "s1"
                     (JStr (String.substring 11 8 "2024-01-01T00:00:55")) 9)).
Proof.
  intros env data st.
  apply (reading_inserted_and_counted env (Examples.payload_of data) data
           "s1" "2024-01-01T00:00:55" 9 (mkRow (Examples.after 55) "s1" 9) st);
    first [discriminate|vm_compute; reflexivity].
Defined.

(** ** An insert the store rejects *)

Section Rejected.
Context {P : Platform}.

(** X25: an insert that fails with an error of the driver, not about the
    connection, costs the readings that waited before it: their rows are
    gone with the aborted transaction while the batch still counts them, so
    the next commit that goes through adds none of them to the committed
    rows, empties the batch and reports all of them as committed. *)
Theorem rejected_insert_loses_waiting_rows (env env' : Env) (data : json)
  (st : State) (e : Exn) (time sensor value : json) :
  db_conn st ≠ None → db_cursor st ≠ None → batch_buffer st ≠ [] →
  getitem data "dt" = Ret time → getitem data "id" = Ret sensor →
  getitem data "value" = Ret value →
  db_insert env = Fails e → is_database_error e = true →
  PyStr.contains "connection" (PyStr.lower (exn_text e)) = false →
  flush_commit env' = Done →
  (store_to_silver env data st).1 = Ret false ∧
  silver (store (flush_batch env' (store_to_silver env data st).2).2)
  = silver (store st) ∧
  tx_rows (store (flush_batch env' (store_to_silver env data st).2).2) = [] ∧
  batch_buffer (flush_batch env' (store_to_silver env data st).2).2 = [] ∧
  last (trace (flush_batch env' (store_to_silver env data st).2).2)
  = Some (Print (SilverCommitted (length (batch_buffer st)))).
Proof.
  intros Hc Hk Hb Ht Hs Hv Hins Hdb Htext Hm.
  assert (Hrun : store_to_silver env data st
                 = (Ret false,
                    set_trace (trace st ++ [Print (SilverError e)])
                      (set_store (store_abort (store st)) st))).
  { unfold store_to_silver, execute_insert, rejected. py_unfold. simpl.
    rewrite (bool_decide_eq_false_2 _ Hc), (bool_decide_eq_false_2 _ Hk). simpl.
    rewrite Ht, Hs, Hv, Hins. simpl. rewrite Hdb. simpl. by rewrite Htext. }
  rewrite Hrun. simpl. split; [reflexivity|].
  rewrite flush_commits by done. simpl.
  unfold visible_rows. simpl. rewrite app_nil_r.
  repeat split.
  change [Call F_flush_batch; Print (SilverCommitted (length (batch_buffer st)))]
    with ([Call F_flush_batch]
          ++ [Print (SilverCommitted (length (batch_buffer st)))]).
  rewrite app_assoc. apply last_snoc.
Qed.

End Rejected.

Lemma rejected_insert_loses_waiting_rows_witness :
  let env := insert_down Examples.deadlock (Examples.after 1) in
  let env' := Sensors.calm (Examples.after 6) (Examples.after 6) (Examples.after 6) in
  let data := Examples.reading "s1" "2024-01-01T00:00:55" 9 in
  let st := Examples.pending_two in
  (store_to_silver env data st).1 = Ret false ∧
  silver (store (flush_batch env' (store_to_silver env data st).2).2)
  = silver (store st) ∧
  tx_rows (store (flush_batch env' (store_to_silver env data st).2).2) = [] ∧
  batch_buffer (flush_batch env' (store_to_silver env data st).2).2 = [] ∧
  last (trace (flush_batch env' (store_to_silver env data st).2).2)
  = Some (Print (SilverCommitted (length (batch_buffer st)))).
Proof.
  intros env env' data st.
  apply (rejected_insert_loses_waiting_rows env env' data st Examples.deadlock
           (JStr "2024-01-01T00:00:55") (JStr "s1") (JInt 9));
    first [discriminate|reflexivity].
Defined.
